(** * LoRa configuration-synchronisation and OTA distribution: a shallow embedding

    The development follows [src/app_logic.cpp] and the radio-sync / OTA
    sections of [src/main.cpp].  Integers of fixed width are carried by [Z]
    with their wrap-around written out, [float] values by the rational they
    denote, Arduino [String]s by [string].  Serial logging and the OLED are
    output-only collaborators and are left out of the embedding; every other
    external call (radio, clock, button pin, preferences, firmware updater)
    is recorded in a trace of events and answered by an environment.  The
    build flag [ENABLE_WIFI_OTA] is a parameter; of the WiFi path only what
    [updateButton] and the packet handling of [loop] reach is embedded. *)

From Stdlib Require Import ZArith QArith Qabs List String Ascii Bool Lia.
From Stdlib Require Import DecimalString.
From Stdlib Require DecimalPos DecimalFacts.
Import ListNotations.

Open Scope Z_scope.

(** ** Fixed-width integers *)

Definition UINT32_MAX : Z := 4294967295.
Definition INT32_MAX : Z := 2147483647.
Definition INT32_MIN : Z := -2147483648.

(** Reduction of a mathematical integer to [uint32_t] / [size_t]. *)
Definition u32 (z : Z) : Z := z mod 2 ^ 32.

(** Reduction of a mathematical integer to [int] (two's complement). *)
Definition i32 (z : Z) : Z := (z + 2 ^ 31) mod 2 ^ 32 - 2 ^ 31.

(** Reduction to [uint8_t]. *)
Definition u8 (z : Z) : Z := z mod 2 ^ 8.

(** ** [app_logic.cpp] *)

Module AppLogic.

Inductive ButtonAction : Type :=
| Ignore
| ToggleMode
| CycleSF
| CycleBW.

Definition classifyPress (pressDurationMs : Z) : ButtonAction :=
  if pressDurationMs <? 100 then Ignore
  else if pressDurationMs <? 1000 then ToggleMode
  else if pressDurationMs <? 3000 then CycleSF
  else CycleBW.

Definition cycleIndex (currentIndex size : Z) : Z :=
  if size <=? 0 then 0
  else
    let next := i32 (currentIndex + 1) in
    if next >=? size then 0 else next.

End AppLogic.

(** ** C strings and the [stdio] conversions used by the firmware *)

Module CStr.

Definition NUL : ascii := "000"%char.

(** [String::c_str()]: the characters up to the first NUL. *)
Fixpoint c_str (s : string) : string :=
  match s with
  | EmptyString => EmptyString
  | String c r => if Ascii.eqb c NUL then EmptyString else String c (c_str r)
  end.

Definition strlen (s : string) : Z := Z.of_nat (String.length s).

(** [String::startsWith]. *)
Definition startsWith (s p : string) : bool := String.prefix p s.

Definition isspace (c : ascii) : bool :=
  let n := nat_of_ascii c in
  (n =? 32)%nat || ((9 <=? n)%nat && (n <=? 13)%nat).

Definition isdigit (c : ascii) : bool :=
  let n := nat_of_ascii c in (48 <=? n)%nat && (n <=? 57)%nat.

Definition digit_val (c : ascii) : Z := Z.of_nat (nat_of_ascii c - 48).

Fixpoint skip_space (s : string) : string :=
  match s with
  | String c r => if isspace c then skip_space r else s
  | EmptyString => EmptyString
  end.

(** Longest run of decimal digits at the head of [s]: its value (on top of
    [acc]), the number of digits read (on top of [n]) and the rest. *)
Fixpoint take_digits (s : string) (acc : Z) (n : nat) : Z * nat * string :=
  match s with
  | String c r =>
      if isdigit c then take_digits r (10 * acc + digit_val c) (S n)
      else (acc, n, s)
  | EmptyString => (acc, n, EmptyString)
  end.

Definition scan_sign (s : string) : bool * string :=
  match s with
  | String "-"%char r => (true, r)
  | String "+"%char r => (false, r)
  | _ => (false, s)
  end.

(** Subject sequence of [strtol]/[strtoul] in base 10: optional sign, then
    at least one digit. *)
Definition scan_decimal (s : string) : option (bool * Z * string) :=
  let (neg, r) := scan_sign s in
  let '(v, n, r') := take_digits r 0 0 in
  match n with
  | O => None
  | S _ => Some (neg, v, r')
  end.

(** [strtol] on a 32-bit [long]: out-of-range values clamp. *)
Definition strtol_value (neg : bool) (v : Z) : Z :=
  let x := if neg then - v else v in
  Z.max INT32_MIN (Z.min INT32_MAX x).

(** [strtoul] on a 32-bit [unsigned long]: overflow gives [ULONG_MAX],
    a minus sign negates modulo 2^32. *)
Definition strtoul_value (neg : bool) (v : Z) : Z :=
  if v >? UINT32_MAX then UINT32_MAX
  else if neg then u32 (- v) else v.

Definition pow10 (n : nat) : Z := 10 ^ Z.of_nat n.

Definition scale10 (q : Q) (e : Z) : Q :=
  if e <? 0 then (q / inject_Z (10 ^ (- e)))%Q else (q * inject_Z (10 ^ e))%Q.

(** Optional exponent part of a decimal floating literal. *)
Definition scan_exponent (s : string) : Z * string :=
  match s with
  | String c r =>
      if Ascii.eqb c "e"%char || Ascii.eqb c "E"%char then
        let (eneg, r1) := scan_sign r in
        let '(ev, n, r2) := take_digits r1 0 0 in
        match n with
        | O => (0, s)
        | S _ => (if eneg then - ev else ev, r2)
        end
      else (0, s)
  | EmptyString => (0, s)
  end.

(** Decimal subject sequence of [strtof]: optional sign, digits with an
    optional fraction, optional exponent.  The value is the rational the
    literal denotes; rounding to binary32 is not part of the model, and the
    spellings of infinity, NaN and hexadecimal literals are not accepted. *)
Definition scan_float (s : string) : option (Q * string) :=
  let (neg, r) := scan_sign s in
  let '(ip, ni, r1) := take_digits r 0 0 in
  let '(m, nf, r2) :=
    match r1 with
    | String "."%char r' => take_digits r' ip 0
    | _ => (ip, O, r1)
    end in
  match ni, nf with
  | O, O => None
  | _, _ =>
      let (e, r3) := scan_exponent r2 in
      let q := scale10 (inject_Z m) (e - Z.of_nat nf) in
      Some (Qred (if neg then - q else q)%Q, r3)
  end.

(** Up to [width] characters that are not white space ([width = 0]: no limit). *)
Fixpoint take_word (s : string) (limited : bool) (width : nat) : string * string :=
  match s with
  | String c r =>
      if isspace c then (EmptyString, s)
      else if limited then
        match width with
        | O => (EmptyString, s)
        | S w => let (a, b) := take_word r true w in (String c a, b)
        end
      else let (a, b) := take_word r false width in (String c a, b)
  | EmptyString => (EmptyString, EmptyString)
  end.

(** *** [sscanf] *)

Inductive directive : Type :=
| DLit (c : ascii)
| DSpace
| DFloat
| DInt
| DUInt
| DStr (width : nat).

(** Reading of a [scanf] format: [conv] is [Some w] while a conversion
    specification with width [w] so far is being read. *)
Fixpoint scan_format (conv : option nat) (fmt : string) : list directive :=
  match fmt with
  | EmptyString => []
  | String c r =>
      match conv with
      | None =>
          if Ascii.eqb c "%"%char then scan_format (Some O) r
          else if isspace c then DSpace :: scan_format None r
          else DLit c :: scan_format None r
      | Some w =>
          if isdigit c then scan_format (Some (10 * w + Z.to_nat (digit_val c))%nat) r
          else if Ascii.eqb c "f"%char then DFloat :: scan_format None r
          else if Ascii.eqb c "d"%char then DInt :: scan_format None r
          else if Ascii.eqb c "u"%char then DUInt :: scan_format None r
          else if Ascii.eqb c "s"%char then DStr w :: scan_format None r
          else DLit c :: scan_format None r
      end
  end.

Inductive scanned : Type :=
| SFloat (q : Q)
| SInt (z : Z)
| SUInt (z : Z)
| SStr (s : string).

(** What a scan produced: the converted items in the order of their
    conversion specifications (each one is stored through its pointer as soon
    as it is converted), and whether the scan stopped on an input failure. *)
Record scan_result : Type := mkScan {
  assigned : list scanned;
  input_failure : bool
}.

Definition scan_conv (d : directive) (input : string) : option (scanned * string) :=
  match d with
  | DFloat =>
      match scan_float input with
      | Some (q, r) => Some (SFloat q, r)
      | None => None
      end
  | DInt =>
      match scan_decimal input with
      | Some (neg, v, r) => Some (SInt (strtol_value neg v), r)
      | None => None
      end
  | DUInt =>
      match scan_decimal input with
      | Some (neg, v, r) => Some (SUInt (strtoul_value neg v), r)
      | None => None
      end
  | DStr w =>
      let (a, r) := take_word input (negb (w =? 0)%nat) w in Some (SStr a, r)
  | DLit _ | DSpace => None
  end.

Fixpoint scan (fmt : list directive) (input : string) : scan_result :=
  match fmt with
  | [] => mkScan [] false
  | DSpace :: fmt' => scan fmt' (skip_space input)
  | DLit c :: fmt' =>
      match input with
      | EmptyString => mkScan [] true
      | String a r => if Ascii.eqb a c then scan fmt' r else mkScan [] false
      end
  | d :: fmt' =>
      match skip_space input with
      | EmptyString => mkScan [] true
      | input' =>
          match scan_conv d input' with
          | None => mkScan [] false
          | Some (v, r) =>
              let res := scan fmt' r in
              mkScan (v :: assigned res) (input_failure res)
          end
      end
  end.

Definition EOF : Z := -1.

(** The items [sscanf] stores for [input] under [fmt]. *)
Definition sscanf (input fmt : string) : scan_result :=
  scan (scan_format None fmt) input.

(** The value [sscanf] returns: the number of items stored, or [EOF] when the
    input ended before the first conversion. *)
Definition sscanf_count (res : scan_result) : Z :=
  match assigned res with
  | [] => if input_failure res then EOF else 0
  | l => Z.of_nat (List.length l)
  end.

(** *** [snprintf] *)

(** Decimal spelling of an integer ([%d], [%u], [%lu], [%zu]). *)
Definition fmt_d (z : Z) : string := NilZero.string_of_int (Z.to_int z).

(** Nearest integer to a non-negative rational, ties to even: the rounding
    [printf] applies to the exact value of the argument. *)
Definition round_half_even (q : Q) : Z :=
  let n := Qnum q in
  let d := Zpos (Qden q) in
  let fl := n / d in
  let r2 := 2 * (n mod d) in
  if r2 <? d then fl
  else if r2 >? d then fl + 1
  else if Z.even fl then fl else fl + 1.

Fixpoint zeros (n : nat) : string :=
  match n with
  | O => EmptyString
  | S k => String "0"%char (zeros k)
  end.

(** [%.<prec>f]. *)
Definition fmt_f (prec : nat) (q : Q) : string :=
  let scaled := round_half_even (Qabs q * inject_Z (pow10 prec))%Q in
  let ip := fmt_d (scaled / pow10 prec) in
  let fp := fmt_d (scaled mod pow10 prec) in
  let body :=
    match prec with
    | O => ip
    | S _ => (ip ++ "." ++ zeros (prec - String.length fp) ++ fp)%string
    end in
  if Qnum q <? 0 then String "-"%char body else body.

Inductive printf_arg : Type :=
| AFloat (q : Q)
| AInt (z : Z)
| AStr (s : string).

(** Reading of a [printf] format: [conv] is [Some p] inside a conversion
    specification, [p] being the precision read so far (6 when none is
    given).  Length modifiers [l] and [z] do not change the spelling. *)
Fixpoint printf (conv : option (option nat)) (fmt : string) (args : list printf_arg)
  : string :=
  match fmt with
  | EmptyString => EmptyString
  | String c r =>
      match conv with
      | None =>
          if Ascii.eqb c "%"%char then printf (Some None) r args
          else String c (printf None r args)
      | Some p =>
          if Ascii.eqb c "."%char then printf (Some (Some O)) r args
          else if isdigit c then
            match p with
            | Some n => printf (Some (Some (10 * n + Z.to_nat (digit_val c))%nat)) r args
            | None => printf conv r args
            end
          else if Ascii.eqb c "l"%char || Ascii.eqb c "z"%char then printf conv r args
          else
            match args with
            | a :: args' =>
                (match a with
                 | AFloat q => fmt_f (match p with Some n => n | None => 6%nat end) q
                 | AInt z => fmt_d z
                 | AStr s => s
                 end ++ printf None r args')%string
            | [] => printf None r []
            end
      end
  end.

(** [snprintf(buf, size, fmt, ...)]: at most [size - 1] characters are kept. *)
Definition snprintf (size : nat) (fmt : string) (args : list printf_arg) : string :=
  String.substring 0 (size - 1) (printf None fmt args).

(** Words stored by [%<w>s] conversions are at most [w] characters long. *)
Definition word_bound (W : nat) (v : scanned) : Prop :=
  match v with
  | SStr s => (String.length s <= W)%nat
  | _ => True
  end.

Definition width_bound (W : nat) (d : directive) : Prop :=
  match d with
  | DStr w => (0 < w <= W)%nat
  | _ => True
  end.

End CStr.

(** ** [main.cpp]: state of the node *)

Module Firmware.

Import CStr.

(** Build-time defaults of the data channel and of the control channel. *)
Definition LORA_FREQ_MHZ : Q := 915.
Definition LORA_BW_KHZ : Q := 125.
Definition LORA_SF : Z := 9.
Definition LORA_CR : Z := 5.
Definition LORA_TX_DBM : Z := 17.
Definition CTRL_FREQ_MHZ : Q := LORA_FREQ_MHZ.
Definition CTRL_BW_KHZ : Q := 125.
Definition CTRL_SF : Z := 9.
Definition CTRL_CR : Z := 5.

Definition RADIOLIB_ERR_NONE : Z := 0.
Definition RADIOLIB_ERR_RX_TIMEOUT : Z := -6.

Definition HIGH : bool := true.
Definition LOW : bool := false.

(** The five radio parameters ([currentFreq] .. [currentTxPower], and
    [pendingFreq] .. [pendingTxPower]). *)
Record RadioParams : Type := mkParams {
  Freq : Q;
  BW : Q;
  SF : Z;
  CR : Z;
  TxPower : Z
}.

Definition sfValues : list Z := [7; 8; 9; 10; 11; 12].
Definition bwValues : list Q := [62.5; 125; 250; 500]%Q.
Definition txPowerValues : list Z := [2; 3; 5; 8; 10; 12; 15; 17; 20; 22].

Record ButtonState : Type := mkButton {
  lastButtonMs : Z;
  lastButtonState : bool;
  buttonPressMs : Z;
  buttonPressed : bool
}.

Record Indices : Type := mkIndices {
  currentSfIndex : Z;
  currentBwIndex : Z;
  currentTxIndex : Z
}.

Record SignalStats : Type := mkSignal {
  lastRSSI : Q;
  lastSNR : Q;
  lastPacketTime : Z;
  packetCount : Z;
  errorCount : Z
}.

(** Config broadcast state (sender). *)
Record ConfigBroadcast : Type := mkCfg {
  pendingConfigBroadcast : bool;
  pending : RadioParams;
  cfgLastTxMs : Z;
  cfgRemaining : Z
}.

(** LoRa OTA state. *)
Record OtaSession : Type := mkOta {
  loraOtaActive : bool;
  loraOtaStartTime : Z;
  loraOtaTimeout : Z;
  loraOtaBuffer : list ascii;
  loraOtaBufferSize : Z;
  loraOtaExpectedSize : Z;
  loraOtaReceivedSize : Z
}.

Inductive NetworkSelectionMode : Type :=
| AUTO
| MANUAL_HOME
| MANUAL_WORK
| MANUAL_CUSTOM.

(** State that exists only in builds with [ENABLE_WIFI_OTA]. *)
Record WifiState : Type := mkWifi {
  wifiConnected : bool;
  currentNetworkMode : NetworkSelectionMode;
  storedFirmware : list ascii;
  storedFirmwareSize : Z;
  hasStoredFirmware : bool
}.

(** The file-scope variables of [main.cpp], with the two [static] locals of
    [loop] ([lastTxMs], [lastRxMs]). *)
Record Node : Type := mkNode {
  isSender : bool;
  seq : Z;
  button : ButtonState;
  current : RadioParams;
  indices : Indices;
  signal : SignalStats;
  cfg : ConfigBroadcast;
  ota : OtaSession;
  wifi : WifiState;
  lastTxMs : Z;
  lastRxMs : Z
}.

Definition currentFreq (n : Node) : Q := Freq (current n).
Definition currentBW (n : Node) : Q := BW (current n).
Definition currentSF (n : Node) : Z := SF (current n).
Definition currentCR (n : Node) : Z := CR (current n).
Definition currentTxPower (n : Node) : Z := TxPower (current n).

Definition set_isSender (v : bool) (n : Node) : Node :=
  mkNode v (seq n) (button n) (current n) (indices n) (signal n) (cfg n) (ota n)
         (wifi n) (lastTxMs n) (lastRxMs n).
Definition set_seq (v : Z) (n : Node) : Node :=
  mkNode (isSender n) v (button n) (current n) (indices n) (signal n) (cfg n) (ota n)
         (wifi n) (lastTxMs n) (lastRxMs n).
Definition set_button (v : ButtonState) (n : Node) : Node :=
  mkNode (isSender n) (seq n) v (current n) (indices n) (signal n) (cfg n) (ota n)
         (wifi n) (lastTxMs n) (lastRxMs n).
Definition set_current (v : RadioParams) (n : Node) : Node :=
  mkNode (isSender n) (seq n) (button n) v (indices n) (signal n) (cfg n) (ota n)
         (wifi n) (lastTxMs n) (lastRxMs n).
Definition set_indices (v : Indices) (n : Node) : Node :=
  mkNode (isSender n) (seq n) (button n) (current n) v (signal n) (cfg n) (ota n)
         (wifi n) (lastTxMs n) (lastRxMs n).
Definition set_signal (v : SignalStats) (n : Node) : Node :=
  mkNode (isSender n) (seq n) (button n) (current n) (indices n) v (cfg n) (ota n)
         (wifi n) (lastTxMs n) (lastRxMs n).
Definition set_cfg (v : ConfigBroadcast) (n : Node) : Node :=
  mkNode (isSender n) (seq n) (button n) (current n) (indices n) (signal n) v (ota n)
         (wifi n) (lastTxMs n) (lastRxMs n).
Definition set_ota (v : OtaSession) (n : Node) : Node :=
  mkNode (isSender n) (seq n) (button n) (current n) (indices n) (signal n) (cfg n) v
         (wifi n) (lastTxMs n) (lastRxMs n).
Definition set_wifi (v : WifiState) (n : Node) : Node :=
  mkNode (isSender n) (seq n) (button n) (current n) (indices n) (signal n) (cfg n)
         (ota n) v (lastTxMs n) (lastRxMs n).
Definition set_lastTxMs (v : Z) (n : Node) : Node :=
  mkNode (isSender n) (seq n) (button n) (current n) (indices n) (signal n) (cfg n)
         (ota n) (wifi n) v (lastRxMs n).
Definition set_lastRxMs (v : Z) (n : Node) : Node :=
  mkNode (isSender n) (seq n) (button n) (current n) (indices n) (signal n) (cfg n)
         (ota n) (wifi n) (lastTxMs n) v.

(** The values the variables hold before [setup] runs. *)
Definition initialNode : Node :=
  mkNode true 0
         (mkButton 0 HIGH 0 false)
         (mkParams LORA_FREQ_MHZ LORA_BW_KHZ LORA_SF LORA_CR LORA_TX_DBM)
         (mkIndices 2 1 7)
         (mkSignal (-999) (-999) 0 0 0)
         (mkCfg false (mkParams 0 0 0 0 0) 0 0)
         (mkOta false 0 30000 (repeat NUL 1024) 0 0 0)
         (mkWifi false AUTO (repeat NUL (N.to_nat 65536)) 0 false)
         0 0.

(** ** External calls *)

Inductive PrefValue : Type :=
| PFloat (q : Q)
| PInt (z : Z)
| PBool (b : bool).

Inductive Event : Type :=
| RadioBegin (p : RadioParams)
| RadioSetDio2AsRfSwitch
| RadioSetCRC
| RadioSetFrequency (f : Q)
| RadioSetBandwidth (bw : Q)
| RadioSetSpreadingFactor (sf : Z)
| RadioSetCodingRate (cr : Z)
| RadioSetOutputPower (p : Z)
| RadioTransmit (msg : string)
| RadioReceive
| DigitalRead
| PrefsPut (key : string) (v : PrefValue)
| UpdateBegin (size : Z)
| UpdateWrite (data : list ascii)
| UpdateEnd
| EspRestart
| WifiStatus
| WifiDisconnect
| WifiConnect
| WifiSaveNetworkMode (m : NetworkSelectionMode).

(** What the collaborators answer.  External calls are numbered in the order
    in which the program makes them; each field is read at the number of the
    call that asks for it. *)
Record Env : Type := mkEnv {
  (* status code returned by a radio call *)
  radioStatus : nat -> Z;
  (* milliseconds a blocking call (radio, WiFi connect) takes *)
  radioBlocks : nat -> N;
  (* packet, RSSI and SNR a successful receive delivers *)
  rxPacket : nat -> string;
  rxRSSI : nat -> Q;
  rxSNR : nat -> Q;
  (* level read from the button pin *)
  pinLevel : nat -> bool;
  (* result of [Update.begin] and [Update.end] *)
  updateOk : nat -> bool;
  (* whether WiFi is connected ([WiFi.status()], [connectToWiFi()]) *)
  wifiUp : nat -> bool
}.

(** The node in its surroundings: [clock] is the time since boot in
    milliseconds, [tick] the number of external calls made so far, [trace] the
    calls made, most recent first, each with the time at which it started. *)
Record World : Type := mkWorld {
  node : Node;
  clock : Z;
  tick : nat;
  trace : list (Z * Event)
}.

Inductive StopReason : Type :=
| Restart
| DivideByZero
| BufferOverrun
| OutOfFuel.

(** A computation either returns, or the program stops running: the chip
    restarts, traps, or the loop budget of the model is used up. *)
Inductive Outcome (A : Type) : Type :=
| Ret (a : A) (w : World)
| Stop (r : StopReason) (w : World).

Arguments Ret {A} a w.
Arguments Stop {A} r w.

Definition M (A : Type) : Type := World -> Outcome A.

Definition ret {A} (a : A) : M A := fun w => Ret a w.

Definition bind {A B} (m : M A) (k : A -> M B) : M B :=
  fun w =>
    match m w with
    | Ret a w' => k a w'
    | Stop r w' => Stop r w'
    end.

Definition stop {A} (r : StopReason) : M A := fun w => Stop r w.

Declare Scope m_scope.
Delimit Scope m_scope with M.
Notation "x <- c1 ;; c2" := (bind c1 (fun x => c2))
  (at level 61, c1 at next level, right associativity) : m_scope.
Notation "c1 ;; c2" := (bind c1 (fun _ => c2))
  (at level 61, right associativity) : m_scope.
Notation "' p <- c1 ;; c2" := (bind c1 (fun x => let 'p := x in c2))
  (at level 61, p pattern, c1 at next level, right associativity) : m_scope.
Open Scope m_scope.

Definition get : M Node := fun w => Ret (node w) w.

Definition modify (f : Node -> Node) : M unit :=
  fun w => Ret tt (mkWorld (f (node w)) (clock w) (tick w) (trace w)).

Definition when (b : bool) (m : M unit) : M unit := if b then m else ret tt.

(** [millis()]: the clock as a [uint32_t]. *)
Definition millis : M Z := fun w => Ret (u32 (clock w)) w.

Definition delay (ms : Z) : M unit :=
  fun w => Ret tt (mkWorld (node w) (clock w + ms) (tick w) (trace w)).

(** An external call that returns at once; the result is its number. *)
Definition call (e : Event) : M nat :=
  fun w => Ret (tick w) (mkWorld (node w) (clock w) (S (tick w)) ((clock w, e) :: trace w)).

Section WithEnv.

Variable ENABLE_WIFI_OTA : bool.
Variable env : Env.

(** An external call that blocks for as long as the environment says. *)
Definition blocking (e : Event) : M nat :=
  fun w =>
    Ret (tick w)
        (mkWorld (node w) (clock w + Z.of_N (radioBlocks env (tick w))) (S (tick w))
                 ((clock w, e) :: trace w)).

(** A radio call and its status code. *)
Definition radio (e : Event) : M Z :=
  k <- blocking e ;; ret (radioStatus env k).

(** [radio.receive(rx)], followed by [getRSSI] and [getSNR]: the packet is
    stored only when the status is [RADIOLIB_ERR_NONE]. *)
Definition radio_receive : M (Z * string * Q * Q) :=
  k <- blocking RadioReceive ;;
  let st := radioStatus env k in
  ret (st, if st =? RADIOLIB_ERR_NONE then rxPacket env k else EmptyString,
       rxRSSI env k, rxSNR env k).

Definition digitalRead : M bool :=
  k <- call DigitalRead ;; ret (pinLevel env k).

Definition radio_begin (p : RadioParams) : M Z := radio (RadioBegin p).

Definition CFG_FORMAT_OUT : string := "CFG F=%.1f BW=%.0f SF=%d CR=%d TX=%d".
Definition CFG_FORMAT_IN : string := "CFG F=%f BW=%f SF=%d CR=%d TX=%d".

(** [snprintf(msg, sizeof(msg), "CFG F=%.1f BW=%.0f SF=%d CR=%d TX=%d", ...)]
    with [char msg[64]]. *)
Definition formatConfigMessage (p : RadioParams) : string :=
  snprintf 64 CFG_FORMAT_OUT
           [AFloat (Freq p); AFloat (BW p); AInt (SF p); AInt (CR p); AInt (TxPower p)].

Definition stored_float (items : list scanned) (i : nat) (old : Q) : Q :=
  match nth_error items i with
  | Some (SFloat q) => q
  | _ => old
  end.

Definition stored_int (items : list scanned) (i : nat) (old : Z) : Z :=
  match nth_error items i with
  | Some (SInt z) => z
  | _ => old
  end.

Definition stored_uint (items : list scanned) (i : nat) (old : Z) : Z :=
  match nth_error items i with
  | Some (SUInt z) => z
  | _ => old
  end.

(** [sscanf(rx.c_str(), "CFG F=%f BW=%f SF=%d CR=%d TX=%d", &nf, &nb, &nsf,
    &ncr, &ntx)] on locals that start as the current parameters: the return
    value and the locals afterwards. *)
Definition parseConfigMessage (rx : string) (cur : RadioParams) : Z * RadioParams :=
  let res := sscanf (c_str rx) CFG_FORMAT_IN in
  let items := assigned res in
  (sscanf_count res,
   mkParams (stored_float items 0 (Freq cur)) (stored_float items 1 (BW cur))
            (stored_int items 2 (SF cur)) (stored_int items 3 (CR cur))
            (stored_int items 4 (TxPower cur))).

Definition startConfigBroadcast (p : RadioParams) : M unit :=
  modify (set_cfg (mkCfg true p 0 8)).

(** First position [i + k] such that the [k]-th element of [table] equals [v]. *)
Fixpoint find_index {A} (eqb : A -> A -> bool) (table : list A) (v : A) (i : Z)
  : option Z :=
  match table with
  | [] => None
  | x :: t => if eqb x v then Some i else find_index eqb t v (i + 1)
  end.

Definition index_or {A} (eqb : A -> A -> bool) (table : list A) (v : A) (old : Z) : Z :=
  match find_index eqb table v 0 with
  | Some i => i
  | None => old
  end.

(** The three search loops; [loop] repeats them in line after a commit. *)
Definition computeIndicesFromCurrent : M unit :=
  modify (fun n =>
    set_indices
      (mkIndices (index_or Z.eqb sfValues (currentSF n) (currentSfIndex (indices n)))
                 (index_or Qeq_bool bwValues (currentBW n) (currentBwIndex (indices n)))
                 (index_or Z.eqb txPowerValues (currentTxPower n)
                           (currentTxIndex (indices n))))
      n).

Definition savePersistedSettings : M unit :=
  n <- get ;;
  call (PrefsPut "freq" (PFloat (currentFreq n))) ;;
  call (PrefsPut "bw" (PFloat (currentBW n))) ;;
  call (PrefsPut "sf" (PInt (currentSF n))) ;;
  call (PrefsPut "cr" (PInt (currentCR n))) ;;
  call (PrefsPut "tx" (PInt (currentTxPower n))) ;;
  ret tt.

Definition savePersistedRole : M unit :=
  n <- get ;;
  call (PrefsPut "sender" (PBool (isSender n))) ;;
  ret tt.

Definition updateRadioSettings : M unit :=
  n <- get ;;
  st <- radio (RadioSetFrequency (currentFreq n)) ;;
  st <- (if st =? RADIOLIB_ERR_NONE then radio (RadioSetBandwidth (currentBW n))
         else ret st) ;;
  st <- (if st =? RADIOLIB_ERR_NONE then radio (RadioSetSpreadingFactor (currentSF n))
         else ret st) ;;
  st <- (if st =? RADIOLIB_ERR_NONE then radio (RadioSetCodingRate (currentCR n))
         else ret st) ;;
  st <- (if st =? RADIOLIB_ERR_NONE then radio (RadioSetOutputPower (currentTxPower n))
         else ret st) ;;
  ret tt.

(** ** Control-channel rendezvous *)

Definition controlParams (n : Node) : RadioParams :=
  mkParams CTRL_FREQ_MHZ CTRL_BW_KHZ CTRL_SF CTRL_CR (currentTxPower n).

(** [radio.setDio2AsRfSwitch(true); radio.setCRC(true);] *)
Definition radio_finish_begin : M unit :=
  radio RadioSetDio2AsRfSwitch ;; radio RadioSetCRC ;; ret tt.

(** The [for] loop of [broadcastConfigOnControlChannel]. *)
Fixpoint transmitRepeated (times : nat) (msg : string) (intervalMs : Z) : M unit :=
  match times with
  | O => ret tt
  | S k =>
      radio (RadioTransmit msg) ;;
      delay intervalMs ;;
      transmitRepeated k msg intervalMs
  end.

Definition broadcastConfigOnControlChannel (times : Z) (intervalMs : Z) : M unit :=
  n <- get ;;
  st <- radio_begin (controlParams n) ;;
  if negb (st =? RADIOLIB_ERR_NONE) then ret tt
  else
    radio_finish_begin ;;
    transmitRepeated (Z.to_nat (u8 times)) (formatConfigMessage (current n)) intervalMs ;;
    st <- radio_begin (current n) ;;
    if negb (st =? RADIOLIB_ERR_NONE) then ret tt
    else radio_finish_begin.

(** The [while (millis() - start < durationMs)] loop of
    [tryReceiveConfigOnControlChannel]; [fuel] is the number of turns the
    model may take. *)
Fixpoint listenOnControlChannel (fuel : nat) (start durationMs : Z) : M unit :=
  now <- millis ;;
  if u32 (now - start) <? durationMs then
    match fuel with
    | O => stop OutOfFuel
    | S fuel' =>
        '(r, rx, _, _) <- radio_receive ;;
        applied <-
          (if (r =? RADIOLIB_ERR_NONE) && startsWith rx "CFG " then
             n <- get ;;
             let (parsed, np) := parseConfigMessage rx (current n) in
             if parsed =? 5 then
               modify (set_current np) ;;
               computeIndicesFromCurrent ;;
               savePersistedSettings ;;
               ret true
             else ret false
           else ret false) ;;
        if applied then ret tt (* break *)
        else
          delay 50 ;;
          listenOnControlChannel fuel' start durationMs
    end
  else ret tt.

Definition tryReceiveConfigOnControlChannel (fuel : nat) (durationMs : Z) : M unit :=
  n <- get ;;
  st <- radio_begin (controlParams n) ;;
  if negb (st =? RADIOLIB_ERR_NONE) then ret tt
  else
    radio_finish_begin ;;
    start <- millis ;;
    listenOnControlChannel fuel start durationMs ;;
    n <- get ;;
    st <- radio_begin (current n) ;;
    if negb (st =? RADIOLIB_ERR_NONE) then ret tt
    else radio_finish_begin.

(** ** Button *)

Definition nextNetworkMode (m : NetworkSelectionMode) : NetworkSelectionMode :=
  match m with
  | AUTO => MANUAL_HOME
  | MANUAL_HOME => MANUAL_WORK
  | MANUAL_WORK => AUTO
  | MANUAL_CUSTOM => AUTO
  end.

(** [connectToWiFi()] of the WiFi manager, taken as a collaborator. *)
Definition connectToWiFi : M bool :=
  k <- blocking WifiConnect ;; ret (wifiUp env k).

Definition set_wifiConnected (b : bool) (n : Node) : Node :=
  set_wifi (mkWifi b (currentNetworkMode (wifi n)) (storedFirmware (wifi n))
                   (storedFirmwareSize (wifi n)) (hasStoredFirmware (wifi n))) n.

Definition set_currentNetworkMode (m : NetworkSelectionMode) (n : Node) : Node :=
  set_wifi (mkWifi (wifiConnected (wifi n)) m (storedFirmware (wifi n))
                   (storedFirmwareSize (wifi n)) (hasStoredFirmware (wifi n))) n.

Definition NetworkSelectionMode_eqb (a b : NetworkSelectionMode) : bool :=
  match a, b with
  | AUTO, AUTO | MANUAL_HOME, MANUAL_HOME
  | MANUAL_WORK, MANUAL_WORK | MANUAL_CUSTOM, MANUAL_CUSTOM => true
  | _, _ => false
  end.

(** [setNetworkMode] of [wifi_manager.cpp]. *)
Definition setNetworkMode (mode : NetworkSelectionMode) : M unit :=
  n <- get ;;
  if NetworkSelectionMode_eqb (currentNetworkMode (wifi n)) mode then ret tt
  else
    modify (set_currentNetworkMode mode) ;;
    call (WifiSaveNetworkMode mode) ;;
    k <- call WifiStatus ;;
    when (wifiUp env k)
         (call WifiDisconnect ;; delay 1000 ;; connectToWiFi ;; ret tt).

(** [(index + 1) % (sizeof(table) / sizeof(table[0]))] in [size_t]. *)
Definition nextIndex {A} (index : Z) (table : list A) : Z :=
  u32 (index + 1) mod Z.of_nat (List.length table).

Definition table_at {A} (table : list A) (i : Z) (d : A) : A :=
  nth (Z.to_nat i) table d.

Definition with_SF (v : Z) (p : RadioParams) : RadioParams :=
  mkParams (Freq p) (BW p) v (CR p) (TxPower p).

Definition with_BW (v : Q) (p : RadioParams) : RadioParams :=
  mkParams (Freq p) v (SF p) (CR p) (TxPower p).

(** Medium press, [1000 <= pressDuration < 3000]. *)
Definition onMediumPress : M unit :=
  n <- get ;;
  if isSender n then
    let nextSF := table_at sfValues (i32 (nextIndex (currentSfIndex (indices n)) sfValues)) 0 in
    startConfigBroadcast (with_SF nextSF (current n))
  else if ENABLE_WIFI_OTA then
    setNetworkMode (nextNetworkMode (currentNetworkMode (wifi n))) ;;
    n <- get ;;
    when (wifiConnected (wifi n))
         (call WifiDisconnect ;;
          delay 1000 ;;
          ok <- connectToWiFi ;;
          modify (set_wifiConnected ok))
  else
    let i := nextIndex (currentSfIndex (indices n)) sfValues in
    modify (fun n =>
      set_current (with_SF (table_at sfValues i 0) (current n))
        (set_indices (mkIndices i (currentBwIndex (indices n)) (currentTxIndex (indices n)))
                     n)) ;;
    updateRadioSettings ;;
    savePersistedSettings.

(** Long press, [pressDuration >= 3000]. *)
Definition onLongPress : M unit :=
  n <- get ;;
  if isSender n then
    let nextBW := table_at bwValues (i32 (nextIndex (currentBwIndex (indices n)) bwValues)) 0%Q in
    startConfigBroadcast (with_BW nextBW (current n))
  else
    let i := nextIndex (currentBwIndex (indices n)) bwValues in
    modify (fun n =>
      set_current (with_BW (table_at bwValues i 0%Q) (current n))
        (set_indices (mkIndices (currentSfIndex (indices n)) i (currentTxIndex (indices n)))
                     n)) ;;
    updateRadioSettings ;;
    savePersistedSettings.

(** Short press, [100 <= pressDuration < 1000]. *)
Definition onShortPress : M unit :=
  modify (fun n => set_seq 0 (set_isSender (negb (isSender n)) n)) ;;
  savePersistedRole.

Definition updateButton : M unit :=
  s <- digitalRead ;;
  now <- millis ;;
  n <- get ;;
  let b := button n in
  (* press detection *)
  let b1 :=
    if Bool.eqb (lastButtonState b) HIGH && Bool.eqb s LOW
    then mkButton (lastButtonMs b) (lastButtonState b) now true
    else b in
  modify (set_button b1) ;;
  (* release detection *)
  (if Bool.eqb (lastButtonState b1) LOW && Bool.eqb s HIGH && buttonPressed b1 then
     modify (set_button (mkButton (lastButtonMs b1) (lastButtonState b1)
                                  (buttonPressMs b1) false)) ;;
     let pressDuration := u32 (now - buttonPressMs b1) in
     (if pressDuration <? 100 then ret tt
      else if pressDuration <? 1000 then onShortPress
      else if pressDuration <? 3000 then onMediumPress
      else onLongPress) ;;
     modify (fun n => set_button (mkButton now (lastButtonState (button n))
                                           (buttonPressMs (button n))
                                           (buttonPressed (button n))) n)
   else ret tt) ;;
  modify (fun n => set_button (mkButton (lastButtonMs (button n)) s
                                        (buttonPressMs (button n))
                                        (buttonPressed (button n))) n).

(** ** LoRa OTA *)

Definition OTA_BUFFER_SIZE : Z := 1024.

(** [memcpy(buf + off, data, len)] into an array: defined only inside it. *)
Definition memcpy (buf : list ascii) (off : Z) (data : list ascii) : option (list ascii) :=
  let len := Z.of_nat (List.length data) in
  if (0 <=? off) && (off + len <=? Z.of_nat (List.length buf)) then
    Some (firstn (Z.to_nat off) buf ++ data ++ skipn (Z.to_nat (off + len)) buf)
  else None.

Definition set_loraOtaActive (b : bool) (n : Node) : Node :=
  let o := ota n in
  set_ota (mkOta b (loraOtaStartTime o) (loraOtaTimeout o) (loraOtaBuffer o)
                 (loraOtaBufferSize o) (loraOtaExpectedSize o) (loraOtaReceivedSize o)) n.

(** The [OTA_START:] branch.  [sscanf] is handed the addresses of
    [loraOtaExpectedSize] and [loraOtaTimeout]: what it converts is stored
    there whether or not both conversions succeed. *)
Definition handleOtaStart (packet : string) : M unit :=
  let res := sscanf (c_str packet) "OTA_START:%u:%u" in
  let parsed := sscanf_count res in
  modify (fun n =>
    let o := ota n in
    set_ota (mkOta (loraOtaActive o) (loraOtaStartTime o)
                   (stored_uint (assigned res) 1 (loraOtaTimeout o))
                   (loraOtaBuffer o) (loraOtaBufferSize o)
                   (stored_uint (assigned res) 0 (loraOtaExpectedSize o))
                   (loraOtaReceivedSize o)) n) ;;
  if parsed =? 2 then
    now <- millis ;;
    modify (fun n =>
      let o := ota n in
      set_ota (mkOta true now (loraOtaTimeout o) (loraOtaBuffer o) 0
                     (loraOtaExpectedSize o) 0) n)
  else ret tt.

(** The [OTA_DATA:] branch. *)
Definition handleOtaData (packet : string) : M unit :=
  n <- get ;;
  if negb (loraOtaActive (ota n)) then ret tt
  else
    let res := sscanf (c_str packet) "OTA_DATA:%d:%255s" in
    if sscanf_count res =? 2 then
      match nth_error (assigned res) 1 with
      | Some (SStr data) =>
          let o := ota n in
          let dataLen := strlen data in
          if u32 (loraOtaBufferSize o + dataLen) <? OTA_BUFFER_SIZE then
            match memcpy (loraOtaBuffer o) (loraOtaBufferSize o) (list_ascii_of_string data) with
            | None => stop BufferOverrun
            | Some buf =>
                let received := u32 (loraOtaReceivedSize o + dataLen) in
                modify (set_ota (mkOta (loraOtaActive o) (loraOtaStartTime o)
                                       (loraOtaTimeout o) buf
                                       (u32 (loraOtaBufferSize o + dataLen))
                                       (loraOtaExpectedSize o) received)) ;;
                (* int percent = (loraOtaReceivedSize * 100) / loraOtaExpectedSize; *)
                if loraOtaExpectedSize o =? 0 then stop DivideByZero else ret tt
            end
          else ret tt
      | _ => ret tt
      end
    else ret tt.

(** The [OTA_END:] branch. *)
Definition handleOtaEnd : M unit :=
  n <- get ;;
  let o := ota n in
  if negb (loraOtaActive o) then ret tt
  else
    (if loraOtaReceivedSize o >=? loraOtaExpectedSize o then
       kb <- call (UpdateBegin (loraOtaExpectedSize o)) ;;
       if updateOk env kb then
         call (UpdateWrite (firstn (Z.to_nat (loraOtaBufferSize o)) (loraOtaBuffer o))) ;;
         ke <- call UpdateEnd ;;
         if updateOk env ke then
           delay 2000 ;;
           call EspRestart ;;
           stop Restart
         else ret tt
       else ret tt
     else ret tt) ;;
    modify (set_loraOtaActive false).

Definition handleLoraOtaPacket (packet : string) : M unit :=
  if startsWith packet "OTA_START:" then handleOtaStart packet
  else if startsWith packet "OTA_DATA:" then handleOtaData packet
  else if startsWith packet "OTA_END:" then handleOtaEnd
  else ret tt.

Definition checkLoraOtaTimeout : M unit :=
  n <- get ;;
  now <- millis ;;
  when (loraOtaActive (ota n)
        && (u32 (now - loraOtaStartTime (ota n)) >? loraOtaTimeout (ota n)))
       (modify (set_loraOtaActive false)).

(** The [while (sentBytes < firmwareSize)] loop of [sendLoraOtaUpdate]; every
    turn sends at least one byte, so [fuel = firmwareSize] turns are enough.
    The characters that follow the copied chunk in [chunkMsg] are not set by
    the program; the message sent is taken to end with the chunk. *)
Fixpoint sendChunks (fuel : nat) (firmware : list ascii) (firmwareSize sentBytes chunkNum : Z)
  : M unit :=
  if sentBytes <? firmwareSize then
    match fuel with
    | O => stop OutOfFuel
    | S fuel' =>
        let currentChunkSize := Z.min 200 (firmwareSize - sentBytes) in
        let header := snprintf 256 "OTA_DATA:%d:" [AInt chunkNum] in
        let chunk := firstn (Z.to_nat currentChunkSize) (skipn (Z.to_nat sentBytes) firmware) in
        radio (RadioTransmit (c_str (header ++ string_of_list_ascii chunk))) ;;
        delay 50 ;;
        sendChunks fuel' firmware firmwareSize (sentBytes + currentChunkSize)
                   (i32 (chunkNum + 1))
    end
  else ret tt.

Definition sendLoraOtaUpdate (firmware : list ascii) (firmwareSize : Z) : M unit :=
  n <- get ;;
  if isSender n then ret tt
  else
    radio (RadioTransmit
             (snprintf 64 "OTA_START:%zu:%lu"
                       [AInt firmwareSize; AInt (loraOtaTimeout (ota n))])) ;;
    delay 100 ;;
    sendChunks (Z.to_nat firmwareSize) firmware firmwareSize 0 0 ;;
    radio (RadioTransmit "OTA_END:") ;;
    delay 100.

(** ** [loop] *)

(** What [loop] does with a packet received with status [RADIOLIB_ERR_NONE]. *)
Definition handleReceivedPacket (now : Z) (rx : string) (rssi snr : Q) : M unit :=
  modify (fun n =>
    set_signal (mkSignal rssi snr now (u32 (packetCount (signal n) + 1))
                         (errorCount (signal n))) n) ;;
  if startsWith rx "CFG " then
    n <- get ;;
    let (parsed, np) := parseConfigMessage rx (current n) in
    if parsed =? 5 then
      modify (set_current np) ;;
      computeIndicesFromCurrent ;;
      updateRadioSettings ;;
      savePersistedSettings
    else ret tt
  else if startsWith rx "OTA_" then
    handleLoraOtaPacket rx
  else if startsWith rx "FW_UPDATE_AVAILABLE" || startsWith rx "UPDATE_NOW" then
    n <- get ;;
    when (isSender n) (radio (RadioTransmit "REQUEST_UPDATE") ;; ret tt)
  else if startsWith rx "REQUEST_UPDATE" then
    n <- get ;;
    when (negb (isSender n))
         (radio (RadioTransmit "UPDATE_ACK") ;;
          delay 100 ;;
          if ENABLE_WIFI_OTA then
            if hasStoredFirmware (wifi n) && (storedFirmwareSize (wifi n) >? 0) then
              sendLoraOtaUpdate (storedFirmware (wifi n)) (storedFirmwareSize (wifi n))
            else radio (RadioTransmit "NO_FIRMWARE") ;; ret tt
          else radio (RadioTransmit "NO_FIRMWARE") ;; ret tt)
  else ret tt.

(** The receiver half of [loop]. *)
Definition loopReceiver (now : Z) : M unit :=
  n <- get ;;
  when (u32 (now - lastRxMs n) >=? 50)
       ('(st, rx, rssi, snr) <- radio_receive ;;
        (if st =? RADIOLIB_ERR_NONE then handleReceivedPacket now rx rssi snr
         else if negb (st =? RADIOLIB_ERR_RX_TIMEOUT) then
           modify (fun n =>
             let g := signal n in
             set_signal (mkSignal (lastRSSI g) (lastSNR g) (lastPacketTime g)
                                  (packetCount g) (u32 (errorCount g + 1))) n)
         else ret tt) ;;
        modify (set_lastRxMs now)).

(** The sender half of [loop] while a config broadcast is pending. *)
Definition loopSenderBroadcast (now : Z) : M unit :=
  n <- get ;;
  when ((u32 (now - lastTxMs n) >=? 50) && (u32 (now - cfgLastTxMs (cfg n)) >=? 300))
       (radio (RadioTransmit (formatConfigMessage (pending (cfg n)))) ;;
        modify (fun n =>
          let c := cfg n in
          set_cfg (mkCfg (pendingConfigBroadcast c) (pending c) now
                         (i32 (cfgRemaining c - 1))) n) ;;
        n <- get ;;
        when (cfgRemaining (cfg n) <=? 0)
             (modify (set_current (pending (cfg n))) ;;
              computeIndicesFromCurrent ;;
              updateRadioSettings ;;
              savePersistedSettings ;;
              modify (fun n =>
                let c := cfg n in
                set_lastTxMs now
                  (set_cfg (mkCfg false (pending c) (cfgLastTxMs c) (cfgRemaining c)) n)))).

(** The sender half of [loop] otherwise: a ping every two seconds. *)
Definition loopSenderPing (now : Z) : M unit :=
  n <- get ;;
  when (u32 (now - lastTxMs n) >=? 2000)
       (modify (set_seq (u32 (seq n + 1))) ;;
        radio (RadioTransmit (snprintf 48 "PING seq=%lu" [AInt (seq n)])) ;;
        modify (set_lastTxMs now)).

(** The WiFi OTA service at the end of [loop] ([ArduinoOTA.handle()] and the
    periodic reconnection) belongs to the WiFi path, which is outside this
    embedding; it runs only on a receiver that is connected to WiFi. *)
Definition loop : M unit :=
  now <- millis ;;
  updateButton ;;
  n <- get ;;
  (if isSender n then
     if pendingConfigBroadcast (cfg n) then loopSenderBroadcast now
     else loopSenderPing now
   else loopReceiver now) ;;
  checkLoraOtaTimeout ;;
  delay 10.

(** [loop] called [k] times in a row. *)
Fixpoint loops (k : nat) : M unit :=
  match k with
  | O => ret tt
  | S k' => loop ;; loops k'
  end.

End WithEnv.

(** The world an outcome leaves behind. *)
Definition world_of {A} (o : Outcome A) : World :=
  match o with
  | Ret _ w => w
  | Stop _ w => w
  end.

(** Why the program stopped, if it did. *)
Definition stopped {A} (o : Outcome A) : option StopReason :=
  match o with
  | Ret _ _ => None
  | Stop r _ => Some r
  end.

(** The parameters of the most recent [radio.begin] in a trace. *)
Fixpoint lastBegin (tr : list (Z * Event)) : option RadioParams :=
  match tr with
  | [] => None
  | (_, RadioBegin p) :: _ => Some p
  | _ :: r => lastBegin r
  end.

(** Times at which [msg] was handed to [radio.transmit], most recent first. *)
Fixpoint transmitTimes (msg : string) (tr : list (Z * Event)) : list Z :=
  match tr with
  | [] => []
  | (t, RadioTransmit m) :: r =>
      if String.eqb m msg then t :: transmitTimes msg r else transmitTimes msg r
  | _ :: r => transmitTimes msg r
  end.

Definition isFlashEvent (e : Event) : bool :=
  match e with
  | UpdateBegin _ | UpdateWrite _ | UpdateEnd | EspRestart => true
  | _ => false
  end.

Definition isReconfigure (e : Event) : bool :=
  match e with
  | RadioBegin _ | RadioSetFrequency _ | RadioSetBandwidth _
  | RadioSetSpreadingFactor _ | RadioSetCodingRate _ | RadioSetOutputPower _ => true
  | _ => false
  end.

(** Handling a sequence of OTA packets one after the other. *)
Fixpoint handleLoraOtaPackets (env : Env) (packets : list string) : M unit :=
  match packets with
  | [] => ret tt
  | p :: r => handleLoraOtaPacket env p ;; handleLoraOtaPackets env r
  end.

(** An environment in which every call succeeds at once, nothing is received
    and the button is up. *)
Definition quietEnv : Env :=
  mkEnv (fun _ => RADIOLIB_ERR_NONE) (fun _ => 0%N) (fun _ => EmptyString)
        (fun _ => 0%Q) (fun _ => 0%Q) (fun _ => HIGH) (fun _ => true) (fun _ => false).

(** ** Invariants and sample states *)

(** The OTA buffer is the 1024-byte array, the fill count is a position
    inside it, and the two byte counters agree. *)
Definition otaInvariant (w : World) : Prop :=
  let o := ota (node w) in
  List.length (loraOtaBuffer o) = Z.to_nat OTA_BUFFER_SIZE
  /\ 0 <= loraOtaBufferSize o < OTA_BUFFER_SIZE
  /\ loraOtaReceivedSize o = loraOtaBufferSize o.

(** The node right after power-up, before any external call. *)
Definition bootWorld : World := mkWorld initialNode 0 0 [].

(** A node in the middle of an OTA session. *)
Definition sessionWorld (expected received : Z) : World :=
  mkWorld (set_ota (mkOta true 0 5000 (repeat NUL 1024) received expected received)
                   initialNode)
          100 0 [].

(** A node whose data channel has drifted away from the control channel,
    ten seconds after boot. *)
Definition driftedWorld : World :=
  mkWorld (set_current (mkParams 915 250 11 5 17) initialNode) 10000 0 [].

(** An environment whose radio rejects every call. *)
Definition rejectingEnv : Env :=
  mkEnv (fun _ => -2) (fun _ => 0%N) (fun _ => EmptyString)
        (fun _ => 0%Q) (fun _ => 0%Q) (fun _ => HIGH) (fun _ => true) (fun _ => false).

(** A sender ten seconds after boot, and the configuration a medium press
    asks for there (the next spreading factor). *)
Definition senderWorld : World := mkWorld initialNode 10000 0 [].

Definition nextSfTarget : RadioParams := mkParams 915 125 10 5 17.

(** An environment in which the button is held down from the moment of the
    fifth external call until the 110th, and released afterwards. *)
Definition pressEnv : Env :=
  mkEnv (fun _ => RADIOLIB_ERR_NONE) (fun _ => 0%N) (fun _ => EmptyString)
        (fun _ => 0%Q) (fun _ => 0%Q)
        (fun k => negb ((5 <=? k)%nat && (k <? 110)%nat))
        (fun _ => true) (fun _ => false).

(** The calls made between world [w] and a later world [w'] are [new]. *)
Definition issued (w w' : World) (new : list (Z * Event)) : Prop :=
  trace w' = new ++ trace w.

(** Successive entries of a list of times, most recent first, are at least
    [g] apart. *)
Fixpoint gapsAtLeast (g : Z) (times : list Z) : Prop :=
  match times with
  | a :: ((b :: _) as rest) => g <= a - b /\ gapsAtLeast g rest
  | _ => True
  end.

(** The only calls a sender makes while a broadcast of [msg] is pending and
    the button is left alone: reading the button pin and transmitting [msg]. *)
Definition pinOrTransmit (msg : string) (e : Z * Event) : Prop :=
  snd e = DigitalRead \/ snd e = RadioTransmit msg.

(** Two nodes agree on what the sender half of [loop] looks at. *)
Definition sameSenderState (n n' : Node) : Prop :=
  isSender n' = isSender n
  /\ current n' = current n
  /\ cfg n' = cfg n
  /\ lastTxMs n' = lastTxMs n
  /\ buttonPressed (button n') = buttonPressed (button n).

(** The test that guards a transmission of the pending configuration. *)
Definition broadcastDue (w : World) : bool :=
  (u32 (u32 (clock w) - lastTxMs (node w)) >=? 50)
  && (u32 (u32 (clock w) - cfgLastTxMs (cfg (node w))) >=? 300).

(** What holds of a sender, [new] being the calls made since world [w0],
    from the moment a broadcast of [target] was started in [w0] and as long
    as the button is left alone: either the broadcast is still pending, or it
    has been committed. *)
Definition broadcastInvariant (w0 : World) (target : RadioParams)
           (w : World) (new : list (Z * Event)) : Prop :=
  let msg := formatConfigMessage target in
  let sent := transmitTimes msg new in
  let g := cfg (node w) in
  isSender (node w) = true
  /\ buttonPressed (button (node w)) = false
  /\ issued w0 w new
  /\ gapsAtLeast 300 sent
  /\ ((pendingConfigBroadcast g = true
       /\ pending g = target
       /\ 1 <= cfgRemaining g <= 8
       /\ Z.of_nat (List.length sent) = 8 - cfgRemaining g
       /\ current (node w) = current (node w0)
       /\ Forall (pinOrTransmit msg) new
       /\ match sent with
          | [] => cfgLastTxMs g = 0
          | t :: _ => cfgLastTxMs g = u32 t /\ t <= clock w
          end)
      \/ (pendingConfigBroadcast g = false
          /\ current (node w) = target
          /\ List.length sent = 8%nat
          /\ exists later t8 earlier,
               new = later ++ (t8, RadioTransmit msg) :: earlier
               /\ Forall (pinOrTransmit msg) earlier
               /\ transmitTimes msg later = []
               /\ In (RadioSetFrequency (Freq target)) (map snd later)
               /\ In (PrefsPut "freq" (PFloat (Freq target))) (map snd later))).

(** A sender with a broadcast pending and [r] transmissions to go, whose
    stored timestamps lie in the past of a clock that has not wrapped. *)
Definition broadcastWaiting (r : Z) (w : World) : Prop :=
  isSender (node w) = true
  /\ buttonPressed (button (node w)) = false
  /\ pendingConfigBroadcast (cfg (node w)) = true
  /\ cfgRemaining (cfg (node w)) = r
  /\ 0 <= lastTxMs (node w) <= clock w
  /\ 0 <= cfgLastTxMs (cfg (node w)) <= clock w.

(** A computation that leaves the role flag as it found it. *)
Definition keeps_role {A} (m : M A) : Prop :=
  forall w, isSender (node (world_of (m w))) = isSender (node w).

(** The button is being released, at a moment when it has been held for at
    least 100 ms and less than one second: the short press of [updateButton]. *)
Definition shortPressReleased (env : Env) (w : World) : bool :=
  let b := button (node w) in
  let pressDuration := u32 (u32 (clock w) - buttonPressMs b) in
  Bool.eqb (lastButtonState b) LOW
  && Bool.eqb (pinLevel env (tick w)) HIGH
  && buttonPressed b
  && (100 <=? pressDuration) && (pressDuration <? 1000).

Definition set_loraOtaExpectedSize (v : Z) (n : Node) : Node :=
  let o := ota n in
  set_ota (mkOta (loraOtaActive o) (loraOtaStartTime o) (loraOtaTimeout o)
                 (loraOtaBuffer o) (loraOtaBufferSize o) v (loraOtaReceivedSize o)) n.

End Firmware.

(** ** Further code of [app_logic.cpp] and [main.cpp] *)

Module More.

Import CStr Firmware.
Open Scope m_scope.

(** [formatTxMessage] of [app_logic.cpp]. *)
Definition formatTxMessage (sequenceNumber : Z) : string :=
  snprintf 48 "PING seq=%lu" [AInt sequenceNumber].

(** The number a run of decimal digits denotes, read on top of [acc]. *)
Fixpoint digits_value (d : Decimal.uint) (acc : Z) : Z :=
  match d with
  | Decimal.Nil => acc
  | Decimal.D0 l => digits_value l (10 * acc)
  | Decimal.D1 l => digits_value l (10 * acc + 1)
  | Decimal.D2 l => digits_value l (10 * acc + 2)
  | Decimal.D3 l => digits_value l (10 * acc + 3)
  | Decimal.D4 l => digits_value l (10 * acc + 4)
  | Decimal.D5 l => digits_value l (10 * acc + 5)
  | Decimal.D6 l => digits_value l (10 * acc + 6)
  | Decimal.D7 l => digits_value l (10 * acc + 7)
  | Decimal.D8 l => digits_value l (10 * acc + 8)
  | Decimal.D9 l => digits_value l (10 * acc + 9)
  end.

(** A string that does not go on with a decimal digit. *)
Definition no_digit_ahead (s : string) : Prop :=
  match s with
  | EmptyString => True
  | String c _ => isdigit c = false
  end.

(** A string without white space. *)
Fixpoint no_space (s : string) : bool :=
  match s with
  | EmptyString => true
  | String c r => negb (isspace c) && no_space r
  end.

(** ** Calls a computation makes *)

(** Run from world [w], the computation makes only calls that satisfy [P]
    (whether it returns or stops). *)
Definition emits_at {A} (P : Event -> Prop) (m : M A) (w : World) : Prop :=
  exists new, issued w (world_of (m w)) new /\ Forall (fun te => P (snd te)) new.

(** From a node that satisfies [I], the computation makes only calls that
    satisfy [P] and leaves a node that satisfies [I]. *)
Definition preserves {A} (I : Node -> Prop) (P : Event -> Prop) (m : M A) : Prop :=
  forall w, I (node w) -> I (node (world_of (m w))) /\ emits_at P m w.

Definition isTransmitOf (msg : string) (e : Event) : bool :=
  match e with
  | RadioTransmit m => String.eqb m msg
  | _ => false
  end.

Definition isTransmit (e : Event) : bool :=
  match e with
  | RadioTransmit _ => true
  | _ => false
  end.

Definition isReceiveOrFlash (e : Event) : bool :=
  match e with
  | RadioReceive => true
  | _ => isFlashEvent e
  end.

(** Calls that neither use the air nor touch the firmware updater. *)
Definition isHousekeeping (e : Event) : bool :=
  match e with
  | RadioTransmit _ | RadioReceive
  | UpdateBegin _ | UpdateWrite _ | UpdateEnd | EspRestart => false
  | _ => true
  end.

(** ** Preferences *)

(** What the preferences hold: the value of the most recent [put] under
    each key, as recorded in the trace. *)
Fixpoint prefsLookup (key : string) (tr : list (Z * Event)) : option PrefValue :=
  match tr with
  | [] => None
  | (_, PrefsPut k v) :: r => if String.eqb k key then Some v else prefsLookup key r
  | _ :: r => prefsLookup key r
  end.

Definition Store : Type := string -> option PrefValue.

Definition storeOf (tr : list (Z * Event)) : Store := fun key => prefsLookup key tr.

(** [prefs.isKey], and the typed getters with their default. *)
Definition isKey (s : Store) (key : string) : bool :=
  match s key with
  | Some _ => true
  | None => false
  end.

Definition getFloat (s : Store) (key : string) (def : Q) : Q :=
  match s key with
  | Some (PFloat q) => q
  | _ => def
  end.

Definition getInt (s : Store) (key : string) (def : Z) : Z :=
  match s key with
  | Some (PInt z) => z
  | _ => def
  end.

Definition getBool (s : Store) (key : string) (def : bool) : bool :=
  match s key with
  | Some (PBool b) => b
  | _ => def
  end.

(** [loadPersistedSettingsAndRole] of [main.cpp], reading the store [s]. *)
Definition loadPersistedSettingsAndRole (s : Store) : M unit :=
  modify (fun n =>
    let haveFreq := isKey s "freq" in
    let haveBW := isKey s "bw" in
    let haveSF := isKey s "sf" in
    let haveCR := isKey s "cr" in
    let haveTX := isKey s "tx" in
    let haveRole := isKey s "sender" in
    let freq := if haveFreq then getFloat s "freq" (currentFreq n) else currentFreq n in
    let bw := if haveBW then getFloat s "bw" (currentBW n) else currentBW n in
    let sf := if haveSF then getInt s "sf" (currentSF n) else currentSF n in
    let cr := if haveCR then getInt s "cr" (currentCR n) else currentCR n in
    let tx := if haveTX then getInt s "tx" (currentTxPower n) else currentTxPower n in
    let role := if haveRole then getBool s "sender" (isSender n) else isSender n in
    set_isSender role (set_current (mkParams freq bw sf cr tx) n)).

(** The frames handed to [radio.transmit], oldest first. *)
Fixpoint transmitted (tr : list (Z * Event)) : list string :=
  match tr with
  | [] => []
  | (_, RadioTransmit m) :: r => transmitted r ++ [m]
  | _ :: r => transmitted r
  end.



(** A sender whose button, held down since [pressMs], is being released at
    time [now]. *)
Definition releaseWorld (pressMs now : Z) : World :=
  mkWorld (set_button (mkButton 0 LOW pressMs true) initialNode) now 0 [].

(** A receiver in the same situation. *)
Definition receiverReleaseWorld (pressMs now : Z) : World :=
  mkWorld (set_isSender false (node (releaseWorld pressMs now))) now 0 [].

(** A receiver ten seconds after boot. *)
Definition receiverWorld : World := mkWorld (set_isSender false initialNode) 10000 0 [].


End More.

(** * Properties *)

Import AppLogic CStr Firmware.

(** ** Fixed-width integers *)

Lemma u32_range z : 0 <= u32 z <= UINT32_MAX.
Proof. unfold u32, UINT32_MAX. pose proof (Z.mod_pos_bound z (2 ^ 32)). lia. Qed.

Lemma u32_small z : 0 <= z <= UINT32_MAX -> u32 z = z.
Proof. unfold u32, UINT32_MAX. intros. apply Z.mod_small. lia. Qed.

Lemma i32_small z : INT32_MIN <= z <= INT32_MAX -> i32 z = z.
Proof.
  unfold i32, INT32_MIN, INT32_MAX. intros.
  rewrite Z.mod_small; lia.
Qed.

(** ** Button classifier *)

(** The unit tests of [test_app_logic.cpp]. *)
Example test_classifyPress :
  map classifyPress [0; 50; 99; 100; 150; 999; 1000; 1500; 2999; 3000; 10000; UINT32_MAX]
  = [Ignore; Ignore; Ignore; ToggleMode; ToggleMode; ToggleMode;
     CycleSF; CycleSF; CycleSF; CycleBW; CycleBW; CycleBW].
Proof. reflexivity. Qed.

Example test_cycleIndex :
  map (fun p => cycleIndex (fst p) (snd p))
      [(0, 3); (1, 3); (2, 3); (5, 0); (-1, 3); (0, 1); (10, 1); (999, 10)]
  = [1; 2; 0; 0; 0; 0; 0; 0].
Proof. reflexivity. Qed.

(** C6.  [classifyPress] is a total function of the press duration alone: on
    every [uint32_t] duration [d] it answers [Ignore] exactly when [d < 100],
    [ToggleMode] exactly when [100 <= d < 1000], [CycleSF] exactly when
    [1000 <= d < 3000] and [CycleBW] exactly when [d >= 3000]; the seven
    boundary values of the specification come out as listed. *)
Theorem classifyPress_ranges :
  forall d : Z, 0 <= d <= UINT32_MAX ->
    ((classifyPress d = Ignore <-> d < 100)
     /\ (classifyPress d = ToggleMode <-> 100 <= d < 1000)
     /\ (classifyPress d = CycleSF <-> 1000 <= d < 3000)
     /\ (classifyPress d = CycleBW <-> 3000 <= d))
    /\ classifyPress 99 = Ignore
    /\ classifyPress 100 = ToggleMode
    /\ classifyPress 999 = ToggleMode
    /\ classifyPress 1000 = CycleSF
    /\ classifyPress 2999 = CycleSF
    /\ classifyPress 3000 = CycleBW
    /\ classifyPress UINT32_MAX = CycleBW.
Proof.
  intros d _. split; [| repeat split; reflexivity].
  unfold classifyPress.
  destruct (Z.ltb_spec d 100); [| destruct (Z.ltb_spec d 1000);
                                  [| destruct (Z.ltb_spec d 3000)]];
    repeat split; intros; try lia; try discriminate; reflexivity.
Qed.

Lemma classifyPress_ranges_witness :
  0 <= 2999 <= UINT32_MAX /\ classifyPress 2999 = CycleSF.
Proof.
  assert (R : 0 <= 2999 <= UINT32_MAX) by (unfold UINT32_MAX; lia).
  split; [exact R |].
  destruct (classifyPress_ranges 2999 R) as [[_ [_ [H _]]] _].
  apply H. lia.
Defined.

(** ** Cycling through a parameter table *)

Section Cycling.

Variable tableSize : Z.
Hypothesis size_pos : 0 < tableSize.

Abbreviation step := (fun i : Z => (i + 1) mod tableSize).

Lemma iter_step (k : nat) (i : Z) :
  0 <= i < tableSize ->
  Nat.iter k step i = (i + Z.of_nat k) mod tableSize.
Proof.
  intros Hi. induction k as [| k IH].
  - simpl. rewrite Z.add_0_r, Z.mod_small; lia.
  - rewrite Nat2Z.inj_succ, Nat.iter_succ, IH.
    rewrite Zplus_mod_idemp_l. f_equal. lia.
Qed.

Lemma iter_step_range (k : nat) (i : Z) :
  0 <= i < tableSize -> 0 <= Nat.iter k step i < tableSize.
Proof.
  intros Hi. rewrite iter_step by assumption. apply Z.mod_pos_bound. lia.
Qed.

Lemma iter_step_full (i : Z) :
  0 <= i < tableSize -> Nat.iter (Z.to_nat tableSize) step i = i.
Proof.
  intros Hi. rewrite iter_step by assumption.
  rewrite Z2Nat.id by lia.
  rewrite <- (Z.mul_1_l tableSize) at 1.
  rewrite Z_mod_plus_full. apply Z.mod_small. lia.
Qed.

End Cycling.

Lemma cycleIndex_mod (size i : Z) :
  0 < size <= INT32_MAX -> 0 <= i < size ->
  cycleIndex i size = (i + 1) mod size.
Proof.
  intros Hs Hi. unfold cycleIndex.
  destruct (Z.leb_spec size 0); [lia |].
  rewrite i32_small by (unfold INT32_MIN, INT32_MAX in *; lia).
  destruct (Z.geb_spec (i + 1) size).
  - assert (i + 1 = size) as -> by lia. now rewrite Z.mod_same by lia.
  - rewrite Z.mod_small; lia.
Qed.

Lemma nextIndex_mod {A} (table : list A) (i : Z) :
  0 <= i < Z.of_nat (List.length table) -> Z.of_nat (List.length table) <= INT32_MAX ->
  nextIndex i table = (i + 1) mod Z.of_nat (List.length table).
Proof.
  intros Hi Hl. unfold nextIndex.
  rewrite u32_small; [reflexivity |]. unfold UINT32_MAX, INT32_MAX in *. lia.
Qed.

Lemma iter_ext {A} (f g : A -> A) (P : A -> Prop) :
  (forall x, P x -> f x = g x) -> (forall x, P x -> P (g x)) ->
  forall k x, P x -> Nat.iter k f x = Nat.iter k g x /\ P (Nat.iter k g x).
Proof.
  intros Hfg HP. induction k as [| k IH]; intros x Hx.
  - simpl. auto.
  - rewrite !Nat.iter_succ. destruct (IH x Hx) as [E Q]. rewrite E.
    split; [apply Hfg | apply HP]; exact Q.
Qed.

(** C8.  On a table of [tableSize > 0] entries and from any valid starting
    index, the cycle operation of the firmware, both as [cycleIndex] and as
    the [(index + 1) % tableSize] of [updateButton], is [(index + 1) mod
    tableSize]; applied [tableSize] times it gives back the starting index and
    with it the starting table value, and after any number of steps the index
    is a valid position, so the value read there is an entry of the table. *)
Theorem cycle_returns_to_start :
  forall (A : Type) (table : list A) (d : A) (index : Z),
    let tableSize := Z.of_nat (List.length table) in
    0 < tableSize <= INT32_MAX ->
    0 <= index < tableSize ->
    cycleIndex index tableSize = (index + 1) mod tableSize
    /\ nextIndex index table = (index + 1) mod tableSize
    /\ Nat.iter (Z.to_nat tableSize) (fun i => cycleIndex i tableSize) index = index
    /\ Nat.iter (Z.to_nat tableSize) (fun i => nextIndex i table) index = index
    /\ table_at table (Nat.iter (Z.to_nat tableSize) (fun i => nextIndex i table) index) d
       = table_at table index d
    /\ (forall k : nat,
          0 <= Nat.iter k (fun i => cycleIndex i tableSize) index < tableSize
          /\ Nat.iter k (fun i => nextIndex i table) index
             = Nat.iter k (fun i => cycleIndex i tableSize) index
          /\ In (table_at table (Nat.iter k (fun i => nextIndex i table) index) d) table).
Proof.
  intros A table d index tableSize Hs Hi.
  assert (Hpos : 0 < tableSize) by lia.
  set (P := fun x : Z => 0 <= x < tableSize).
  assert (Hstep : forall x, P x -> P ((x + 1) mod tableSize))
    by (intros; apply Z.mod_pos_bound; lia).
  assert (Hc : forall k, Nat.iter k (fun i => cycleIndex i tableSize) index
                         = Nat.iter k (fun i => (i + 1) mod tableSize) index
                         /\ P (Nat.iter k (fun i => (i + 1) mod tableSize) index)).
  { intros k. apply (iter_ext _ _ P); auto.
    intros x Hx. apply cycleIndex_mod; [lia | exact Hx]. }
  assert (Hn : forall k, Nat.iter k (fun i => nextIndex i table) index
                         = Nat.iter k (fun i => (i + 1) mod tableSize) index
                         /\ P (Nat.iter k (fun i => (i + 1) mod tableSize) index)).
  { intros k. apply (iter_ext _ _ P); auto.
    intros x Hx. apply nextIndex_mod; [exact Hx | fold tableSize; lia]. }
  assert (Hfull : Nat.iter (Z.to_nat tableSize) (fun i => (i + 1) mod tableSize) index = index)
    by (apply iter_step_full; assumption).
  split; [apply cycleIndex_mod; [lia | assumption] |].
  split; [apply nextIndex_mod; [assumption | fold tableSize; lia] |].
  split; [rewrite (proj1 (Hc _)); exact Hfull |].
  split; [rewrite (proj1 (Hn _)); exact Hfull |].
  split; [rewrite (proj1 (Hn _)), Hfull; reflexivity |].
  intros k. destruct (Hc k) as [Ec Pc], (Hn k) as [En _].
  split; [rewrite Ec; exact Pc |].
  split; [congruence |].
  rewrite En. unfold table_at. apply nth_In.
  unfold P in Pc. subst tableSize. lia.
Qed.

Lemma cycle_returns_to_start_witness :
  Nat.iter 4 (fun i => nextIndex i bwValues) 1 = 1
  /\ table_at bwValues (Nat.iter 4 (fun i => nextIndex i bwValues) 1) 0%Q
     = table_at bwValues 1 0%Q.
Proof.
  assert (Hs : 0 < Z.of_nat (List.length bwValues) <= INT32_MAX)
    by (unfold INT32_MAX, bwValues; simpl; lia).
  assert (Hi : 0 <= 1 < Z.of_nat (List.length bwValues)) by (unfold bwValues; simpl; lia).
  destruct (cycle_returns_to_start Q bwValues 0%Q 1 Hs Hi) as (_ & _ & _ & H4 & H5 & _).
  split; [exact H4 | exact H5].
Defined.

(** ** Strings *)

Lemma prefix_split (p s : string) :
  String.prefix p s = true -> exists r, s = (p ++ r)%string.
Proof.
  revert s. induction p as [| a p IH]; intros s H.
  - exists s. reflexivity.
  - destruct s as [| b s]; [discriminate |]. simpl in H.
    destruct (ascii_dec a b) as [-> |]; [| discriminate].
    destruct (IH s H) as [r ->]. exists r. reflexivity.
Qed.

Lemma take_word_length (s : string) (w : nat) :
  (String.length (fst (take_word s true w)) <= w)%nat.
Proof.
  revert w. induction s as [| c r IH]; intros w; simpl.
  - lia.
  - destruct (isspace c); simpl; [lia |].
    destruct w as [| w]; simpl; [lia |].
    specialize (IH w). destruct (take_word r true w). simpl in *. lia.
Qed.

Lemma scan_conv_bound (W : nat) (d : directive) (input : string) v r :
  width_bound W d -> scan_conv d input = Some (v, r) -> word_bound W v.
Proof.
  destruct d; simpl; intros Hw H; try discriminate.
  - destruct (scan_float input) as [[q r'] |]; inversion H; exact I.
  - destruct (scan_decimal input) as [[[neg z] r'] |]; inversion H; exact I.
  - destruct (scan_decimal input) as [[[neg z] r'] |]; inversion H; exact I.
  - destruct width as [| w]; [lia |]. simpl in H.
    pose proof (take_word_length input (S w)) as L.
    destruct (take_word input true (S w)) as [a b]. inversion H; subst.
    simpl in *. lia.
Qed.

Lemma scan_bound (W : nat) (fmt : list directive) :
  Forall (width_bound W) fmt ->
  forall input, Forall (word_bound W) (assigned (scan fmt input)).
Proof.
  induction 1 as [| d fmt Hd Hf IH]; intros input; [constructor |].
  assert (G : forall s, Forall (word_bound W)
                (assigned match skip_space s with
                          | EmptyString => mkScan [] true
                          | String _ _ as input' =>
                              match scan_conv d input' with
                              | None => mkScan [] false
                              | Some (v, r) =>
                                  mkScan (v :: assigned (scan fmt r))
                                         (input_failure (scan fmt r))
                              end
                          end)).
  { intros s. destruct (skip_space s) as [| c t]; [constructor |].
    destruct (scan_conv d (String c t)) as [[v r] |] eqn:E; [| constructor].
    simpl. constructor; [eapply scan_conv_bound; eauto | apply IH]. }
  destruct d; simpl; try apply G.
  - destruct input as [| a r]; [constructor |].
    destruct (Ascii.eqb a c); [apply IH | constructor].
  - apply IH.
Qed.

Lemma ota_data_word_bound (input : string) (data : string) :
  nth_error (assigned (sscanf input "OTA_DATA:%d:%255s")) 1 = Some (SStr data) ->
  strlen data <= 255.
Proof.
  intros H. apply nth_error_In in H.
  assert (F : Forall (word_bound 255)
                     (assigned (sscanf input "OTA_DATA:%d:%255s"))).
  { apply scan_bound. vm_compute. repeat constructor. }
  rewrite Forall_forall in F. specialize (F _ H). simpl in F.
  unfold strlen. lia.
Qed.

(** ** LoRa OTA session *)

Ltac run_m :=
  cbv beta iota delta [bind ret get modify when stop millis delay call];
  cbn [node clock tick trace world_of].

Lemma ota_end_not_start (r : string) :
  startsWith ("OTA_END:" ++ r) "OTA_START:" = false
  /\ startsWith ("OTA_END:" ++ r) "OTA_DATA:" = false
  /\ startsWith ("OTA_END:" ++ r) "OTA_END:" = true.
Proof. destruct r; repeat split; reflexivity. Qed.

Lemma ota_data_not_start (r : string) :
  startsWith ("OTA_DATA:" ++ r) "OTA_START:" = false
  /\ startsWith ("OTA_DATA:" ++ r) "OTA_DATA:" = true.
Proof. destruct r; repeat split; reflexivity. Qed.

Lemma ota_end_active_incomplete (env : Env) (w : World) (packet : string) :
  startsWith packet "OTA_END:" = true ->
  loraOtaActive (ota (node w)) = true ->
  loraOtaReceivedSize (ota (node w)) < loraOtaExpectedSize (ota (node w)) ->
  handleLoraOtaPacket env packet w
  = Ret tt (mkWorld (set_loraOtaActive false (node w)) (clock w) (tick w) (trace w)).
Proof.
  intros Hp Ha Hlt.
  destruct (prefix_split _ _ Hp) as [r ->].
  unfold handleLoraOtaPacket.
  destruct (ota_end_not_start r) as (-> & -> & ->).
  unfold handleOtaEnd. run_m. rewrite Ha. cbn [negb].
  destruct (Z.geb_spec (loraOtaReceivedSize (ota (node w)))
                       (loraOtaExpectedSize (ota (node w)))); [lia |].
  reflexivity.
Qed.

(** C1, as the code has it.  In an active session, an [OTA_END:] frame that
    arrives while fewer bytes than expected have been received makes no call
    to the firmware updater and changes nothing but the active flag, which it
    clears: the session is over. *)
Theorem ota_end_before_complete_ends_session :
  forall (env : Env) (w : World) (packet : string),
    startsWith packet "OTA_END:" = true ->
    loraOtaActive (ota (node w)) = true ->
    loraOtaReceivedSize (ota (node w)) < loraOtaExpectedSize (ota (node w)) ->
    handleLoraOtaPacket env packet w
    = Ret tt (mkWorld (set_loraOtaActive false (node w)) (clock w) (tick w) (trace w)).
Proof. exact ota_end_active_incomplete. Qed.

Lemma ota_end_before_complete_ends_session_witness :
  handleLoraOtaPacket quietEnv "OTA_END:" (sessionWorld 1000 10)
  = Ret tt (mkWorld (set_loraOtaActive false (node (sessionWorld 1000 10)))
                    100 0 []).
Proof.
  apply (ota_end_before_complete_ends_session quietEnv (sessionWorld 1000 10) "OTA_END:").
  - reflexivity.
  - reflexivity.
  - simpl. lia.
Defined.

(** C1 as stated fails: with 10 of 1000 bytes received, [OTA_END:] leaves the
    session inactive. *)
Lemma ota_end_before_complete_counterexample :
  loraOtaActive (ota (node (sessionWorld 1000 10))) = true
  /\ loraOtaReceivedSize (ota (node (sessionWorld 1000 10)))
     < loraOtaExpectedSize (ota (node (sessionWorld 1000 10)))
  /\ loraOtaActive
       (ota (node (world_of (handleLoraOtaPacket quietEnv "OTA_END:"
                                                 (sessionWorld 1000 10)))))
     = false.
Proof. split; [reflexivity | split; [simpl; lia | reflexivity]]. Qed.

(** C2 at its failing input.  [OTA_START:500:] converts one field out of two,
    so the parse does not succeed completely and no session is started, yet
    the expected size has already been overwritten with 500. *)
Theorem ota_start_partial_parse_overwrites_expected_size :
  forall (env : Env) (w : World),
    sscanf_count (sscanf (c_str "OTA_START:500:") "OTA_START:%u:%u") = 1
    /\ handleLoraOtaPacket env "OTA_START:500:" w
       = Ret tt (mkWorld (set_loraOtaExpectedSize 500 (node w))
                         (clock w) (tick w) (trace w)).
Proof. intros env w. split; reflexivity. Qed.

(** The other framed messages do keep a failed parse away from the state:
    a malformed [OTA_DATA] frame changes nothing. *)
Lemma malformed_ota_data_changes_nothing (env : Env) (w : World) (packet : string) :
  startsWith packet "OTA_DATA:" = true ->
  sscanf_count (sscanf (c_str packet) "OTA_DATA:%d:%255s") <> 2 ->
  handleLoraOtaPacket env packet w = Ret tt w.
Proof.
  intros Hp Hn. destruct (prefix_split _ _ Hp) as [r ->].
  unfold handleLoraOtaPacket.
  destruct (ota_data_not_start r) as (-> & ->).
  unfold handleOtaData. run_m.
  destruct (loraOtaActive (ota (node w))); cbn [negb]; [| reflexivity].
  destruct (Z.eqb_spec (sscanf_count (sscanf (c_str ("OTA_DATA:" ++ r)) "OTA_DATA:%d:%255s")) 2);
    [contradiction | reflexivity].
Qed.

Lemma otaInvariant_boot : otaInvariant bootWorld.
Proof. unfold otaInvariant, OTA_BUFFER_SIZE. simpl. repeat split; lia. Qed.

Lemma memcpy_in_bounds (buf data : list ascii) (off : Z) :
  0 <= off -> off + Z.of_nat (List.length data) <= Z.of_nat (List.length buf) ->
  exists buf', memcpy buf off data = Some buf' /\ List.length buf' = List.length buf.
Proof.
  intros H0 H1. unfold memcpy.
  destruct (Z.leb_spec 0 off); [| lia].
  destruct (Z.leb_spec (off + Z.of_nat (List.length data)) (Z.of_nat (List.length buf))); [| lia].
  eexists. split; [reflexivity |].
  rewrite !length_app, length_firstn, length_skipn. lia.
Qed.

Lemma handleOtaStart_invariant (packet : string) (w : World) :
  otaInvariant w ->
  exists w', handleOtaStart packet w = Ret tt w' /\ otaInvariant w'.
Proof.
  intros (Hl & Hb & Hr). unfold handleOtaStart.
  set (res := sscanf (c_str packet) "OTA_START:%u:%u"). run_m.
  destruct (sscanf_count res =? 2); eexists; (split; [reflexivity |]);
    unfold otaInvariant, OTA_BUFFER_SIZE in *; cbn; repeat split; auto; lia.
Qed.

Lemma handleOtaData_invariant (packet : string) (w : World) :
  otaInvariant w ->
  (exists w', handleOtaData packet w = Ret tt w' /\ otaInvariant w')
  \/ (exists w', handleOtaData packet w = Stop DivideByZero w' /\ otaInvariant w').
Proof.
  intros I. pose proof I as (Hl & Hb & Hr). unfold handleOtaData. run_m.
  destruct (loraOtaActive (ota (node w))); cbn [negb];
    [| left; eexists; split; [reflexivity | exact I]].
  set (res := sscanf (c_str packet) "OTA_DATA:%d:%255s").
  destruct (sscanf_count res =? 2);
    [| left; eexists; split; [reflexivity | exact I]].
  destruct (nth_error (assigned res) 1) as [[q | z | z | data] |] eqn:E;
    try (left; eexists; split; [reflexivity | exact I]).
  pose proof (ota_data_word_bound _ _ E) as Hd.
  assert (Hd0 : 0 <= strlen data) by (unfold strlen; lia).
  unfold OTA_BUFFER_SIZE in *.
  rewrite (u32_small (loraOtaBufferSize (ota (node w)) + strlen data))
    by (unfold UINT32_MAX; lia).
  destruct (Z.ltb_spec (loraOtaBufferSize (ota (node w)) + strlen data) 1024) as [Hg | Hg];
    [| left; eexists; split; [reflexivity | exact I]].
  destruct (memcpy_in_bounds (loraOtaBuffer (ota (node w))) (list_ascii_of_string data)
                             (loraOtaBufferSize (ota (node w)))) as (buf' & -> & Hl').
  { lia. }
  { rewrite Hl. unfold strlen in *.
    replace (List.length (list_ascii_of_string data)) with (String.length data); [lia |].
    clear. induction data; simpl; congruence. }
  assert (I' : otaInvariant
                (mkWorld
                   (set_ota
                      (mkOta true (loraOtaStartTime (ota (node w)))
                             (loraOtaTimeout (ota (node w))) buf'
                             (loraOtaBufferSize (ota (node w)) + strlen data)
                             (loraOtaExpectedSize (ota (node w)))
                             (u32 (loraOtaReceivedSize (ota (node w)) + strlen data)))
                      (node w))
                   (clock w) (tick w) (trace w))).
  { unfold otaInvariant, OTA_BUFFER_SIZE. cbn. repeat split; try lia.
    rewrite Hr. apply u32_small. unfold UINT32_MAX. lia. }
  destruct (loraOtaExpectedSize (ota (node w)) =? 0);
    [right | left]; eexists; (split; [reflexivity | exact I']).
Qed.

Lemma handleOtaEnd_invariant (env : Env) (w : World) :
  otaInvariant w ->
  (exists w', handleOtaEnd env w = Ret tt w' /\ otaInvariant w')
  \/ (exists w', handleOtaEnd env w = Stop Restart w' /\ otaInvariant w').
Proof.
  intros I. unfold handleOtaEnd. run_m.
  destruct (loraOtaActive (ota (node w))); cbn [negb];
    [| left; eexists; split; [reflexivity | exact I]].
  destruct (loraOtaReceivedSize (ota (node w)) >=? loraOtaExpectedSize (ota (node w)));
    [| left; eexists; split; [reflexivity | exact I]].
  destruct (updateOk env (tick w)); cbn [node clock tick trace];
    [| left; eexists; split; [reflexivity | exact I]].
  destruct (updateOk env (S (S (tick w)))); cbn [node clock tick trace];
    [right | left]; eexists; (split; [reflexivity | exact I]).
Qed.

Lemma handleLoraOtaPacket_invariant (env : Env) (packet : string) (w : World) :
  otaInvariant w ->
  exists w',
    otaInvariant w'
    /\ (handleLoraOtaPacket env packet w = Ret tt w'
        \/ handleLoraOtaPacket env packet w = Stop DivideByZero w'
        \/ handleLoraOtaPacket env packet w = Stop Restart w').
Proof.
  intros I. unfold handleLoraOtaPacket.
  destruct (startsWith packet "OTA_START:").
  { destruct (handleOtaStart_invariant packet w I) as (w' & E & I'). eauto. }
  destruct (startsWith packet "OTA_DATA:").
  { destruct (handleOtaData_invariant packet w I) as [(w' & E & I') | (w' & E & I')]; eauto. }
  destruct (startsWith packet "OTA_END:").
  { destruct (handleOtaEnd_invariant env w I) as [(w' & E & I') | (w' & E & I')]; eauto 6. }
  exists w. auto.
Qed.

Lemma handleLoraOtaPackets_invariant (env : Env) (packets : list string) :
  forall w, otaInvariant w ->
  exists w',
    otaInvariant w'
    /\ (handleLoraOtaPackets env packets w = Ret tt w'
        \/ handleLoraOtaPackets env packets w = Stop DivideByZero w'
        \/ handleLoraOtaPackets env packets w = Stop Restart w').
Proof.
  induction packets as [| p r IH]; intros w I.
  - exists w. auto.
  - cbn [handleLoraOtaPackets]. unfold bind.
    destruct (handleLoraOtaPacket_invariant env p w I) as (w1 & I1 & [E | [E | E]]);
      rewrite E; eauto.
Qed.

(** C7.  From any state in which the fill count is a position inside the
    1024-byte buffer (the state at boot is one), handling any sequence of OTA
    frames keeps it so: no [memcpy] leaves the buffer and the count stays
    below the capacity.  A payload that would not fit is dropped: the frame
    leaves the whole state as it was. *)
Theorem ota_buffer_never_overflows :
  forall (env : Env) (packets : list string) (w : World),
    otaInvariant w ->
    (otaInvariant (world_of (handleLoraOtaPackets env packets w))
     /\ loraOtaBufferSize (ota (node (world_of (handleLoraOtaPackets env packets w))))
        <= OTA_BUFFER_SIZE
     /\ forall w', handleLoraOtaPackets env packets w <> Stop BufferOverrun w')
    /\ (forall (packet data : string),
          startsWith packet "OTA_DATA:" = true ->
          nth_error (assigned (sscanf (c_str packet) "OTA_DATA:%d:%255s")) 1
          = Some (SStr data) ->
          OTA_BUFFER_SIZE <= loraOtaBufferSize (ota (node w)) + strlen data ->
          handleLoraOtaPacket env packet w = Ret tt w).
Proof.
  intros env packets w I. split.
  - destruct (handleLoraOtaPackets_invariant env packets w I) as (w' & I' & [E | [E | E]]);
      rewrite E; cbn [world_of]; (split; [exact I' |]);
      (split; [destruct I' as (_ & ? & _); lia | intros; discriminate]).
  - intros packet data Hp Hd Hfull.
    destruct (prefix_split _ _ Hp) as [r ->].
    unfold handleLoraOtaPacket.
    destruct (ota_data_not_start r) as (-> & ->).
    unfold handleOtaData. run_m.
    destruct (loraOtaActive (ota (node w))); cbn [negb]; [| reflexivity].
    destruct (sscanf_count _ =? 2); [| reflexivity].
    rewrite Hd.
    pose proof (ota_data_word_bound _ _ Hd) as Hb.
    destruct I as (_ & Hs & _). unfold OTA_BUFFER_SIZE in *.
    rewrite u32_small by (unfold UINT32_MAX, strlen in *; lia).
    destruct (Z.ltb_spec (loraOtaBufferSize (ota (node w)) + strlen data) 1024);
      [lia | reflexivity].
Qed.

Lemma ota_buffer_never_overflows_witness :
  otaInvariant (world_of (handleLoraOtaPackets quietEnv
                            ["OTA_START:2000:5000"; "OTA_DATA:0:abcdef"]%string bootWorld)).
Proof.
  exact (proj1 (proj1 (ota_buffer_never_overflows
                         quietEnv ["OTA_START:2000:5000"; "OTA_DATA:0:abcdef"]%string
                         bootWorld otaInvariant_boot))).
Defined.

(** As long as the expected-size field holds a value of at least the buffer
    capacity, the received-byte counter stays below it and [OTA_END:] does
    not reach the firmware updater. *)
Lemma oversized_ota_end_does_not_flash (env : Env) (w : World) (packet : string) :
  otaInvariant w ->
  startsWith packet "OTA_END:" = true ->
  OTA_BUFFER_SIZE <= loraOtaExpectedSize (ota (node w)) ->
  loraOtaReceivedSize (ota (node w)) < loraOtaExpectedSize (ota (node w))
  /\ exists w', handleLoraOtaPacket env packet w = Ret tt w' /\ trace w' = trace w.
Proof.
  intros (_ & Hb & Hr) Hp He.
  assert (Hlt : loraOtaReceivedSize (ota (node w)) < loraOtaExpectedSize (ota (node w)))
    by lia.
  split; [exact Hlt |].
  destruct (loraOtaActive (ota (node w))) eqn:Ha.
  - rewrite (ota_end_active_incomplete env w packet Hp Ha Hlt).
    eexists. split; reflexivity.
  - destruct (prefix_split _ _ Hp) as [r ->].
    unfold handleLoraOtaPacket.
    destruct (ota_end_not_start r) as (-> & -> & ->).
    unfold handleOtaEnd. run_m. rewrite Ha. cbn [negb].
    eexists. split; reflexivity.
Qed.

(** C10 at its failing input.  A session announced with 2000 bytes, more than
    the buffer holds, receives six bytes; a second [OTA_START] frame that
    lacks its timeout field then lowers the expected size to 3 without
    restarting the session, and [OTA_END:] flashes the six bytes and restarts
    the chip. *)
Theorem oversized_session_reaches_flashing :
  let run :=
    handleLoraOtaPackets quietEnv
      ["OTA_START:2000:5000"; "OTA_DATA:0:abcdef"; "OTA_START:3:"; "OTA_END:"]%string
      bootWorld in
  OTA_BUFFER_SIZE <= 2000
  /\ stopped run = Some Restart
  /\ loraOtaReceivedSize (ota (node (world_of run))) = 6
  /\ loraOtaExpectedSize (ota (node (world_of run))) = 3
  /\ map snd (trace (world_of run))
     = [EspRestart; UpdateEnd; UpdateWrite (list_ascii_of_string "abcdef"); UpdateBegin 3].
Proof.
  cbv zeta. split; [unfold OTA_BUFFER_SIZE; lia |].
  repeat split; vm_compute; reflexivity.
Qed.

(** ** Control message round trip *)

Example config_roundtrip_125 :
  parseConfigMessage (formatConfigMessage (mkParams 915 125 10 5 17))
                     (mkParams 0 0 0 0 0)
  = (5, mkParams 915 125 10 5 17).
Proof. vm_compute. reflexivity. Qed.

Example config_roundtrip_500 :
  parseConfigMessage (formatConfigMessage (mkParams 868.1 500 12 8 22))
                     (mkParams 0 0 0 0 0)
  = (5, mkParams (8681 # 10) 500 12 8 22).
Proof. vm_compute. reflexivity. Qed.

(** C5 at its failing input.  The bandwidth is printed with [%.0f], so the
    table value 62.5 kHz goes out as [BW=62] and comes back as 62 kHz: half a
    kilohertz is lost, and 62 is not an entry of the bandwidth table. *)
Theorem config_roundtrip_loses_bandwidth :
  In (62.5)%Q bwValues
  /\ formatConfigMessage (mkParams 915 62.5 9 5 17)
     = "CFG F=915.0 BW=62 SF=9 CR=5 TX=17"%string
  /\ parseConfigMessage (formatConfigMessage (mkParams 915 62.5 9 5 17))
                        (mkParams 915 62.5 9 5 17)
     = (5, mkParams 915 62 9 5 17)
  /\ (62.5 - 62 == 1 # 2)%Q
  /\ find_index Qeq_bool bwValues 62%Q 0 = None.
Proof.
  split; [left; reflexivity |].
  repeat split; vm_compute; reflexivity.
Qed.

(** A [CFG] frame on which fewer than five fields convert only updates the
    signal statistics: parameters, indices and OTA session stay as they are
    and no radio call is made. *)
Lemma malformed_cfg_changes_no_parameter flag env now rx rssi snr (w : World) :
  startsWith rx "CFG " = true ->
  fst (parseConfigMessage rx (current (node w))) <> 5 ->
  handleReceivedPacket flag env now rx rssi snr w
  = Ret tt (mkWorld (set_signal
                       (mkSignal rssi snr now (u32 (packetCount (signal (node w)) + 1))
                                 (errorCount (signal (node w))))
                       (node w))
                    (clock w) (tick w) (trace w)).
Proof.
  intros Hp Hn. unfold handleReceivedPacket. rewrite Hp. run_m.
  cbn [current set_signal].
  destruct (parseConfigMessage rx (current (node w))) as [parsed np]. cbn [fst] in Hn.
  destruct (Z.eqb_spec parsed 5); [contradiction | reflexivity].
Qed.

(** The scenarios of the specification, run on the model. *)
Example receiver_applies_config :
  let w := mkWorld (set_isSender false initialNode) 5000 0 [] in
  let w' := world_of (handleReceivedPacket false quietEnv 5000
                        "CFG F=915.0 BW=125 SF=10 CR=5 TX=17" (-80) 9 w) in
  current (node w') = mkParams 915 125 10 5 17
  /\ currentSfIndex (indices (node w')) = 3
  /\ map snd (trace w')
     = [PrefsPut "tx" (PInt 17); PrefsPut "cr" (PInt 5); PrefsPut "sf" (PInt 10);
        PrefsPut "bw" (PFloat 125); PrefsPut "freq" (PFloat 915);
        RadioSetOutputPower 17; RadioSetCodingRate 5; RadioSetSpreadingFactor 10;
        RadioSetBandwidth 125; RadioSetFrequency 915].
Proof. cbv zeta. repeat split; vm_compute; reflexivity. Qed.

Example complete_ota_session_flashes :
  let run :=
    handleLoraOtaPackets quietEnv
      ["OTA_START:10:5000"; "OTA_DATA:0:01234"; "OTA_DATA:1:56789"; "OTA_END:"]%string
      bootWorld in
  stopped run = Some Restart
  /\ map snd (trace (world_of run))
     = [EspRestart; UpdateEnd; UpdateWrite (list_ascii_of_string "0123456789");
        UpdateBegin 10].
Proof. cbv zeta. split; vm_compute; reflexivity. Qed.

(** ** Node role *)

Lemma keeps_role_ret {A} (a : A) : keeps_role (ret a).
Proof. intros w. reflexivity. Qed.

Lemma keeps_role_stop {A} (r : StopReason) : keeps_role (@stop A r).
Proof. intros w. reflexivity. Qed.

Lemma keeps_role_bind {A B} (m : M A) (k : A -> M B) :
  keeps_role m -> (forall a, keeps_role (k a)) -> keeps_role (bind m k).
Proof.
  intros Hm Hk w. unfold bind. specialize (Hm w).
  destruct (m w) as [a w' | r w']; cbn [world_of] in *; [rewrite Hk |]; exact Hm.
Qed.

Lemma keeps_role_get : keeps_role get.
Proof. intros w. reflexivity. Qed.

Lemma keeps_role_millis : keeps_role millis.
Proof. intros w. reflexivity. Qed.

Lemma keeps_role_delay ms : keeps_role (delay ms).
Proof. intros w. reflexivity. Qed.

Lemma keeps_role_call e : keeps_role (call e).
Proof. intros w. reflexivity. Qed.

Lemma keeps_role_blocking env e : keeps_role (blocking env e).
Proof. intros w. reflexivity. Qed.

Lemma keeps_role_modify (f : Node -> Node) :
  (forall n, isSender (f n) = isSender n) -> keeps_role (modify f).
Proof. intros H w. cbn. apply H. Qed.

Lemma keeps_role_when (b : bool) (m : M unit) : keeps_role m -> keeps_role (when b m).
Proof. intros H. destruct b; [exact H | apply keeps_role_ret]. Qed.

(** One step of a role-preservation argument: split a sequence, close a
    primitive, or split on the condition under scrutiny. *)
Ltac keeps_role_step :=
  lazymatch goal with
  | |- keeps_role (bind _ _) => apply keeps_role_bind; [| intros ?]
  | |- keeps_role (ret _) => apply keeps_role_ret
  | |- keeps_role (stop _) => apply keeps_role_stop
  | |- keeps_role get => apply keeps_role_get
  | |- keeps_role millis => apply keeps_role_millis
  | |- keeps_role (delay _) => apply keeps_role_delay
  | |- keeps_role (call _) => apply keeps_role_call
  | |- keeps_role (blocking _ _) => apply keeps_role_blocking
  | |- keeps_role (modify _) => apply keeps_role_modify; intros; reflexivity
  | |- keeps_role (when _ _) => apply keeps_role_when
  | |- keeps_role (if ?b then _ else _) => destruct b
  | |- keeps_role (let (_, _) := ?x in _) => destruct x
  | |- keeps_role (match ?x with _ => _ end) => destruct x
  | |- keeps_role (let _ := _ in _) => cbv zeta
  | |- keeps_role _ => assumption
  end.

Ltac keeps_role_tac := repeat keeps_role_step.

Lemma keeps_role_radio env e : keeps_role (radio env e).
Proof. unfold radio. keeps_role_tac. Qed.

Lemma keeps_role_radio_receive env : keeps_role (radio_receive env).
Proof. unfold radio_receive. keeps_role_tac. Qed.

Lemma keeps_role_computeIndicesFromCurrent : keeps_role computeIndicesFromCurrent.
Proof. unfold computeIndicesFromCurrent. keeps_role_tac. Qed.

Lemma keeps_role_savePersistedSettings : keeps_role savePersistedSettings.
Proof. unfold savePersistedSettings. keeps_role_tac. Qed.

Lemma keeps_role_updateRadioSettings env : keeps_role (updateRadioSettings env).
Proof.
  pose proof (keeps_role_radio env) as R.
  unfold updateRadioSettings. keeps_role_tac; apply R.
Qed.

Lemma keeps_role_handleLoraOtaPacket env packet : keeps_role (handleLoraOtaPacket env packet).
Proof.
  unfold handleLoraOtaPacket, handleOtaStart, handleOtaData, handleOtaEnd.
  keeps_role_tac.
Qed.

Lemma keeps_role_sendChunks env fuel :
  forall firmware firmwareSize sentBytes chunkNum,
    keeps_role (sendChunks env fuel firmware firmwareSize sentBytes chunkNum).
Proof.
  pose proof (keeps_role_radio env) as R.
  induction fuel as [| fuel IH]; intros; cbn [sendChunks]; keeps_role_tac;
    first [apply R | apply IH].
Qed.

Lemma keeps_role_sendLoraOtaUpdate env firmware firmwareSize :
  keeps_role (sendLoraOtaUpdate env firmware firmwareSize).
Proof.
  pose proof (keeps_role_radio env) as R.
  pose proof (keeps_role_sendChunks env) as C.
  unfold sendLoraOtaUpdate. keeps_role_tac; first [apply R | apply C].
Qed.

Lemma keeps_role_handleReceivedPacket flag env now rx rssi snr :
  keeps_role (handleReceivedPacket flag env now rx rssi snr).
Proof.
  pose proof (keeps_role_radio env) as R.
  pose proof keeps_role_computeIndicesFromCurrent as C.
  pose proof keeps_role_savePersistedSettings as S.
  pose proof (keeps_role_updateRadioSettings env) as U.
  pose proof (keeps_role_handleLoraOtaPacket env) as O.
  pose proof (keeps_role_sendLoraOtaUpdate env) as L.
  unfold handleReceivedPacket. keeps_role_tac;
    first [apply R | apply O | apply L].
Qed.

Lemma keeps_role_onMediumPress flag env : keeps_role (onMediumPress flag env).
Proof.
  pose proof (keeps_role_radio env) as R.
  pose proof keeps_role_savePersistedSettings as S.
  pose proof (keeps_role_updateRadioSettings env) as U.
  unfold onMediumPress, startConfigBroadcast, setNetworkMode, connectToWiFi.
  repeat keeps_role_step.
Qed.

Lemma keeps_role_onLongPress env : keeps_role (onLongPress env).
Proof.
  pose proof keeps_role_savePersistedSettings as S.
  pose proof (keeps_role_updateRadioSettings env) as U.
  unfold onLongPress, startConfigBroadcast.
  repeat keeps_role_step.
Qed.

Lemma keeps_role_checkLoraOtaTimeout : keeps_role checkLoraOtaTimeout.
Proof. unfold checkLoraOtaTimeout. keeps_role_tac. Qed.

Lemma keeps_role_loopSenderBroadcast env now : keeps_role (loopSenderBroadcast env now).
Proof.
  pose proof (keeps_role_radio env) as R.
  pose proof keeps_role_computeIndicesFromCurrent as C.
  pose proof keeps_role_savePersistedSettings as S.
  pose proof (keeps_role_updateRadioSettings env) as U.
  unfold loopSenderBroadcast. keeps_role_tac; try apply R.
Qed.

Lemma keeps_role_loopSenderPing env now : keeps_role (loopSenderPing env now).
Proof.
  pose proof (keeps_role_radio env) as R.
  unfold loopSenderPing. keeps_role_tac; try apply R.
Qed.

Lemma keeps_role_loopReceiver flag env now : keeps_role (loopReceiver flag env now).
Proof.
  pose proof (keeps_role_radio_receive env) as R.
  pose proof (keeps_role_handleReceivedPacket flag env) as H.
  unfold loopReceiver. keeps_role_tac; try apply H.
Qed.

Lemma role_after_bind {A B} (m : M A) (k : A -> M B) (w : World) :
  (forall a, keeps_role (k a)) ->
  isSender (node (world_of (bind m k w))) = isSender (node (world_of (m w))).
Proof.
  intros Hk. unfold bind. destruct (m w) as [a w' | r w']; cbn [world_of];
    [apply Hk | reflexivity].
Qed.

Lemma updateButton_role flag env (w : World) :
  isSender (node (world_of (updateButton flag env w)))
  = xorb (shortPressReleased env w) (isSender (node w)).
Proof.
  unfold updateButton, digitalRead, shortPressReleased, HIGH, LOW.
  run_m.
  destruct (lastButtonState (button (node w))) eqn:L;
    destruct (pinLevel env (tick w)) eqn:P;
    destruct (buttonPressed (button (node w))) eqn:B;
    cbn; rewrite ?L, ?P, ?B; cbn; try (destruct (isSender (node w)); reflexivity).
  set (d := u32 (u32 (clock w) - buttonPressMs (button (node w)))).
  destruct (Z.ltb_spec d 100).
  { destruct (Z.leb_spec 100 d); [lia |]. cbn. destruct (isSender (node w)); reflexivity. }
  destruct (Z.leb_spec 100 d); [| lia]. cbn [andb].
  destruct (d <? 1000).
  { cbn. destruct (isSender (node w)); reflexivity. }
  destruct (d <? 3000).
  - match goal with
    | |- context [onMediumPress flag env ?w1] =>
        pose proof (keeps_role_onMediumPress flag env w1) as K;
        destruct (onMediumPress flag env w1) as [[] w2 | r w2]
    end; cbn in *; rewrite K; destruct (isSender (node w)); reflexivity.
  - match goal with
    | |- context [onLongPress env ?w1] =>
        pose proof (keeps_role_onLongPress env w1) as K;
        destruct (onLongPress env w1) as [[] w2 | r w2]
    end; cbn in *; rewrite K; destruct (isSender (node w)); reflexivity.
Qed.

(** C9.  Handling a received packet, whatever its payload, leaves the role
    flag as it was, also when the handling ends in a restart or a trap; and
    one turn of [loop] changes the role exactly when [updateButton] sees a
    short press being released, in which case it toggles it. *)
Theorem role_changes_only_by_short_press :
  forall (ENABLE_WIFI_OTA : bool) (env : Env) (w : World),
    (forall (now : Z) (rx : string) (rssi snr : Q),
        isSender (node (world_of (handleReceivedPacket ENABLE_WIFI_OTA env now rx rssi snr w)))
        = isSender (node w))
    /\ (forall packet : string,
          isSender (node (world_of (handleLoraOtaPacket env packet w))) = isSender (node w))
    /\ isSender (node (world_of (loop ENABLE_WIFI_OTA env w)))
       = (if shortPressReleased env w then negb (isSender (node w)) else isSender (node w)).
Proof.
  intros flag env w. split; [| split].
  - intros. apply keeps_role_handleReceivedPacket.
  - intros. apply keeps_role_handleLoraOtaPacket.
  - unfold loop.
    change (bind millis ?k w) with (k (u32 (clock w)) w). cbv beta.
    rewrite role_after_bind.
    + rewrite updateButton_role. destruct (shortPressReleased env w); reflexivity.
    + intros []. pose proof (keeps_role_loopSenderBroadcast env) as SB.
      pose proof (keeps_role_loopSenderPing env) as SP.
      pose proof (keeps_role_loopReceiver flag env) as LR.
      pose proof keeps_role_checkLoraOtaTimeout as CT.
      keeps_role_tac; first [apply SB | apply SP | apply LR].
Qed.

(** ** Control-channel rendezvous *)

Lemma u32_sub (a b : Z) : u32 (u32 a - u32 b) = u32 (a - b).
Proof. unfold u32. symmetry. apply Zminus_mod. Qed.

Lemma lastBegin_app (a b : list (Z * Event)) :
  lastBegin (a ++ b) = match lastBegin a with
                       | Some p => Some p
                       | None => lastBegin b
                       end.
Proof.
  induction a as [| [t e] a IH]; [reflexivity |].
  destruct e; cbn; auto.
Qed.

Ltac run_radio :=
  cbv beta iota delta
    [bind ret get modify when stop millis delay call blocking radio radio_begin
     radio_finish_begin radio_receive];
  cbn [node clock tick trace world_of].

Lemma transmitRepeated_returns env (times : nat) (msg : string) (intervalMs : Z) :
  forall w, exists w' new,
    transmitRepeated env times msg intervalMs w = Ret tt w'
    /\ node w' = node w
    /\ issued w w' new
    /\ lastBegin new = None.
Proof.
  induction times as [| k IH]; intros w.
  - exists w, []. repeat split.
  - cbn [transmitRepeated]. run_radio.
    match goal with |- context [transmitRepeated env k msg intervalMs ?w1] =>
      destruct (IH w1) as (w' & new & E & N & T & L) end.
    rewrite E. exists w', (new ++ [(clock w, RadioTransmit msg)]).
    split; [reflexivity |]. split; [exact N |].
    split.
    + unfold issued in *. rewrite T. cbn. rewrite <- app_assoc. reflexivity.
    + rewrite lastBegin_app, L. reflexivity.
Qed.

Lemma broadcast_restores env (times intervalMs : Z) (w : World) :
  radioStatus env (tick w) = RADIOLIB_ERR_NONE ->
  exists w' new,
    broadcastConfigOnControlChannel env times intervalMs w = Ret tt w'
    /\ issued w w' new
    /\ lastBegin new = Some (current (node w')).
Proof.
  intros H0. unfold broadcastConfigOnControlChannel. run_radio. rewrite H0. cbn [negb Z.eqb RADIOLIB_ERR_NONE].
  match goal with |- context [transmitRepeated env ?n ?m ?i ?w1] =>
    destruct (transmitRepeated_returns env n m i w1) as (w2 & new & E & N & T & L) end.
  rewrite E. cbn [node clock tick trace] in *. unfold issued in *. cbn [trace] in T.
  destruct (radioStatus env (tick w2) =? RADIOLIB_ERR_NONE); cbn [negb];
    eexists; eexists; (split; [reflexivity |]); cbn [trace node]; rewrite T, N.
  - split.
    + instantiate (1 := _ :: _ :: _ :: new ++ [_; _; _]).
      cbn. rewrite <- app_assoc. reflexivity.
    + reflexivity.
  - split.
    + instantiate (1 := _ :: new ++ [_; _; _]).
      cbn. rewrite <- app_assoc. reflexivity.
    + reflexivity.
Qed.

Lemma savePersistedSettings_returns (w : World) :
  savePersistedSettings w
  = Ret tt (mkWorld (node w) (clock w) (5 + tick w)
                    ([(clock w, PrefsPut "tx" (PInt (currentTxPower (node w))));
                      (clock w, PrefsPut "cr" (PInt (currentCR (node w))));
                      (clock w, PrefsPut "sf" (PInt (currentSF (node w))));
                      (clock w, PrefsPut "bw" (PFloat (currentBW (node w))));
                      (clock w, PrefsPut "freq" (PFloat (currentFreq (node w))))]
                       ++ trace w)).
Proof. reflexivity. Qed.

(** The listen loop returns once the window has elapsed, provided no single
    receive blocks long enough for the 32-bit clock difference to wrap past
    the window; [durationMs / 50 + 1] turns are enough. *)
Lemma listen_returns env (Dmax c0 durationMs : Z) :
  (forall k, Z.of_N (radioBlocks env k) <= Dmax) ->
  durationMs + Dmax + 50 <= 2 ^ 32 ->
  forall (fuel : nat) (w : World),
    0 <= clock w - c0 < durationMs + Dmax + 50 ->
    durationMs - (clock w - c0) < 50 * Z.of_nat fuel ->
    exists w' new,
      listenOnControlChannel env fuel (u32 c0) durationMs w = Ret tt w'
      /\ issued w w' new
      /\ lastBegin new = None.
Proof.
  intros HD Hwin. induction fuel as [| fuel IH]; intros w He Hf;
    cbn [listenOnControlChannel]; run_radio; rewrite u32_sub;
    (destruct (Z.ltb_spec (u32 (clock w - c0)) durationMs) as [Hlt | Hge];
     [| exists w, []; repeat split]);
    (assert (Hsmall : u32 (clock w - c0) = clock w - c0)
      by (apply u32_small; unfold UINT32_MAX; lia));
    rewrite Hsmall in Hlt.
  - exfalso. lia.
  - pose proof (HD (tick w)) as Hd.
    pose proof (N2Z.is_nonneg (radioBlocks env (tick w))) as Hd0.
    set (r := radioStatus env (tick w)).
    set (rx := if r =? RADIOLIB_ERR_NONE then rxPacket env (tick w) else EmptyString).
    destruct ((r =? RADIOLIB_ERR_NONE) && startsWith rx "CFG ") eqn:Ecfg.
    + run_radio.
      destruct (parseConfigMessage rx (current (node w))) as [parsed np] eqn:Ep.
      destruct (parsed =? 5).
      * unfold computeIndicesFromCurrent. run_radio.
        rewrite savePersistedSettings_returns.
        eexists. eexists (_ :: _ :: _ :: _ :: _ :: [(clock w, RadioReceive)]).
        split; [reflexivity |]. split; reflexivity.
      * run_radio.
        match goal with |- context [listenOnControlChannel env fuel _ _ ?w1] =>
          destruct (IH w1) as (w' & new & E & T & L) end.
        { cbn [clock]. lia. }
        { cbn [clock]. lia. }
        rewrite E. exists w', (new ++ [(clock w, RadioReceive)]).
        split; [reflexivity |]. split.
        -- unfold issued in *. rewrite T. cbn. rewrite <- app_assoc. reflexivity.
        -- rewrite lastBegin_app, L. reflexivity.
    + run_radio.
      match goal with |- context [listenOnControlChannel env fuel _ _ ?w1] =>
        destruct (IH w1) as (w' & new & E & T & L) end.
      { cbn [clock]. lia. }
      { cbn [clock]. lia. }
      rewrite E. exists w', (new ++ [(clock w, RadioReceive)]).
      split; [reflexivity |]. split.
      -- unfold issued in *. rewrite T. cbn. rewrite <- app_assoc. reflexivity.
      -- rewrite lastBegin_app, L. reflexivity.
Qed.

Lemma tryReceive_restores env (Dmax durationMs : Z) (fuel : nat) (w : World) :
  radioStatus env (tick w) = RADIOLIB_ERR_NONE ->
  (forall k, Z.of_N (radioBlocks env k) <= Dmax) ->
  0 <= durationMs ->
  durationMs + Dmax + 50 <= 2 ^ 32 ->
  durationMs < 50 * Z.of_nat fuel ->
  exists w' new,
    tryReceiveConfigOnControlChannel env fuel durationMs w = Ret tt w'
    /\ issued w w' new
    /\ lastBegin new = Some (current (node w')).
Proof.
  intros H0 HD Hpos Hwin Hf.
  pose proof (HD 0%nat) as HD0. pose proof (N2Z.is_nonneg (radioBlocks env 0)) as HD1.
  unfold tryReceiveConfigOnControlChannel. run_radio. rewrite H0.
  cbn [negb Z.eqb RADIOLIB_ERR_NONE].
  match goal with |- context [listenOnControlChannel env fuel (u32 ?c) _ ?w1] =>
    destruct (listen_returns env Dmax c durationMs HD Hwin fuel w1)
      as (w2 & new & E & T & L) end.
  { cbn [clock]. lia. }
  { cbn [clock]. lia. }
  rewrite E. unfold issued in *. cbn [trace] in T.
  destruct (radioStatus env (tick w2) =? RADIOLIB_ERR_NONE); cbn [negb];
    eexists; eexists; (split; [reflexivity |]); cbn [trace node]; rewrite T.
  - split.
    + instantiate (1 := _ :: _ :: _ :: new ++ [_; _; _]).
      cbn. rewrite <- app_assoc. reflexivity.
    + reflexivity.
  - split.
    + instantiate (1 := _ :: new ++ [_; _; _]).
      cbn. rewrite <- app_assoc. reflexivity.
    + reflexivity.
Qed.

Lemma excursion_refused env (times intervalMs durationMs : Z) (fuel : nat) (w : World) :
  radioStatus env (tick w) <> RADIOLIB_ERR_NONE ->
  let w' := mkWorld (node w) (clock w + Z.of_N (radioBlocks env (tick w))) (S (tick w))
                    ((clock w, RadioBegin (controlParams (node w))) :: trace w) in
  broadcastConfigOnControlChannel env times intervalMs w = Ret tt w'
  /\ tryReceiveConfigOnControlChannel env fuel durationMs w = Ret tt w'.
Proof.
  intros H0. cbv zeta.
  unfold broadcastConfigOnControlChannel, tryReceiveConfigOnControlChannel. run_radio.
  destruct (Z.eqb_spec (radioStatus env (tick w)) RADIOLIB_ERR_NONE); [contradiction |].
  split; reflexivity.
Qed.

(** C3, as the code has it.  When the radio accepts the switch to the control
    channel, both excursions return, and the last [radio.begin] they issue
    before returning carries the parameters the node then holds as current
    (on the receive side the applied ones, if a control message was applied).
    The receive side returns within [durationMs / 50 + 1] turns of its loop
    as long as no receive blocks for more than [Dmax] milliseconds.  When the
    radio rejects the switch, both functions return at once: the rejected
    [radio.begin] on the control channel is the only call they make. *)
Theorem control_channel_excursion_restores :
  forall (env : Env) (w : World) (times intervalMs durationMs Dmax : Z) (fuel : nat),
    (forall k, Z.of_N (radioBlocks env k) <= Dmax) ->
    0 <= durationMs ->
    durationMs + Dmax + 50 <= 2 ^ 32 ->
    durationMs < 50 * Z.of_nat fuel ->
    (radioStatus env (tick w) = RADIOLIB_ERR_NONE ->
     (exists w' new,
         broadcastConfigOnControlChannel env times intervalMs w = Ret tt w'
         /\ issued w w' new
         /\ lastBegin new = Some (current (node w')))
     /\ (exists w' new,
           tryReceiveConfigOnControlChannel env fuel durationMs w = Ret tt w'
           /\ issued w w' new
           /\ lastBegin new = Some (current (node w'))))
    /\ (radioStatus env (tick w) <> RADIOLIB_ERR_NONE ->
        exists w',
          broadcastConfigOnControlChannel env times intervalMs w = Ret tt w'
          /\ tryReceiveConfigOnControlChannel env fuel durationMs w = Ret tt w'
          /\ node w' = node w
          /\ issued w w' [(clock w, RadioBegin (controlParams (node w)))]).
Proof.
  intros env w times intervalMs durationMs Dmax fuel HD Hpos Hwin Hf. split.
  - intros H0. split.
    + apply broadcast_restores. exact H0.
    + apply (tryReceive_restores env Dmax); assumption.
  - intros H0.
    destruct (excursion_refused env times intervalMs durationMs fuel w H0) as [Eb Er].
    eexists. split; [exact Eb |]. split; [exact Er |]. split; reflexivity.
Qed.

Lemma control_channel_excursion_restores_witness :
  (exists w' new,
      broadcastConfigOnControlChannel quietEnv 6 250 driftedWorld = Ret tt w'
      /\ issued driftedWorld w' new
      /\ lastBegin new = Some (current (node w')))
  /\ (exists w' new,
        tryReceiveConfigOnControlChannel quietEnv 121 6000 driftedWorld = Ret tt w'
        /\ issued driftedWorld w' new
        /\ lastBegin new = Some (current (node w'))).
Proof.
  refine (proj1 (control_channel_excursion_restores
                   quietEnv driftedWorld 6 250 6000 0 121 _ _ _ _) _).
  - intros k. simpl. lia.
  - lia.
  - lia.
  - lia.
  - reflexivity.
Defined.

(** C3 as stated fails: when the radio rejects the switch to the control
    channel, neither excursion issues a reconfiguration to the node's current
    parameters; the only [radio.begin] made names the control channel. *)
Lemma control_channel_excursion_counterexample :
  let sent := world_of (broadcastConfigOnControlChannel rejectingEnv 6 250 driftedWorld) in
  let heard := world_of (tryReceiveConfigOnControlChannel rejectingEnv 121 6000 driftedWorld) in
  stopped (broadcastConfigOnControlChannel rejectingEnv 6 250 driftedWorld) = None
  /\ stopped (tryReceiveConfigOnControlChannel rejectingEnv 121 6000 driftedWorld) = None
  /\ map snd (trace sent) = [RadioBegin (mkParams 915 125 9 5 17)]
  /\ map snd (trace heard) = [RadioBegin (mkParams 915 125 9 5 17)]
  /\ current (node sent) = mkParams 915 250 11 5 17
  /\ current (node heard) = mkParams 915 250 11 5 17
  /\ lastBegin (trace sent) <> Some (current (node sent))
  /\ lastBegin (trace heard) <> Some (current (node heard)).
Proof.
  cbv zeta. repeat split; try (vm_compute; reflexivity); vm_compute; discriminate.
Qed.

(** ** Config broadcast *)

Lemma transmitTimes_app (msg : string) (a b : list (Z * Event)) :
  transmitTimes msg (a ++ b) = transmitTimes msg a ++ transmitTimes msg b.
Proof.
  induction a as [| [t e] a IH]; [reflexivity |].
  destruct e; cbn; auto. destruct (String.eqb msg0 msg); cbn; congruence.
Qed.

Lemma ping_is_not_config (s : Z) (p : RadioParams) :
  String.eqb (snprintf 48 "PING seq=%lu" [AInt s]) (formatConfigMessage p) = false.
Proof. reflexivity. Qed.

Lemma updateButton_idle flag env (w : World) :
  pinLevel env (tick w) = HIGH ->
  buttonPressed (button (node w)) = false ->
  exists n',
    updateButton flag env w
    = Ret tt (mkWorld n' (clock w) (S (tick w)) ((clock w, DigitalRead) :: trace w))
    /\ sameSenderState (node w) n'
    /\ seq n' = seq (node w).
Proof.
  intros P B. unfold updateButton, digitalRead, HIGH, LOW in *. run_m.
  rewrite P. cbn [Bool.eqb]. rewrite !Bool.andb_false_r. cbn.
  rewrite B, Bool.andb_false_r. cbn.
  eexists. split; [reflexivity |]. repeat split.
Qed.

Lemma checkLoraOtaTimeout_returns (w : World) :
  exists n',
    checkLoraOtaTimeout w = Ret tt (mkWorld n' (clock w) (tick w) (trace w))
    /\ sameSenderState (node w) n'
    /\ seq n' = seq (node w).
Proof.
  destruct w as [n c t tr]. unfold checkLoraOtaTimeout. run_m.
  destruct (loraOtaActive (ota n) && _); cbn;
    eexists; (split; [reflexivity |]); repeat split.
Qed.

Lemma updateRadioSettings_returns env (w : World) :
  exists w' new,
    updateRadioSettings env w = Ret tt w'
    /\ node w' = node w
    /\ trace w' = new ++ (clock w, RadioSetFrequency (currentFreq (node w))) :: trace w
    /\ (forall msg, transmitTimes msg new = [])
    /\ clock w <= clock w'.
Proof.
  pose proof (fun k => N2Z.is_nonneg (radioBlocks env k)) as Hd.
  unfold updateRadioSettings. run_radio.
  repeat match goal with
         | |- context [if ?b then _ else _] => destruct b; run_radio
         end;
    eexists; eexists; (split; [reflexivity |]); (split; [reflexivity |]); cbn [trace clock];
    (split; [ first [ instantiate (1 := []); reflexivity
                    | instantiate (1 := [_]); reflexivity
                    | instantiate (1 := [_; _]); reflexivity
                    | instantiate (1 := [_; _; _]); reflexivity
                    | instantiate (1 := [_; _; _; _]); reflexivity ] |]);
    (split; [intros; reflexivity |]);
    repeat match goal with
           | |- context [radioBlocks env ?k] =>
               pose proof (Hd k); generalize dependent (Z.of_N (radioBlocks env k)); intros
           end; lia.
Qed.

Arguments updateRadioSettings : simpl never.
Arguments savePersistedSettings : simpl never.
Arguments checkLoraOtaTimeout : simpl never.
Arguments computeIndicesFromCurrent : simpl never.
Arguments formatConfigMessage : simpl never.
Arguments snprintf : simpl never.
Arguments u32 : simpl never.
Arguments i32 : simpl never.

Lemma loop_pending flag env (w : World) :
  isSender (node w) = true ->
  buttonPressed (button (node w)) = false ->
  pinLevel env (tick w) = HIGH ->
  pendingConfigBroadcast (cfg (node w)) = true ->
  let g := cfg (node w) in
  let c := clock w in
  let msg := formatConfigMessage (pending g) in
  exists w',
    loop flag env w = Ret tt w'
    /\ isSender (node w') = true
    /\ buttonPressed (button (node w')) = false
    /\ ((broadcastDue w = false
         /\ sameSenderState (node w) (node w')
         /\ clock w' = c + 10
         /\ trace w' = (c, DigitalRead) :: trace w)
        \/ (broadcastDue w = true
            /\ 0 < i32 (cfgRemaining g - 1)
            /\ cfg (node w') = mkCfg true (pending g) (u32 c) (i32 (cfgRemaining g - 1))
            /\ current (node w') = current (node w)
            /\ lastTxMs (node w') = lastTxMs (node w)
            /\ clock w' = c + Z.of_N (radioBlocks env (S (tick w))) + 10
            /\ trace w' = (c, RadioTransmit msg) :: (c, DigitalRead) :: trace w)
        \/ (broadcastDue w = true
            /\ i32 (cfgRemaining g - 1) <= 0
            /\ pendingConfigBroadcast (cfg (node w')) = false
            /\ current (node w') = pending g
            /\ exists later,
                 trace w' = later ++ (c, RadioTransmit msg) :: (c, DigitalRead) :: trace w
                 /\ (forall m, transmitTimes m later = [])
                 /\ In (RadioSetFrequency (Freq (pending g))) (map snd later)
                 /\ In (PrefsPut "freq" (PFloat (Freq (pending g)))) (map snd later))).
Proof.
  intros HS HB HP HQ g c msg.
  destruct (updateButton_idle flag env w HP HB) as (n1 & E1 & (S1 & S2 & S3 & S4 & S5) & _).
  unfold loop. cbv beta iota delta [bind millis get]. rewrite E1. clear E1. cbv beta iota. cbn [node].
  rewrite S1, HS, S3, HQ.
  unfold loopSenderBroadcast. run_radio.
  rewrite S3, S4. fold (broadcastDue w).
  destruct (broadcastDue w) eqn:Due; cbn.
  - rewrite S3.
    destruct (Z.leb_spec (i32 (cfgRemaining (cfg (node w)) - 1)) 0) as [Hr | Hr].
    + unfold computeIndicesFromCurrent at 1. run_m.
      match goal with |- context [updateRadioSettings env ?w1] =>
        destruct (updateRadioSettings_returns env w1) as (w2 & newU & E2 & N2 & T2 & U2 & _) end.
      rewrite E2. clear E2. cbn [node clock trace] in N2, T2.
      rewrite savePersistedSettings_returns. cbn.
      match goal with |- context [checkLoraOtaTimeout ?w3] =>
        destruct (checkLoraOtaTimeout_returns w3) as (n4 & E4 & (C1 & C2 & C3 & C4 & C5) & _) end.
      rewrite E4. clear E4.
      unfold currentFreq, currentBW, currentSF, currentCR, currentTxPower in *.
      rewrite N2 in *. cbn in *.
      eexists. split; [reflexivity |]. cbn.
      split; [congruence |]. split; [congruence |].
      right. right. split; [reflexivity |]. split; [exact Hr |].
      split; [rewrite C3; reflexivity |]. split; [rewrite C2; reflexivity |].
      rewrite T2. eexists (_ :: _ :: _ :: _ :: _ :: newU ++ [_]).
      split; [cbn; rewrite <- app_assoc; reflexivity |].
      split; [intros m; cbn; rewrite transmitTimes_app, U2; reflexivity |].
      split.
      * cbn. do 5 right. rewrite map_app. apply in_or_app. right. left. reflexivity.
      * cbn. do 4 right. left. reflexivity.
    + match goal with |- context [checkLoraOtaTimeout ?w3] =>
        destruct (checkLoraOtaTimeout_returns w3) as (n4 & E4 & (C1 & C2 & C3 & C4 & C5) & _) end.
      rewrite E4. clear E4. cbn in *.
      eexists. split; [reflexivity |]. cbn.
      split; [congruence |]. split; [congruence |].
      right. left. split; [reflexivity |]. split; [exact Hr |].
      rewrite C3, C2, C4, HQ. repeat split; try congruence.
  - match goal with |- context [checkLoraOtaTimeout ?w3] =>
      destruct (checkLoraOtaTimeout_returns w3) as (n4 & E4 & (C1 & C2 & C3 & C4 & C5) & _) end.
    rewrite E4. clear E4. cbn in *.
    eexists. split; [reflexivity |]. cbn.
    split; [congruence |]. split; [congruence |].
    left. repeat split; congruence.
Qed.

Lemma loop_done flag env (w : World) :
  isSender (node w) = true ->
  buttonPressed (button (node w)) = false ->
  pinLevel env (tick w) = HIGH ->
  pendingConfigBroadcast (cfg (node w)) = false ->
  exists w' ev,
    loop flag env w = Ret tt w'
    /\ isSender (node w') = true
    /\ buttonPressed (button (node w')) = false
    /\ cfg (node w') = cfg (node w)
    /\ current (node w') = current (node w)
    /\ trace w' = ev ++ trace w
    /\ (forall p, transmitTimes (formatConfigMessage p) ev = []).
Proof.
  intros HS HB HP HQ.
  destruct (updateButton_idle flag env w HP HB) as (n1 & E1 & (S1 & S2 & S3 & S4 & S5) & _).
  unfold loop. cbv beta iota delta [bind millis get]. rewrite E1. clear E1.
  cbv beta iota. cbn [node].
  rewrite S1, HS, S3, HQ.
  unfold loopSenderPing. run_radio.
  destruct (u32 (u32 (clock w) - lastTxMs n1) >=? 2000); cbn;
    match goal with |- context [checkLoraOtaTimeout ?w3] =>
      destruct (checkLoraOtaTimeout_returns w3) as (n4 & E4 & (C1 & C2 & C3 & C4 & C5) & _) end;
    rewrite E4; clear E4; cbn in *.
  - eexists. eexists [_; _]. split; [reflexivity |]. cbn.
    repeat split; try congruence.
  - eexists. eexists [_]. split; [reflexivity |]. cbn.
    repeat split; try congruence.
Qed.

Lemma u32_le (x k : Z) : 0 <= x -> k <= u32 x -> k <= x.
Proof.
  intros Hx Hk. unfold u32 in Hk.
  pose proof (Z.mod_le x (2 ^ 32) Hx ltac:(lia)). lia.
Qed.

Lemma broadcastDue_gap (w : World) (t : Z) :
  broadcastDue w = true ->
  cfgLastTxMs (cfg (node w)) = u32 t ->
  t <= clock w ->
  300 <= clock w - t.
Proof.
  unfold broadcastDue. intros Hd Hl Ht.
  apply andb_prop in Hd. destruct Hd as [_ Hd].
  rewrite Hl, u32_sub in Hd.
  apply u32_le; [lia |].
  destruct (Z.geb_spec (u32 (clock w - t)) 300); [lia | discriminate].
Qed.

Lemma gapsAtLeast_cons (g a : Z) (l : list Z) :
  match l with
  | [] => True
  | b :: _ => g <= a - b
  end ->
  gapsAtLeast g l -> gapsAtLeast g (a :: l).
Proof. destruct l; cbn; auto. Qed.

Lemma broadcastInvariant_start (w0 : World) (target : RadioParams) :
  isSender (node w0) = true ->
  buttonPressed (button (node w0)) = false ->
  exists w1,
    startConfigBroadcast target w0 = Ret tt w1
    /\ clock w1 = clock w0
    /\ lastTxMs (node w1) = lastTxMs (node w0)
    /\ cfg (node w1) = mkCfg true target 0 8
    /\ broadcastInvariant w0 target w1 [].
Proof.
  intros HS HB. unfold startConfigBroadcast. run_m.
  eexists. split; [reflexivity |]. cbn.
  repeat split; auto.
  left. cbn. repeat split; auto; lia.
Qed.

Lemma broadcastInvariant_step flag env (w0 : World) (target : RadioParams)
      (w : World) (new : list (Z * Event)) :
  (forall i, pinLevel env i = HIGH) ->
  broadcastInvariant w0 target w new ->
  exists w' new',
    loop flag env w = Ret tt w' /\ broadcastInvariant w0 target w' new'.
Proof.
  intros HP (HS & HB & HI & HG & [Pend | Done]).
  - destruct Pend as (HQ & Ht & Hr & Hl & Hc & Hev & Hlast).
    destruct (loop_pending flag env w HS HB (HP _) HQ)
      as (w' & E & HS' & HB' & [Idle | [Send | Commit]]);
      try rewrite Ht in *.
    + destruct Idle as (_ & (_ & I2 & I3 & _) & I5 & I6).
      exists w', ((clock w, DigitalRead) :: new).
      split; [exact E |]. unfold broadcastInvariant, issued in *.
      rewrite I6, HI, I3. cbn [transmitTimes app].
      repeat split; auto.
      left. rewrite I2. repeat split; auto; try lia.
      * constructor; [left; reflexivity | exact Hev].
      * destruct (transmitTimes (formatConfigMessage target) new); [exact Hlast |].
        destruct Hlast. split; [assumption | lia].
    + destruct Send as (Due & Hpos & Hcfg & Hcur & _ & Hclk & Htr).
      rewrite i32_small in * by (unfold INT32_MIN, INT32_MAX; lia).
      pose proof (N2Z.is_nonneg (radioBlocks env (S (tick w)))) as Hd.
      exists w', ((clock w, RadioTransmit (formatConfigMessage target))
                    :: (clock w, DigitalRead) :: new).
      split; [exact E |]. unfold broadcastInvariant, issued in *.
      rewrite Htr, HI, Hcfg. cbn [transmitTimes app].
      rewrite String.eqb_refl. cbn [pendingConfigBroadcast pending cfgRemaining cfgLastTxMs].
      split; [exact HS' |]. split; [exact HB' |]. split; [reflexivity |].
      split.
      { apply gapsAtLeast_cons; [| exact HG].
        destruct (transmitTimes (formatConfigMessage target) new) as [| t l]; [exact I |].
        destruct Hlast as [Hl1 Hl2]. apply broadcastDue_gap; assumption. }
      left. repeat split; auto; try lia.
      * cbn [List.length]. lia.
      * congruence.
      * constructor; [right; reflexivity |].
        constructor; [left; reflexivity | exact Hev].
    + destruct Commit as (Due & Hle & Hq' & Hcur & later & Htr & Hnone & Hin1 & Hin2).
      assert (Hr1 : cfgRemaining (cfg (node w)) = 1).
      { destruct (Z.eq_dec (cfgRemaining (cfg (node w))) 1) as [e | ne]; [exact e |].
        rewrite i32_small in Hle by (unfold INT32_MIN, INT32_MAX; lia). lia. }
      exists w', (later ++ (clock w, RadioTransmit (formatConfigMessage target))
                        :: (clock w, DigitalRead) :: new).
      split; [exact E |]. unfold broadcastInvariant, issued in *.
      rewrite Htr, HI, transmitTimes_app, Hnone. cbn [transmitTimes app].
      rewrite String.eqb_refl.
      split; [exact HS' |]. split; [exact HB' |].
      split; [rewrite <- app_assoc; reflexivity |].
      split.
      { apply gapsAtLeast_cons; [| exact HG].
        destruct (transmitTimes (formatConfigMessage target) new) as [| t l]; [exact I |].
        destruct Hlast as [Hl1 Hl2]. apply broadcastDue_gap; assumption. }
      right. split; [exact Hq' |]. split; [exact Hcur |].
      split; [cbn [List.length]; lia |].
      exists later, (clock w), ((clock w, DigitalRead) :: new).
      repeat split; auto.
      constructor; [left; reflexivity | exact Hev].
  - destruct Done as (HQ & Hc & Hl & later & t8 & earlier & Hn & Hev & Hnone & Hin1 & Hin2).
    destruct (loop_done flag env w HS HB (HP _) HQ)
      as (w' & ev & E & HS' & HB' & Hcfg & Hcur & Htr & Hno).
    exists w', (ev ++ new). split; [exact E |].
    unfold broadcastInvariant, issued in *.
    rewrite Htr, HI, transmitTimes_app, Hno, Hcfg, Hcur. cbn [app].
    split; [exact HS' |]. split; [exact HB' |].
    split; [rewrite app_assoc; reflexivity |].
    split; [exact HG |].
    right. repeat split; auto.
    exists (ev ++ later), t8, earlier. rewrite Hn.
    repeat split; auto.
    + rewrite app_assoc. reflexivity.
    + rewrite transmitTimes_app, Hno, Hnone. reflexivity.
    + rewrite map_app. apply in_or_app. right. exact Hin1.
    + rewrite map_app. apply in_or_app. right. exact Hin2.
Qed.

Lemma broadcastInvariant_loops flag env (w0 : World) (target : RadioParams) (k : nat) :
  (forall i, pinLevel env i = HIGH) ->
  forall (w : World) (new : list (Z * Event)),
    broadcastInvariant w0 target w new ->
    exists w' new',
      loops flag env k w = Ret tt w' /\ broadcastInvariant w0 target w' new'.
Proof.
  intros HP. induction k as [| k IH]; intros w new Inv.
  - exists w, new. split; [reflexivity | exact Inv].
  - destruct (broadcastInvariant_step flag env w0 target w new HP Inv) as (w1 & new1 & E1 & Inv1).
    destruct (IH w1 new1 Inv1) as (w' & new' & E & Inv').
    exists w', new'. split; [| exact Inv'].
    cbn [loops]. unfold bind. rewrite E1. exact E.
Qed.

Lemma loops_app flag env (a b : nat) (w w1 : World) :
  loops flag env a w = Ret tt w1 ->
  loops flag env (a + b) w = loops flag env b w1.
Proof.
  revert w. induction a as [| a IH]; intros w E.
  - cbn in E. inversion E. reflexivity.
  - cbn [loops Nat.add] in *. unfold bind in *.
    destruct (loop flag env w) as [[] w2 | r w2]; [| discriminate].
    apply IH. exact E.
Qed.

Lemma broadcastDue_true (w : World) :
  0 <= lastTxMs (node w) -> 0 <= cfgLastTxMs (cfg (node w)) ->
  clock w <= UINT32_MAX ->
  lastTxMs (node w) + 50 <= clock w ->
  cfgLastTxMs (cfg (node w)) + 300 <= clock w ->
  broadcastDue w = true.
Proof.
  intros H1 H2 H3 H4 H5. unfold broadcastDue.
  rewrite (u32_small (clock w)) by lia.
  rewrite !u32_small by lia.
  apply andb_true_intro. split; apply Z.geb_le; lia.
Qed.

(** One turn of [loop] while a broadcast is pending and the clock has not
    wrapped: an idle turn of ten milliseconds, the last transmission with its
    commit, or one more transmission. *)
Lemma broadcast_turn flag env (Dmax r : Z) (w : World) :
  (forall i, pinLevel env i = HIGH) ->
  (forall i, Z.of_N (radioBlocks env i) <= Dmax) ->
  broadcastWaiting r w ->
  1 <= r <= 8 ->
  clock w <= UINT32_MAX ->
  exists w',
    loop flag env w = Ret tt w'
    /\ ((broadcastDue w = false
         /\ broadcastWaiting r w'
         /\ lastTxMs (node w') = lastTxMs (node w)
         /\ cfgLastTxMs (cfg (node w')) = cfgLastTxMs (cfg (node w))
         /\ clock w' = clock w + 10)
        \/ pendingConfigBroadcast (cfg (node w')) = false
        \/ (broadcastWaiting (r - 1) w'
            /\ 1 <= r - 1
            /\ clock w' <= clock w + Dmax + 10)).
Proof.
  intros HP HD (HS & HB & HQ & Hr & HL & HC) Hr8 Hmax.
  destruct (loop_pending flag env w HS HB (HP _) HQ)
    as (w' & E & HS' & HB' & [Idle | [Send | Commit]]);
    exists w'; (split; [exact E |]).
  - destruct Idle as (Due & (_ & _ & I3 & I4 & _) & I5 & _).
    left. unfold broadcastWaiting. rewrite I3, I4, I5.
    repeat split; auto; lia.
  - destruct Send as (_ & Hpos & Hcfg & _ & Hlast & Hclk & _).
    rewrite Hr in *.
    rewrite i32_small in * by (unfold INT32_MIN, INT32_MAX; lia).
    rewrite u32_small in Hcfg by lia.
    pose proof (HD (S (tick w))) as Hd.
    pose proof (N2Z.is_nonneg (radioBlocks env (S (tick w)))) as Hd0.
    right. right. unfold broadcastWaiting. rewrite Hcfg, Hlast, Hclk. cbn.
    repeat split; auto; lia.
  - destruct Commit as (_ & _ & Hq' & _). right. left. exact Hq'.
Qed.

(** While the clock has not wrapped, a pending broadcast makes its next
    transmission as soon as both waiting times have passed, which takes at
    most [n] idle turns of ten milliseconds. *)
Lemma broadcast_next_transmission flag env (Dmax : Z) :
  (forall i, pinLevel env i = HIGH) ->
  (forall i, Z.of_N (radioBlocks env i) <= Dmax) ->
  forall (n : nat) (r : Z) (w : World),
    broadcastWaiting r w ->
    1 <= r <= 8 ->
    let D := Z.max (lastTxMs (node w) + 50) (cfgLastTxMs (cfg (node w)) + 300) in
    D - clock w <= 10 * Z.of_nat n ->
    Z.max (clock w) (D + 9) <= UINT32_MAX ->
    exists k w',
      loops flag env k w = Ret tt w'
      /\ (pendingConfigBroadcast (cfg (node w')) = false
          \/ (broadcastWaiting (r - 1) w'
              /\ 1 <= r - 1
              /\ clock w' <= Z.max (clock w) (D + 9) + Dmax + 10)).
Proof.
  intros HP HD. induction n as [| n IH]; intros r w HW Hr8 D Hn Hmax;
    (destruct (broadcast_turn flag env Dmax r w HP HD HW Hr8 ltac:(lia))
      as (w' & E & [Idle | [Done | Next]]);
     [ | exists 1%nat, w'; split; [cbn [loops]; unfold bind; rewrite E; reflexivity |];
         left; exact Done
       | exists 1%nat, w'; split; [cbn [loops]; unfold bind; rewrite E; reflexivity |];
         right; destruct Next as (N1 & N2 & N3);
         split; [exact N1 |]; split; [exact N2 | lia] ]);
    destruct Idle as (Due & HW' & I3 & I4 & I5);
    pose proof HW as (_ & _ & _ & _ & HL & HC);
    (destruct (Z_lt_le_dec (clock w) D) as [Hlt | Hge];
     [| rewrite broadcastDue_true in Due by lia; discriminate]).
  - lia.
  - destruct (IH r w' HW' Hr8) as (k & w'' & E' & R).
    { rewrite I3, I4, I5. fold D. lia. }
    { rewrite I3, I4, I5. fold D. lia. }
    exists (S k), w''. split.
    + cbn [loops]. unfold bind. rewrite E. exact E'.
    + rewrite I3, I4, I5 in R. fold D in R.
      destruct R as [R | (R1 & R2 & R3)]; [left; exact R | right].
      split; [exact R1 |]. split; [exact R2 |]. lia.
Qed.

(** A pending broadcast with [r] transmissions to go is committed after
    finitely many turns, within [r * (320 + Dmax)] milliseconds. *)
Lemma broadcast_completes flag env (Dmax : Z) :
  (forall i, pinLevel env i = HIGH) ->
  (forall i, Z.of_N (radioBlocks env i) <= Dmax) ->
  forall (r : nat) (w : World),
    broadcastWaiting (Z.of_nat r) w ->
    (1 <= r <= 8)%nat ->
    clock w + Z.of_nat r * (320 + Dmax) <= 2 ^ 32 ->
    exists k w',
      loops flag env k w = Ret tt w'
      /\ pendingConfigBroadcast (cfg (node w')) = false.
Proof.
  intros HP HD.
  pose proof (HD 0%nat) as HD0. pose proof (N2Z.is_nonneg (radioBlocks env 0)) as HD1.
  induction r as [| r IH]; intros w HW Hr Hclk; [lia |].
  pose proof HW as (_ & _ & _ & _ & HL & HC).
  assert (HX : 0 <= Z.of_nat r * (320 + Dmax)) by (apply Z.mul_nonneg_nonneg; lia).
  rewrite Nat2Z.inj_succ in Hclk. unfold Z.succ in Hclk.
  rewrite Z.mul_add_distr_r, Z.mul_1_l in Hclk.
  pose proof (broadcast_next_transmission flag env Dmax HP HD 30 (Z.of_nat (S r)) w HW)
    as Hnext.
  cbv zeta in Hnext.
  destruct Hnext as (k & w' & E & [Done | (HW' & Hr' & Hc')]);
    [lia | lia | unfold UINT32_MAX; lia | |].
  - exists k, w'. split; assumption.
  - replace (Z.of_nat (S r) - 1) with (Z.of_nat r) in * by lia.
    destruct (IH w' HW') as (k' & w'' & E' & Done); try lia.
    exists (k + k')%nat, w''. split; [| exact Done].
    rewrite (loops_app flag env k k' w w' E). exact E'.
Qed.

(** C4, as the code has it.  On a sender whose button is left alone, a
    broadcast started with [startConfigBroadcast target] goes as follows,
    whatever the number [k] of turns of [loop] taken so far: the target
    message has been transmitted at most eight times, successive
    transmissions start at least 300 ms apart, and while the broadcast is
    pending the node has done nothing but read the button pin and transmit
    that message, its current parameters being the old ones.  Once the
    pending flag is clear, exactly eight transmissions have been made, the
    current parameters are the target, and the radio settings and the stored
    preferences were written after the eighth transmission.  The broadcast
    does complete: if no radio call blocks for more than [Dmax] ms and the
    32-bit clock does not wrap within [8 * (320 + Dmax)] ms, some number of
    turns clears the pending flag. *)
Theorem config_broadcast_eight_then_commit :
  forall (ENABLE_WIFI_OTA : bool) (env : Env) (w0 : World) (target : RadioParams),
    isSender (node w0) = true ->
    buttonPressed (button (node w0)) = false ->
    (forall i, pinLevel env i = HIGH) ->
    let msg := formatConfigMessage target in
    exists w1,
      startConfigBroadcast target w0 = Ret tt w1
      /\ (forall k : nat,
            exists wk new,
              loops ENABLE_WIFI_OTA env k w1 = Ret tt wk
              /\ issued w0 wk new
              /\ (List.length (transmitTimes msg new) <= 8)%nat
              /\ gapsAtLeast 300 (transmitTimes msg new)
              /\ (pendingConfigBroadcast (cfg (node wk)) = true ->
                  (List.length (transmitTimes msg new) < 8)%nat
                  /\ current (node wk) = current (node w0)
                  /\ Forall (pinOrTransmit msg) new)
              /\ (pendingConfigBroadcast (cfg (node wk)) = false ->
                  List.length (transmitTimes msg new) = 8%nat
                  /\ current (node wk) = target
                  /\ exists later t8 earlier,
                       new = later ++ (t8, RadioTransmit msg) :: earlier
                       /\ Forall (pinOrTransmit msg) earlier
                       /\ transmitTimes msg later = []
                       /\ In (RadioSetFrequency (Freq target)) (map snd later)
                       /\ In (PrefsPut "freq" (PFloat (Freq target))) (map snd later)))
      /\ (forall Dmax : Z,
            (forall i, Z.of_N (radioBlocks env i) <= Dmax) ->
            0 <= lastTxMs (node w0) <= clock w0 ->
            clock w0 + 8 * (320 + Dmax) <= 2 ^ 32 ->
            exists k wk,
              loops ENABLE_WIFI_OTA env k w1 = Ret tt wk
              /\ pendingConfigBroadcast (cfg (node wk)) = false).
Proof.
  intros flag env w0 target HS HB HP msg.
  destruct (broadcastInvariant_start w0 target HS HB) as (w1 & E1 & Hc1 & Hl1 & Hg1 & Inv1).
  exists w1. split; [exact E1 |]. split.
  - intros k.
    destruct (broadcastInvariant_loops flag env w0 target k HP w1 [] Inv1)
      as (wk & new & E & (_ & _ & HI & HG & Phase)).
    exists wk, new. split; [exact E |]. split; [exact HI |].
    fold msg in HG, Phase.
    destruct Phase as [(HQ & _ & Hr & Hl & Hc & Hev & _) | (HQ & Hc & Hl & Hdec)].
    + split; [lia |]. split; [exact HG |]. split.
      * intros _. split; [lia |]. split; assumption.
      * intros HQ'. congruence.
    + split; [lia |]. split; [exact HG |]. split.
      * intros HQ'. congruence.
      * intros _. split; [exact Hl |]. split; assumption.
  - intros Dmax HD HL Hclk.
    apply (broadcast_completes flag env Dmax HP HD 8).
    + unfold broadcastWaiting. rewrite Hg1, Hl1, Hc1. cbn.
      destruct Inv1 as (HS1 & HB1 & _). repeat split; auto; lia.
    + lia.
    + rewrite Hc1. exact Hclk.
Qed.

Lemma config_broadcast_eight_then_commit_witness :
  exists w1,
    startConfigBroadcast nextSfTarget senderWorld = Ret tt w1
    /\ exists k wk,
         loops false quietEnv k w1 = Ret tt wk
         /\ pendingConfigBroadcast (cfg (node wk)) = false.
Proof.
  destruct (config_broadcast_eight_then_commit
              false quietEnv senderWorld nextSfTarget
              eq_refl eq_refl (fun _ => eq_refl))
    as (w1 & E & _ & Live).
  exists w1. split; [exact E |].
  apply (Live 0).
  - intros i. simpl. lia.
  - simpl. lia.
  - simpl. lia.
Defined.

(** C4 as stated fails: when the button is held for a second and released
    while the broadcast is pending, [startConfigBroadcast] runs again for the
    same target; the message goes out twelve times before the commit, and the
    fifth transmission starts 160 ms after the fourth. *)
Lemma config_broadcast_counterexample :
  let run :=
    bind (startConfigBroadcast nextSfTarget) (fun _ => loops false pressEnv 400)
         senderWorld in
  stopped run = None
  /\ isSender (node (world_of run)) = true
  /\ pendingConfigBroadcast (cfg (node (world_of run))) = false
  /\ current (node (world_of run)) = nextSfTarget
  /\ transmitTimes (formatConfigMessage nextSfTarget) (trace (world_of run))
     = [13160; 12860; 12560; 12260; 11960; 11660; 11360; 11060;
        10900; 10600; 10300; 10000]
  /\ ~ gapsAtLeast 300
         (transmitTimes (formatConfigMessage nextSfTarget) (trace (world_of run))).
Proof.
  cbv zeta.
  assert (T : transmitTimes (formatConfigMessage nextSfTarget)
                (trace (world_of
                   (bind (startConfigBroadcast nextSfTarget)
                         (fun _ => loops false pressEnv 400) senderWorld)))
              = [13160; 12860; 12560; 12260; 11960; 11660; 11360; 11060;
                 10900; 10600; 10300; 10000])
    by (vm_compute; reflexivity).
  split; [vm_compute; reflexivity |].
  split; [vm_compute; reflexivity |].
  split; [vm_compute; reflexivity |].
  split; [vm_compute; reflexivity |].
  split; [exact T |].
  rewrite T. cbn. lia.
Qed.

(** ** Cycling on the receiver *)

(** The long press of a receiver, lines 538-541 of [main.cpp]: the bandwidth
    index advances by the cycle operation and the bandwidth becomes the table
    entry at the new index. *)
Lemma receiver_long_press_cycles_bandwidth env (w : World) :
  isSender (node w) = false ->
  0 <= currentBwIndex (indices (node w)) < Z.of_nat (List.length bwValues) ->
  exists w',
    onLongPress env w = Ret tt w'
    /\ currentBwIndex (indices (node w'))
       = (currentBwIndex (indices (node w)) + 1) mod Z.of_nat (List.length bwValues)
    /\ currentBW (node w') = table_at bwValues (currentBwIndex (indices (node w'))) 0%Q
    /\ In (currentBW (node w')) bwValues.
Proof.
  intros HS Hi. unfold onLongPress. run_m. rewrite HS.
  match goal with |- context [updateRadioSettings env ?w1] =>
    destruct (updateRadioSettings_returns env w1) as (w2 & newU & E2 & N2 & _) end.
  rewrite E2, savePersistedSettings_returns. cbn [node] in *.
  eexists. split; [reflexivity |]. cbn [node]. rewrite N2.
  unfold currentBW. cbn [current indices currentBwIndex set_current set_indices with_BW BW].
  rewrite nextIndex_mod by (cbn in *; unfold INT32_MAX; lia).
  split; [reflexivity |]. split; [reflexivity |].
  unfold table_at. apply nth_In.
  pose proof (Z.mod_pos_bound (currentBwIndex (indices (node w)) + 1)
                              (Z.of_nat (List.length bwValues)) ltac:(cbn; lia)).
  lia.
Qed.

(** * Further properties *)

Import More.

(** ** Decimal spelling *)

Lemma triple_eq {A B C} (a a' : A) (b b' : B) (c : C) :
  a = a' -> b = b' -> (a, b, c) = (a', b', c).
Proof. intros -> ->. reflexivity. Qed.

Lemma take_digits_string_of_uint (d : Decimal.uint) (rest : string) :
  no_digit_ahead rest ->
  forall acc n,
    take_digits (NilEmpty.string_of_uint d ++ rest) acc n
    = (digits_value d acc, (n + Decimal.nb_digits d)%nat, rest).
Proof.
  intros Hr. induction d; intros acc n;
    cbn [NilEmpty.string_of_uint String.append digits_value Decimal.nb_digits];
    try (cbn [take_digits];
         match goal with |- context [isdigit ?c] => change (isdigit c) with true end;
         cbv iota;
         match goal with |- context [digit_val ?c] =>
           let v := eval vm_compute in (digit_val c) in change (digit_val c) with v end;
         rewrite IHd; apply triple_eq; [f_equal; lia | lia]).
  destruct rest as [| c r]; cbn [take_digits].
  - rewrite Nat.add_0_r. reflexivity.
  - cbv [no_digit_ahead] in Hr. rewrite Hr, Nat.add_0_r. reflexivity.
Qed.

Lemma digits_value_pos (d : Decimal.uint) (a : positive) :
  digits_value d (Zpos a) = Zpos (Pos.of_uint_acc d a).
Proof.
  revert a. induction d; intros a; cbn [digits_value Pos.of_uint_acc];
    try reflexivity;
    match goal with
    | |- digits_value _ ?x = _ =>
        match goal with
        | |- _ = Zpos (Pos.of_uint_acc _ ?y) =>
            replace x with (Zpos y) by lia
        end
    end; apply IHd.
Qed.

Lemma digits_value_zero (d : Decimal.uint) :
  digits_value d 0 = Z.of_N (Pos.of_uint d).
Proof.
  induction d; cbn [digits_value Pos.of_uint]; try reflexivity;
    try (change (10 * 0) with 0; exact IHd);
    match goal with
    | |- digits_value _ ?x = Z.of_N (Npos (Pos.of_uint_acc _ ?y)) =>
        change x with (Zpos y)
    end; apply digits_value_pos.
Qed.

Lemma digits_value_lower (d : Decimal.uint) (acc : Z) :
  0 <= acc -> acc * 10 ^ Z.of_nat (Decimal.nb_digits d) <= digits_value d acc.
Proof.
  revert acc. induction d; intros acc Ha; cbn [digits_value Decimal.nb_digits];
    try (rewrite Z.pow_0_r; lia);
    rewrite Nat2Z.inj_succ, Z.pow_succ_r by lia;
    match goal with |- _ <= digits_value _ ?x =>
      specialize (IHd x ltac:(lia));
      assert (0 <= 10 ^ Z.of_nat (Decimal.nb_digits d)) by (apply Z.pow_nonneg; lia);
      nia
    end.
Qed.

Lemma string_of_uint_length (d : Decimal.uint) :
  String.length (NilEmpty.string_of_uint d) = Decimal.nb_digits d.
Proof. induction d; cbn; congruence. Qed.

Lemma fmt_d_pos (p : positive) :
  fmt_d (Zpos p) = NilEmpty.string_of_uint (Pos.to_uint p).
Proof.
  unfold fmt_d. cbn [Z.to_int NilZero.string_of_int]. unfold NilZero.string_of_uint.
  pose proof (DecimalPos.Unsigned.to_uint_nonnil p) as H.
  destruct (Pos.to_uint p); [contradiction | reflexivity ..].
Qed.

Lemma to_uint_value (p : positive) : digits_value (Pos.to_uint p) 0 = Zpos p.
Proof. rewrite digits_value_zero, DecimalPos.Unsigned.of_to. reflexivity. Qed.

(** A normalised run of digits has no leading zero. *)
Lemma normalised_lower (d : Decimal.uint) :
  Decimal.unorm d = d -> d <> Decimal.zero -> d <> Decimal.Nil ->
  10 ^ (Z.of_nat (Decimal.nb_digits d) - 1) <= digits_value d 0.
Proof.
  intros U NZ NN.
  destruct d as [| d | d | d | d | d | d | d | d | d | d];
    [contradiction | | ..].
  1: { exfalso. rewrite DecimalFacts.unorm_D0 in U.
       unfold Decimal.unorm in U.
       destruct (Decimal.nzhead d) as [| u | u | u | u | u | u | u | u | u | u] eqn:E;
         try discriminate.
       + apply NZ. injection U as <-. reflexivity.
       + exact (DecimalFacts.nzhead_nonzero d u E). }
  all: cbn [digits_value Decimal.nb_digits];
    rewrite Nat2Z.inj_succ; replace (Z.succ (Z.of_nat (Decimal.nb_digits d)) - 1)
      with (Z.of_nat (Decimal.nb_digits d)) by lia;
    match goal with |- _ <= digits_value _ ?x =>
      pose proof (digits_value_lower d x ltac:(lia));
      assert (0 <= 10 ^ Z.of_nat (Decimal.nb_digits d)) by (apply Z.pow_nonneg; lia);
      lia
    end.
Qed.

Lemma to_uint_lower (p : positive) :
  10 ^ (Z.of_nat (Decimal.nb_digits (Pos.to_uint p)) - 1) <= Zpos p.
Proof.
  pose proof (normalised_lower (Pos.to_uint p)) as L.
  rewrite to_uint_value in L. apply L.
  - rewrite <- (DecimalPos.Unsigned.to_of (Pos.to_uint p)).
    rewrite DecimalPos.Unsigned.of_to. reflexivity.
  - apply DecimalPos.Unsigned.to_uint_nonzero.
  - apply DecimalPos.Unsigned.to_uint_nonnil.
Qed.

Lemma fmt_d_length (z k : Z) :
  0 <= z < 10 ^ k -> 1 <= k -> Z.of_nat (String.length (fmt_d z)) <= k.
Proof.
  intros [Hz Hk] Hk1. destruct z as [| p | p]; [cbn; lia | | lia].
  rewrite fmt_d_pos, string_of_uint_length.
  pose proof (to_uint_lower p) as L.
  set (n := Z.of_nat (Decimal.nb_digits (Pos.to_uint p))) in *.
  destruct (Z_le_gt_dec n k) as [| G]; [assumption | exfalso].
  assert (10 ^ k <= 10 ^ (n - 1)) by (apply Z.pow_le_mono_r; lia).
  lia.
Qed.

Lemma fmt_d_head (z : Z) :
  0 <= z -> exists c r, fmt_d z = String c r /\ isdigit c = true.
Proof.
  intros Hz. destruct z as [| p | p]; [exists "0"%char, EmptyString; split; reflexivity | | lia].
  rewrite fmt_d_pos.
  pose proof (DecimalPos.Unsigned.to_uint_nonnil p) as NN.
  destruct (Pos.to_uint p); [contradiction | ..]; cbn [NilEmpty.string_of_uint];
    eexists; eexists; split; reflexivity.
Qed.

(** Reading back the digits [fmt_d] wrote gives the number written. *)
Lemma take_digits_fmt_d (z : Z) (rest : string) :
  0 <= z -> no_digit_ahead rest ->
  take_digits (fmt_d z ++ rest) 0 0 = (z, String.length (fmt_d z), rest).
Proof.
  intros Hz Hr. destruct z as [| p | p]; [| | lia].
  - cbn [fmt_d Z.to_int NilZero.string_of_int NilZero.string_of_uint].
    change (take_digits (NilEmpty.string_of_uint (Decimal.D0 Decimal.Nil) ++ rest) 0 0
            = (0, 1%nat, rest)).
    rewrite take_digits_string_of_uint by assumption. reflexivity.
  - rewrite fmt_d_pos, take_digits_string_of_uint by assumption.
    rewrite to_uint_value, string_of_uint_length. reflexivity.
Qed.

Lemma append_empty_r (s : string) : (s ++ "")%string = s.
Proof. induction s; cbn; congruence. Qed.

Lemma append_length (a b : string) :
  String.length (a ++ b) = (String.length a + String.length b)%nat.
Proof. induction a; cbn; congruence. Qed.

Lemma append_assoc (a b c : string) : ((a ++ b) ++ c = a ++ (b ++ c))%string.
Proof. induction a; cbn; congruence. Qed.

Lemma substring_all (s : string) (n : nat) :
  (String.length s <= n)%nat -> String.substring 0 n s = s.
Proof.
  revert n. induction s as [| c s IH]; intros n H.
  - destruct n; reflexivity.
  - destruct n as [| n]; cbn in *; [lia |]. rewrite IH by lia. reflexivity.
Qed.

(** ** Scanning what was printed *)

Lemma scan_lit (c : ascii) (f : list directive) (r : string) :
  scan (DLit c :: f) (String c r) = scan f r.
Proof. cbn [scan]. rewrite Ascii.eqb_refl. reflexivity. Qed.

Lemma digit_not_space (c : ascii) : isdigit c = true -> isspace c = false.
Proof.
  unfold isdigit, isspace. intros D.
  apply andb_prop in D. destruct D as [D1 D2]. apply Nat.leb_le in D1.
  destruct (Nat.eqb_spec (nat_of_ascii c) 32) as [e | ne]; [lia |].
  destruct (Nat.leb_spec (nat_of_ascii c) 13); [lia |].
  rewrite Bool.andb_false_r. reflexivity.
Qed.

Lemma digit_not_sign (c : ascii) (r : string) :
  isdigit c = true -> scan_sign (String c r) = (false, String c r).
Proof.
  intros D. unfold scan_sign.
  destruct c as [[|] [|] [|] [|] [|] [|] [|] [|]]; try reflexivity; discriminate.
Qed.

Lemma scan_decimal_fmt_d (z : Z) (rest : string) :
  0 <= z -> no_digit_ahead rest ->
  skip_space (fmt_d z ++ rest) = (fmt_d z ++ rest)%string
  /\ (fmt_d z ++ rest)%string <> EmptyString
  /\ scan_decimal (fmt_d z ++ rest) = Some (false, z, rest).
Proof.
  intros Hz Hr.
  pose proof (take_digits_fmt_d z rest Hz Hr) as T.
  destruct (fmt_d_head z ltac:(lia)) as (c & r & E & D).
  unfold scan_decimal. rewrite E in *. cbn [String.append] in *.
  split; [cbn [skip_space]; rewrite (digit_not_space c D); reflexivity |].
  split; [discriminate |].
  rewrite (digit_not_sign c _ D), T. reflexivity.
Qed.

Lemma scan_uint (n : Z) (f : list directive) (rest : string) :
  0 <= n <= UINT32_MAX -> no_digit_ahead rest ->
  scan (DUInt :: f) (fmt_d n ++ rest) =
  mkScan (SUInt n :: assigned (scan f rest)) (input_failure (scan f rest)).
Proof.
  intros Hn Hr.
  destruct (scan_decimal_fmt_d n rest ltac:(lia) Hr) as (S1 & S2 & S3).
  cbn [scan]. rewrite S1.
  destruct (fmt_d n ++ rest)%string as [| a s] eqn:E; [congruence |].
  cbn [scan_conv]. rewrite S3. unfold strtoul_value.
  destruct (Z.gtb_spec n UINT32_MAX); [lia |]. reflexivity.
Qed.

Lemma scan_int (n : Z) (f : list directive) (rest : string) :
  0 <= n <= INT32_MAX -> no_digit_ahead rest ->
  scan (DInt :: f) (fmt_d n ++ rest) =
  mkScan (SInt n :: assigned (scan f rest)) (input_failure (scan f rest)).
Proof.
  intros Hn Hr.
  destruct (scan_decimal_fmt_d n rest ltac:(lia) Hr) as (S1 & S2 & S3).
  cbn [scan]. rewrite S1.
  destruct (fmt_d n ++ rest)%string as [| a s] eqn:E; [congruence |].
  cbn [scan_conv]. rewrite S3. unfold strtol_value, INT32_MIN, INT32_MAX in *.
  rewrite Z.min_r, Z.max_r by lia. reflexivity.
Qed.

(** ** Ping message *)

Lemma formatTxMessage_spelling (n : Z) :
  0 <= n <= UINT32_MAX ->
  formatTxMessage n = ("PING seq=" ++ fmt_d n)%string
  /\ (String.length (formatTxMessage n) <= 19)%nat.
Proof.
  intros Hn.
  assert (L : Z.of_nat (String.length (fmt_d n)) <= 10)
    by (apply fmt_d_length; unfold UINT32_MAX in *; lia).
  assert (E : printf None "PING seq=%lu" [AInt n] = ("PING seq=" ++ fmt_d n)%string).
  { cbn -[fmt_d]. rewrite append_empty_r. reflexivity. }
  unfold formatTxMessage, snprintf. rewrite E.
  rewrite substring_all by (rewrite append_length; cbn [String.length]; lia).
  split; [reflexivity |]. rewrite append_length. cbn [String.length]. lia.
Qed.

(** X1.  For every 32-bit sequence number, [formatTxMessage] gives
    [PING seq=] followed by the decimal digits of the number, the 48-byte
    buffer never cuts it short, and scanning the message with
    [PING seq=%u] gives the number back; so different sequence numbers give
    different messages. *)
Theorem formatTxMessage_roundtrip :
  forall n : Z, 0 <= n <= UINT32_MAX ->
    formatTxMessage n = ("PING seq=" ++ fmt_d n)%string
    /\ (String.length (formatTxMessage n) <= 19)%nat
    /\ assigned (sscanf (formatTxMessage n) "PING seq=%u") = [SUInt n]
    /\ (forall m : Z, 0 <= m <= UINT32_MAX ->
          formatTxMessage m = formatTxMessage n -> m = n).
Proof.
  assert (R : forall n, 0 <= n <= UINT32_MAX ->
                assigned (sscanf (formatTxMessage n) "PING seq=%u") = [SUInt n]).
  { intros n Hn. destruct (formatTxMessage_spelling n Hn) as [-> _].
    unfold sscanf.
    change (scan_format None "PING seq=%u")
      with [DLit "P"%char; DLit "I"%char; DLit "N"%char; DLit "G"%char; DSpace;
            DLit "s"%char; DLit "e"%char; DLit "q"%char; DLit "="%char; DUInt].
    cbn [String.append]. rewrite !scan_lit.
    change (scan (DSpace :: ?f) (String " "%char ?r)) with (scan f r).
    rewrite !scan_lit.
    rewrite <- (append_empty_r (fmt_d n)).
    rewrite scan_uint by (trivial; exact I). reflexivity. }
  intros n Hn. destruct (formatTxMessage_spelling n Hn) as [E L].
  split; [exact E |]. split; [exact L |]. split; [apply R; exact Hn |].
  intros m Hm Heq. pose proof (R m Hm) as Rm. rewrite Heq, (R n Hn) in Rm.
  congruence.
Qed.

Lemma formatTxMessage_roundtrip_witness :
  assigned (sscanf (formatTxMessage 42) "PING seq=%u") = [SUInt 42].
Proof.
  refine (proj1 (proj2 (proj2 (formatTxMessage_roundtrip 42 _)))).
  unfold UINT32_MAX. lia.
Defined.

(** ** Configuration message *)

Lemma c_str_app (a b : string) :
  c_str a = a -> c_str (a ++ b) = (a ++ c_str b)%string.
Proof.
  induction a as [| c a IH]; intros H; [reflexivity |].
  cbn [c_str String.append] in *.
  destruct (Ascii.eqb c NUL); [discriminate |].
  injection H as H. rewrite IH by exact H. reflexivity.
Qed.

Lemma c_str_string_of_uint (d : Decimal.uint) :
  c_str (NilEmpty.string_of_uint d) = NilEmpty.string_of_uint d.
Proof.
  induction d; cbn [NilEmpty.string_of_uint c_str]; try reflexivity;
    match goal with |- context [Ascii.eqb ?c NUL] =>
      change (Ascii.eqb c NUL) with false end; cbv iota; congruence.
Qed.

Lemma c_str_fmt_d (z : Z) : 0 <= z -> c_str (fmt_d z) = fmt_d z.
Proof.
  intros Hz. destruct z as [| p | p]; [reflexivity | | lia].
  rewrite fmt_d_pos. apply c_str_string_of_uint.
Qed.
















(** ** Index trackers *)

Lemma find_index_some {A} (eqb : A -> A -> bool) (table : list A) (v : A) :
  forall i j, find_index eqb table v i = Some j ->
    exists k x, j = i + Z.of_nat k
                /\ nth_error table k = Some x /\ eqb x v = true
                /\ forall k' y, (k' < k)%nat -> nth_error table k' = Some y -> eqb y v = false.
Proof.
  induction table as [| a t IH]; intros i j H; [discriminate |].
  cbn [find_index] in H. destruct (eqb a v) eqn:E.
  - injection H as <-. exists 0%nat, a. repeat split; [lia | exact E |].
    intros k' y Hk. lia.
  - destruct (IH _ _ H) as (k & x & -> & N & T & F).
    exists (S k), x. repeat split; [lia | exact N | exact T |].
    intros [| k'] y Hk Hy; cbn in Hy.
    + injection Hy as <-. exact E.
    + apply (F k' y); [lia | exact Hy].
Qed.

Lemma find_index_none {A} (eqb : A -> A -> bool) (table : list A) (v : A) :
  forall i, find_index eqb table v i = None ->
    forall x, In x table -> eqb x v = false.
Proof.
  induction table as [| a t IH]; intros i H x Hx; [destruct Hx |].
  cbn [find_index] in H. destruct (eqb a v) eqn:E; [discriminate |].
  destruct Hx as [<- | Hx]; [exact E | exact (IH _ H x Hx)].
Qed.

Lemma index_or_spec {A} (eqb : A -> A -> bool) (table : list A) (v : A) (old : Z) :
  (exists k x, index_or eqb table v old = Z.of_nat k
               /\ nth_error table k = Some x /\ eqb x v = true
               /\ forall k' y, (k' < k)%nat -> nth_error table k' = Some y -> eqb y v = false)
  \/ (index_or eqb table v old = old /\ forall x, In x table -> eqb x v = false).
Proof.
  unfold index_or. destruct (find_index eqb table v 0) as [j |] eqn:E.
  - left. destruct (find_index_some _ _ _ _ _ E) as (k & x & -> & H).
    exists k, x. split; [lia | exact H].
  - right. split; [reflexivity | exact (find_index_none _ _ _ _ E)].
Qed.

(** X3.  [computeIndicesFromCurrent] touches nothing but the three index
    trackers and makes no external call.  Each tracker becomes the first
    table position that holds the current value; when the current value is
    not in the table (a spreading factor of 6 received in a CFG frame, say)
    the tracker keeps its old value. *)
Theorem computeIndicesFromCurrent_tracks_tables :
  forall w : World,
    exists ix : Indices,
      computeIndicesFromCurrent w
      = Ret tt (mkWorld (set_indices ix (node w)) (clock w) (tick w) (trace w))
      /\ ((exists k, nth_error sfValues k = Some (currentSF (node w))
                     /\ currentSfIndex ix = Z.of_nat k)
          \/ (~ In (currentSF (node w)) sfValues
              /\ currentSfIndex ix = currentSfIndex (indices (node w))))
      /\ ((exists k x, nth_error bwValues k = Some x /\ (x == currentBW (node w))%Q
                       /\ currentBwIndex ix = Z.of_nat k)
          \/ ((forall x, In x bwValues -> ~ (x == currentBW (node w))%Q)
              /\ currentBwIndex ix = currentBwIndex (indices (node w))))
      /\ ((exists k, nth_error txPowerValues k = Some (currentTxPower (node w))
                     /\ currentTxIndex ix = Z.of_nat k)
          \/ (~ In (currentTxPower (node w)) txPowerValues
              /\ currentTxIndex ix = currentTxIndex (indices (node w)))).
Proof.
  intros w. eexists. split; [reflexivity |].
  cbn [currentSfIndex currentBwIndex currentTxIndex].
  split; [| split].
  - destruct (index_or_spec Z.eqb sfValues (currentSF (node w))
                            (currentSfIndex (indices (node w))))
      as [(k & x & E & N & T & _) | (E & F)].
    + left. exists k. apply Z.eqb_eq in T. subst x. split; assumption.
    + right. split; [| exact E]. intros Hin.
      specialize (F _ Hin). rewrite Z.eqb_refl in F. discriminate.
  - destruct (index_or_spec Qeq_bool bwValues (currentBW (node w))
                            (currentBwIndex (indices (node w))))
      as [(k & x & E & N & T & _) | (E & F)].
    + left. exists k, x. apply Qeq_bool_iff in T. repeat split; assumption.
    + right. split; [| exact E]. intros x Hin Hx.
      specialize (F _ Hin). apply Qeq_bool_iff in Hx. congruence.
  - destruct (index_or_spec Z.eqb txPowerValues (currentTxPower (node w))
                            (currentTxIndex (indices (node w))))
      as [(k & x & E & N & T & _) | (E & F)].
    + left. exists k. apply Z.eqb_eq in T. subst x. split; assumption.
    + right. split; [| exact E]. intros Hin.
      specialize (F _ Hin). rewrite Z.eqb_refl in F. discriminate.
Qed.

(** ** Calls a computation makes *)

Lemma emits_at_bind {A B} (P : Event -> Prop) (m : M A) (k : A -> M B) (w : World) :
  emits_at P m w ->
  (forall a w', m w = Ret a w' -> emits_at P (k a) w') ->
  emits_at P (bind m k) w.
Proof.
  intros (new & T & F) Hk. unfold emits_at, bind, issued in *.
  destruct (m w) as [a w' | r w'] eqn:E; cbn [world_of] in *.
  - destruct (Hk a w' eq_refl) as (new' & T' & F').
    exists (new' ++ new). split.
    + rewrite T', T, app_assoc. reflexivity.
    + apply Forall_app. split; assumption.
  - exists new. split; assumption.
Qed.

Lemma emits_at_nothing {A} (P : Event -> Prop) (m : M A) (w : World) :
  trace (world_of (m w)) = trace w -> emits_at P m w.
Proof. intros H. exists []. split; [exact H | constructor]. Qed.

Lemma emits_at_weaken {A} (P Q : Event -> Prop) (m : M A) (w : World) :
  (forall e, P e -> Q e) -> emits_at P m w -> emits_at Q m w.
Proof.
  intros H (new & T & F). exists new. split; [exact T |].
  eapply Forall_impl; [| exact F]. intros te. apply H.
Qed.

Section Preserves.

Variable I : Node -> Prop.
Variable P : Event -> Prop.

Lemma preserves_ret {A} (a : A) : preserves I P (ret a).
Proof. intros w H. split; [exact H | apply emits_at_nothing; reflexivity]. Qed.

Lemma preserves_stop {A} (r : StopReason) : preserves I P (@stop A r).
Proof. intros w H. split; [exact H | apply emits_at_nothing; reflexivity]. Qed.

Lemma preserves_millis : preserves I P millis.
Proof. intros w H. split; [exact H | apply emits_at_nothing; reflexivity]. Qed.

Lemma preserves_delay ms : preserves I P (delay ms).
Proof. intros w H. split; [exact H | apply emits_at_nothing; reflexivity]. Qed.

Lemma preserves_modify (f : Node -> Node) :
  (forall n, I n -> I (f n)) -> preserves I P (modify f).
Proof. intros Hf w H. split; [apply Hf, H | apply emits_at_nothing; reflexivity]. Qed.

Lemma preserves_call (e : Event) : P e -> preserves I P (call e).
Proof.
  intros He w H. split; [exact H |].
  exists [(clock w, e)]. split; [reflexivity | repeat constructor; exact He].
Qed.

Lemma preserves_blocking env (e : Event) : P e -> preserves I P (blocking env e).
Proof.
  intros He w H. split; [exact H |].
  exists [(clock w, e)]. split; [reflexivity | repeat constructor; exact He].
Qed.

Lemma preserves_bind {A B} (m : M A) (k : A -> M B) :
  preserves I P m -> (forall a, preserves I P (k a)) -> preserves I P (bind m k).
Proof.
  intros Hm Hk w H. destruct (Hm w H) as [H1 E1]. split.
  - unfold bind. destruct (m w) as [a w' | r w']; cbn [world_of] in *;
      [apply (Hk a w' H1) | exact H1].
  - apply emits_at_bind; [exact E1 |]. intros a w' E.
    rewrite E in H1. apply (Hk a w' H1).
Qed.

(** Reading the node gives one that satisfies [I]. *)
Lemma preserves_get_bind {B} (k : Node -> M B) :
  (forall n, I n -> preserves I P (k n)) -> preserves I P (bind get k).
Proof. intros Hk w H. exact (Hk (node w) H w H). Qed.

Lemma preserves_when (b : bool) (m : M unit) :
  preserves I P m -> preserves I P (when b m).
Proof. intros H. destruct b; [exact H | apply preserves_ret]. Qed.

End Preserves.

(** One step of such an argument: split a sequence, close a primitive, or
    split on the condition under scrutiny. *)
Ltac preserves_step :=
  lazymatch goal with
  | |- preserves _ _ (bind get _) => apply preserves_get_bind; intros ? ?
  | |- preserves _ _ (bind _ _) => apply preserves_bind; [| intros ?]
  | |- preserves _ _ (ret _) => apply preserves_ret
  | |- preserves _ _ (stop _) => apply preserves_stop
  | |- preserves _ _ millis => apply preserves_millis
  | |- preserves _ _ (delay _) => apply preserves_delay
  | |- preserves _ _ (call _) => apply preserves_call
  | |- preserves _ _ (blocking _ _) => apply preserves_blocking
  | |- preserves _ _ (modify _) => apply preserves_modify; intros ? ?
  | |- preserves _ _ (when ?b _) => destruct b eqn:?; cbv beta iota delta [when]
  | |- preserves _ _ (if ?b then _ else _) => destruct b eqn:?
  | |- preserves _ _ (let (_, _) := ?x in _) => destruct x
  | |- preserves _ _ (match ?x with _ => _ end) => destruct x
  | |- preserves _ _ (let _ := _ in _) => cbv zeta
  | |- preserves _ _ _ => assumption
  end.

Ltac preserves_tac := repeat preserves_step.

Lemma preserves_weaken {A} (I : Node -> Prop) (P Q : Event -> Prop) (m : M A) :
  (forall e, P e -> Q e) -> preserves I P m -> preserves I Q m.
Proof.
  intros H Hm w Hw. destruct (Hm w Hw) as [H1 H2].
  split; [exact H1 | exact (emits_at_weaken P Q m w H H2)].
Qed.

Section RoleFrame.

(** [I] looks at the role flag and the signal statistics only; [P] holds of
    every housekeeping call. *)
Variable I : Node -> Prop.
Hypothesis Hrole :
  forall n n', isSender n' = isSender n -> signal n' = signal n -> I n -> I n'.
Variable P : Event -> Prop.
Hypothesis HP : forall e, isHousekeeping e = true -> P e.

Ltac role_tac :=
  preserves_tac;
  try solve [ assumption
            | apply HP; reflexivity
            | eapply Hrole; [| | eassumption]; reflexivity ].

Lemma preserves_radio env (e : Event) : P e -> preserves I P (radio env e).
Proof. intros He. unfold radio. role_tac. Qed.

Lemma preserves_radio_receive env : P RadioReceive -> preserves I P (radio_receive env).
Proof. intros He. unfold radio_receive. role_tac. Qed.

Lemma preserves_computeIndicesFromCurrent : preserves I P computeIndicesFromCurrent.
Proof. unfold computeIndicesFromCurrent. role_tac. Qed.

Lemma preserves_savePersistedSettings : preserves I P savePersistedSettings.
Proof. unfold savePersistedSettings. role_tac. Qed.

Lemma preserves_updateRadioSettings env : preserves I P (updateRadioSettings env).
Proof.
  pose proof (preserves_radio env) as R.
  unfold updateRadioSettings. role_tac; apply R; apply HP; reflexivity.
Qed.

Lemma preserves_setNetworkMode env mode : preserves I P (setNetworkMode env mode).
Proof. unfold setNetworkMode, connectToWiFi. role_tac. Qed.

Lemma preserves_onMediumPress flag env : preserves I P (onMediumPress flag env).
Proof.
  pose proof preserves_savePersistedSettings as S.
  pose proof (preserves_updateRadioSettings env) as U.
  pose proof (preserves_setNetworkMode env) as N.
  unfold onMediumPress, startConfigBroadcast, connectToWiFi. role_tac; apply N.
Qed.

Lemma preserves_onLongPress env : preserves I P (onLongPress env).
Proof.
  pose proof preserves_savePersistedSettings as S.
  pose proof (preserves_updateRadioSettings env) as U.
  unfold onLongPress, startConfigBroadcast. role_tac.
Qed.

Lemma preserves_checkLoraOtaTimeout : preserves I P checkLoraOtaTimeout.
Proof. unfold checkLoraOtaTimeout. role_tac. Qed.

(** The OTA handler calls nothing but the firmware updater. *)
Lemma preserves_handleLoraOtaPacket env packet :
  (forall e, isFlashEvent e = true -> P e) ->
  preserves I P (handleLoraOtaPacket env packet).
Proof.
  intros HF.
  unfold handleLoraOtaPacket, handleOtaStart, handleOtaData, handleOtaEnd.
  role_tac; apply HF; reflexivity.
Qed.

End RoleFrame.

(** ** Button *)

(** X4.  [updateButton] acts when the button is released, and only after a
    press of at least 100 ms: while the pin reads LOW, when no press is being
    tracked, or when the press lasted less than 100 ms, the only call made is
    the pin read and nothing but the button bookkeeping changes. *)
Theorem updateButton_waits_for_release :
  forall (ENABLE_WIFI_OTA : bool) (env : Env) (w : World),
    pinLevel env (tick w) = LOW
    \/ lastButtonState (button (node w)) = HIGH
    \/ buttonPressed (button (node w)) = false
    \/ u32 (u32 (clock w) - buttonPressMs (button (node w))) < 100 ->
    exists b : ButtonState,
      updateButton ENABLE_WIFI_OTA env w
      = Ret tt (mkWorld (set_button b (node w)) (clock w) (S (tick w))
                        ((clock w, DigitalRead) :: trace w)).
Proof.
  intros flag env w H. unfold updateButton, digitalRead, HIGH, LOW in *. run_m.
  destruct (pinLevel env (tick w)) eqn:Pin;
    destruct (lastButtonState (button (node w))) eqn:L;
    destruct (buttonPressed (button (node w))) eqn:B;
    cbn [Bool.eqb andb negb node button set_button lastButtonState buttonPressed
         buttonPressMs lastButtonMs];
    rewrite ?L, ?B; cbn [Bool.eqb andb negb];
    try (eexists; reflexivity).
  destruct H as [H | [H | [H | H]]]; try discriminate.
  destruct (Z.ltb_spec (u32 (u32 (clock w) - buttonPressMs (button (node w)))) 100);
    [| lia].
  cbn [node button set_button lastButtonState buttonPressed buttonPressMs lastButtonMs].
  eexists; reflexivity.
Qed.

Lemma updateButton_waits_for_release_witness :
  exists b : ButtonState,
    updateButton false quietEnv bootWorld
    = Ret tt (mkWorld (set_button b initialNode) 0 1 [(0, DigitalRead)]).
Proof.
  apply (updateButton_waits_for_release false quietEnv bootWorld).
  right. left. reflexivity.
Defined.

(** X5.  On a sender, what [updateButton] does at the release of a press is
    what [classifyPress] of [app_logic.cpp] says for the measured duration,
    and the table positions it moves to are those of [cycleIndex]: a short
    press makes the node a receiver with sequence number 0 and stores the
    role; a medium (long) press starts a broadcast of the current
    configuration with the next spreading factor (bandwidth) and eight
    transmissions to go, leaving the configuration in use untouched. *)
Theorem sender_button_agrees_with_app_logic :
  forall (ENABLE_WIFI_OTA : bool) (env : Env) (w : World),
    let n := node w in
    let d := u32 (u32 (clock w) - buttonPressMs (button n)) in
    isSender n = true ->
    lastButtonState (button n) = LOW ->
    buttonPressed (button n) = true ->
    pinLevel env (tick w) = HIGH ->
    0 <= currentSfIndex (indices n) < 6 ->
    0 <= currentBwIndex (indices n) < 4 ->
    exists w',
      updateButton ENABLE_WIFI_OTA env w = Ret tt w'
      /\ buttonPressed (button (node w')) = false
      /\ current (node w') = current n
      /\ indices (node w') = indices n
      /\ match classifyPress d with
         | Ignore =>
             node w' = set_button (button (node w')) n
             /\ trace w' = (clock w, DigitalRead) :: trace w
         | ToggleMode =>
             isSender (node w') = false /\ seq (node w') = 0
             /\ cfg (node w') = cfg n
             /\ trace w' = (clock w, PrefsPut "sender" (PBool false))
                             :: (clock w, DigitalRead) :: trace w
         | CycleSF =>
             isSender (node w') = true /\ seq (node w') = seq n
             /\ cfg (node w')
                = mkCfg true
                        (with_SF (table_at sfValues
                                           (cycleIndex (currentSfIndex (indices n)) 6) 0)
                                 (current n))
                        0 8
             /\ trace w' = (clock w, DigitalRead) :: trace w
         | CycleBW =>
             isSender (node w') = true /\ seq (node w') = seq n
             /\ cfg (node w')
                = mkCfg true
                        (with_BW (table_at bwValues
                                           (cycleIndex (currentBwIndex (indices n)) 4) 0%Q)
                                 (current n))
                        0 8
             /\ trace w' = (clock w, DigitalRead) :: trace w
         end.
Proof.
  intros flag env w n d S L B Pin Hsf Hbw. subst n.
  unfold updateButton, digitalRead, HIGH, LOW in *. run_m.
  rewrite Pin, L. cbn [Bool.eqb andb]. cbn [node button set_button lastButtonState buttonPressed
       buttonPressMs lastButtonMs].
  rewrite L, B. cbn [Bool.eqb andb].
  fold d. unfold classifyPress.
  destruct (d <? 100).
  { eexists. split; [reflexivity |]. cbn. repeat split. }
  destruct (d <? 1000).
  { unfold onShortPress, savePersistedRole. run_m.
    eexists. split; [reflexivity |]. cbn. rewrite S. cbn. repeat split. }
  rewrite (cycleIndex_mod 6 _ ltac:(unfold INT32_MAX; lia) Hsf).
  rewrite (cycleIndex_mod 4 _ ltac:(unfold INT32_MAX; lia) Hbw).
  destruct (d <? 3000).
  - unfold onMediumPress, startConfigBroadcast. run_m.
    cbn [node isSender set_button]. rewrite S. run_m.
    cbn [node indices current set_button].
    rewrite nextIndex_mod by (cbn; unfold INT32_MAX; lia).
    change (Z.of_nat (List.length sfValues)) with 6.
    pose proof (Z.mod_pos_bound (currentSfIndex (indices (node w)) + 1) 6 ltac:(lia)).
    rewrite i32_small by (unfold INT32_MIN, INT32_MAX; lia).
    eexists. split; [reflexivity |]. cbn. rewrite S. repeat split.
  - unfold onLongPress, startConfigBroadcast. run_m.
    cbn [node isSender set_button]. rewrite S. run_m.
    cbn [node indices current set_button].
    rewrite nextIndex_mod by (cbn; unfold INT32_MAX; lia).
    change (Z.of_nat (List.length bwValues)) with 4.
    pose proof (Z.mod_pos_bound (currentBwIndex (indices (node w)) + 1) 4 ltac:(lia)).
    rewrite i32_small by (unfold INT32_MIN, INT32_MAX; lia).
    eexists. split; [reflexivity |]. cbn. rewrite S. repeat split.
Qed.

Lemma sender_button_agrees_with_app_logic_witness :
  exists w',
    updateButton false quietEnv (releaseWorld 9000 10500) = Ret tt w'
    /\ pending (cfg (node w')) = mkParams 915 125 10 5 17
    /\ current (node w') = mkParams 915 125 9 5 17.
Proof.
  pose proof (sender_button_agrees_with_app_logic false quietEnv (releaseWorld 9000 10500))
    as H.
  cbv zeta in H.
  destruct H as (w' & E & _ & C & _ & M);
    [reflexivity | reflexivity | reflexivity | reflexivity | cbn; lia | cbn; lia |].
  change (classifyPress _) with CycleSF in M.
  destruct M as (_ & _ & G & _).
  exists w'. split; [exact E |]. split; [rewrite G; reflexivity | rewrite C; reflexivity].
Defined.

(** Button handling only reads the pin, reprograms the radio, writes
    preferences and drives WiFi. *)
Lemma preserves_updateButton flag env :
  preserves (fun _ => True) (fun e => isHousekeeping e = true) (updateButton flag env).
Proof.
  assert (Hrole : forall n n' : Node,
             isSender n' = isSender n -> signal n' = signal n -> True -> True) by trivial.
  assert (HP : forall e, isHousekeeping e = true -> isHousekeeping e = true) by trivial.
  pose proof (preserves_onMediumPress _ Hrole _ HP flag env) as M.
  pose proof (preserves_onLongPress _ Hrole _ HP env) as L.
  unfold updateButton, digitalRead, onShortPress, savePersistedRole.
  preserves_tac; try exact Logic.I; reflexivity.
Qed.

(** ** Frames a node puts on the air *)

Section OnAir.

(** [I] looks at the role flag and the signal statistics only; [P] holds of
    every housekeeping call and of every transmission of a frame other than
    [REQUEST_UPDATE]. *)
Variable I : Node -> Prop.
Hypothesis Hrole :
  forall n n', isSender n' = isSender n -> signal n' = signal n -> I n -> I n'.
Variable P : Event -> Prop.
Hypothesis HP : forall e, isHousekeeping e = true -> P e.
Hypothesis HT : forall msg, String.eqb msg "REQUEST_UPDATE" = false -> P (RadioTransmit msg).

Ltac air_tac :=
  preserves_tac;
  try solve [ assumption
            | apply HP; reflexivity
            | apply HT; first [assumption | reflexivity]
            | eapply Hrole; [| | eassumption]; reflexivity ].

Lemma air_transmit env (msg : string) :
  String.eqb msg "REQUEST_UPDATE" = false ->
  preserves I P (radio env (RadioTransmit msg)).
Proof. intros H. unfold radio. air_tac. Qed.

Lemma air_sendChunks env fuel :
  forall firmware firmwareSize sentBytes chunkNum,
    preserves I P (sendChunks env fuel firmware firmwareSize sentBytes chunkNum).
Proof.
  induction fuel as [| fuel IH]; intros; cbn [sendChunks]; air_tac.
  - apply air_transmit. reflexivity.
  - apply IH.
Qed.

Lemma air_sendLoraOtaUpdate env firmware firmwareSize :
  preserves I P (sendLoraOtaUpdate env firmware firmwareSize).
Proof.
  pose proof (air_sendChunks env) as C.
  unfold sendLoraOtaUpdate. air_tac;
    first [apply C | apply air_transmit; reflexivity].
Qed.

Lemma air_loopSenderBroadcast env now : preserves I P (loopSenderBroadcast env now).
Proof.
  pose proof (preserves_computeIndicesFromCurrent I Hrole P) as C.
  pose proof (preserves_savePersistedSettings I P HP) as S.
  pose proof (preserves_updateRadioSettings I P HP env) as U.
  unfold loopSenderBroadcast. air_tac.
  all: apply air_transmit; reflexivity.
Qed.

Lemma air_loopSenderPing env now : preserves I P (loopSenderPing env now).
Proof.
  unfold loopSenderPing. air_tac.
  all: apply air_transmit; reflexivity.
Qed.

End OnAir.

Lemma quiet_housekeeping (e : Event) :
  isHousekeeping e = true -> isTransmitOf "REQUEST_UPDATE" e = false.
Proof. destruct e; cbn; congruence. Qed.

Lemma quiet_flash (e : Event) :
  isFlashEvent e = true -> isTransmitOf "REQUEST_UPDATE" e = false.
Proof. destruct e; cbn; congruence. Qed.

Lemma quiet_transmit (msg : string) :
  String.eqb msg "REQUEST_UPDATE" = false ->
  isTransmitOf "REQUEST_UPDATE" (RadioTransmit msg) = false.
Proof. intros H. exact H. Qed.

Lemma receiver_role_only :
  forall n n' : Node,
    isSender n' = isSender n -> signal n' = signal n ->
    isSender n = false -> isSender n' = false.
Proof. intros n n' E _ H. congruence. Qed.

Lemma trivial_role_only :
  forall n n' : Node, isSender n' = isSender n -> signal n' = signal n -> True -> True.
Proof. trivial. Qed.

Lemma quiet_handleReceivedPacket flag env now rx rssi snr :
  preserves (fun n => isSender n = false)
            (fun e => isTransmitOf "REQUEST_UPDATE" e = false)
            (handleReceivedPacket flag env now rx rssi snr).
Proof.
  pose proof receiver_role_only as Hrole.
  assert (C : preserves (fun n => isSender n = false)
                        (fun e => isTransmitOf "REQUEST_UPDATE" e = false)
                        computeIndicesFromCurrent)
    by (apply preserves_computeIndicesFromCurrent;
        first [exact Hrole | exact quiet_housekeeping]).
  assert (S : preserves (fun n => isSender n = false)
                        (fun e => isTransmitOf "REQUEST_UPDATE" e = false)
                        savePersistedSettings)
    by (apply preserves_savePersistedSettings;
        first [exact Hrole | exact quiet_housekeeping]).
  assert (U : preserves (fun n => isSender n = false)
                        (fun e => isTransmitOf "REQUEST_UPDATE" e = false)
                        (updateRadioSettings env))
    by (apply preserves_updateRadioSettings;
        first [exact Hrole | exact quiet_housekeeping]).
  assert (O : preserves (fun n => isSender n = false)
                        (fun e => isTransmitOf "REQUEST_UPDATE" e = false)
                        (handleLoraOtaPacket env rx))
    by (apply preserves_handleLoraOtaPacket;
        first [exact Hrole | exact quiet_housekeeping | exact quiet_flash]).
  unfold handleReceivedPacket. preserves_tac.
  all: cbv beta in *; try congruence; try assumption.
  all: first [ apply air_sendLoraOtaUpdate;
               first [exact Hrole | exact quiet_housekeeping | exact quiet_transmit]
             | apply air_transmit;
               first [exact Hrole | exact quiet_housekeeping | exact quiet_transmit
                     | reflexivity] ].
Qed.

Lemma quiet_loopReceiver flag env now :
  preserves (fun n => isSender n = false)
            (fun e => isTransmitOf "REQUEST_UPDATE" e = false)
            (loopReceiver flag env now).
Proof.
  pose proof receiver_role_only as Hrole.
  pose proof (quiet_handleReceivedPacket flag env) as H.
  unfold loopReceiver. preserves_tac.
  all: cbv beta in *; try congruence; try assumption.
  all: first [ apply H
             | apply preserves_radio_receive;
               first [exact Hrole | exact quiet_housekeeping | reflexivity] ].
Qed.

(** X6.  No turn of [loop] puts [REQUEST_UPDATE] on the air, whatever the
    role, the button and the frames received: the one place that transmits
    it lies in the receiver half of [loop] behind a test for the sender
    role.  The same holds of any number of turns. *)
Theorem loop_never_requests_update :
  forall (ENABLE_WIFI_OTA : bool) (env : Env) (k : nat) (w : World),
    emits_at (fun e => isTransmitOf "REQUEST_UPDATE" e = false)
             (loops ENABLE_WIFI_OTA env k) w.
Proof.
  intros flag env.
  assert (L : forall w, emits_at (fun e => isTransmitOf "REQUEST_UPDATE" e = false)
                                 (loop flag env) w).
  { intros w. unfold loop.
    apply emits_at_bind; [apply emits_at_nothing; reflexivity |].
    intros now w0 E0.
    apply emits_at_bind.
    { eapply emits_at_weaken; [exact quiet_housekeeping |].
      apply (proj2 (preserves_updateButton flag env w0 Logic.I)). }
    intros [] w1 E1.
    apply emits_at_bind; [apply emits_at_nothing; reflexivity |].
    intros n w1' E. unfold get in E. injection E as <- <-.
    apply emits_at_bind.
    { destruct (isSender (node w1)) eqn:R.
      - destruct (pendingConfigBroadcast (cfg (node w1))).
        + assert (B : preserves (fun _ => True)
                                (fun e => isTransmitOf "REQUEST_UPDATE" e = false)
                                (loopSenderBroadcast env now))
            by (apply air_loopSenderBroadcast;
                first [exact trivial_role_only | exact quiet_housekeeping
                      | exact quiet_transmit]).
          apply (B w1 Logic.I).
        + assert (B : preserves (fun _ => True)
                                (fun e => isTransmitOf "REQUEST_UPDATE" e = false)
                                (loopSenderPing env now))
            by (apply air_loopSenderPing;
                first [exact trivial_role_only | exact quiet_housekeeping
                      | exact quiet_transmit]).
          apply (B w1 Logic.I).
      - apply (quiet_loopReceiver flag env now w1 R). }
    intros [] w2 E2.
    apply emits_at_bind.
    { assert (B : preserves (fun _ => True)
                            (fun e => isTransmitOf "REQUEST_UPDATE" e = false)
                            checkLoraOtaTimeout)
        by (apply preserves_checkLoraOtaTimeout;
            first [exact trivial_role_only | exact quiet_housekeeping]).
      apply (B w2 Logic.I). }
    intros [] w3 E3. apply emits_at_nothing. reflexivity. }
  induction k as [| k IH]; intros w; cbn [loops].
  - apply emits_at_nothing. reflexivity.
  - apply emits_at_bind; [apply L |]. intros [] w' _. apply IH.
Qed.

Lemma offline_housekeeping (e : Event) :
  isHousekeeping e = true -> isReceiveOrFlash e = false.
Proof. destruct e; cbn; congruence. Qed.

Lemma offline_transmit (msg : string) :
  String.eqb msg "REQUEST_UPDATE" = false -> isReceiveOrFlash (RadioTransmit msg) = false.
Proof. reflexivity. Qed.

(** X7.  A node that is a sender once the button has been handled never
    calls [radio.receive] and never touches the firmware updater in that turn
    of [loop]: no CFG or OTA frame can reach it. *)
Theorem sender_never_listens_or_flashes :
  forall (ENABLE_WIFI_OTA : bool) (env : Env) (w : World),
    isSender (node w) = true ->
    shortPressReleased env w = false ->
    emits_at (fun e => isReceiveOrFlash e = false) (loop ENABLE_WIFI_OTA env) w.
Proof.
  intros flag env w S NP. unfold loop.
  apply emits_at_bind; [apply emits_at_nothing; reflexivity |].
  intros now w0 E0. unfold millis in E0. injection E0 as <- <-.
  pose proof (updateButton_role flag env w) as R. rewrite NP, S in R. cbn [xorb] in R.
  apply emits_at_bind.
  { eapply emits_at_weaken; [exact offline_housekeeping |].
    apply (proj2 (preserves_updateButton flag env w Logic.I)). }
  intros [] w1 E1. rewrite E1 in R. cbn [world_of] in R.
  apply emits_at_bind; [apply emits_at_nothing; reflexivity |].
  intros n w1' E. unfold get in E. injection E as <- <-.
  rewrite R.
  apply emits_at_bind.
  { destruct (pendingConfigBroadcast (cfg (node w1))).
    + assert (B : preserves (fun _ => True) (fun e => isReceiveOrFlash e = false)
                            (loopSenderBroadcast env (u32 (clock w))))
        by (apply air_loopSenderBroadcast;
            first [exact trivial_role_only | exact offline_housekeeping
                  | exact offline_transmit]).
      apply (B w1 Logic.I).
    + assert (B : preserves (fun _ => True) (fun e => isReceiveOrFlash e = false)
                            (loopSenderPing env (u32 (clock w))))
        by (apply air_loopSenderPing;
            first [exact trivial_role_only | exact offline_housekeeping
                  | exact offline_transmit]).
      apply (B w1 Logic.I). }
  intros [] w2 E2.
  apply emits_at_bind.
  { assert (B : preserves (fun _ => True) (fun e => isReceiveOrFlash e = false)
                          checkLoraOtaTimeout)
      by (apply preserves_checkLoraOtaTimeout;
          first [exact trivial_role_only | exact offline_housekeeping]).
    apply (B w2 Logic.I). }
  intros [] w3 E3. apply emits_at_nothing. reflexivity.
Qed.

Lemma sender_never_listens_or_flashes_witness :
  emits_at (fun e => isReceiveOrFlash e = false) (loop false quietEnv) senderWorld.
Proof.
  apply (sender_never_listens_or_flashes false quietEnv senderWorld); reflexivity.
Defined.

Lemma silent_housekeeping (e : Event) : isHousekeeping e = true -> isTransmit e = false.
Proof. destruct e; cbn; congruence. Qed.

Lemma silent_flash (e : Event) : isFlashEvent e = true -> isTransmit e = false.
Proof. destruct e; cbn; congruence. Qed.

Lemma silent_handleReceivedPacket flag env now rx rssi snr :
  startsWith rx "REQUEST_UPDATE" = false ->
  preserves (fun n => isSender n = false) (fun e => isTransmit e = false)
            (handleReceivedPacket flag env now rx rssi snr).
Proof.
  intros NR.
  pose proof receiver_role_only as Hrole.
  assert (C : preserves (fun n => isSender n = false) (fun e => isTransmit e = false)
                        computeIndicesFromCurrent)
    by (apply preserves_computeIndicesFromCurrent;
        first [exact Hrole | exact silent_housekeeping]).
  assert (S : preserves (fun n => isSender n = false) (fun e => isTransmit e = false)
                        savePersistedSettings)
    by (apply preserves_savePersistedSettings;
        first [exact Hrole | exact silent_housekeeping]).
  assert (U : preserves (fun n => isSender n = false) (fun e => isTransmit e = false)
                        (updateRadioSettings env))
    by (apply preserves_updateRadioSettings;
        first [exact Hrole | exact silent_housekeeping]).
  assert (O : preserves (fun n => isSender n = false) (fun e => isTransmit e = false)
                        (handleLoraOtaPacket env rx))
    by (apply preserves_handleLoraOtaPacket;
        first [exact Hrole | exact silent_housekeeping | exact silent_flash]).
  unfold handleReceivedPacket. preserves_tac.
  all: cbv beta in *; try congruence; try assumption.
Qed.

(** X8.  In a build without [ENABLE_WIFI_OTA], a node in the receiver role
    transmits nothing in a turn of [loop] unless a frame that starts with
    [REQUEST_UPDATE] arrives: whatever else it receives (CFG, OTA, update
    notices, anything), and whatever the button does short of toggling the
    role, it stays silent. *)
Theorem receiver_silent_unless_asked :
  forall (env : Env) (w : World),
    isSender (node w) = false ->
    shortPressReleased env w = false ->
    (forall k, startsWith (rxPacket env k) "REQUEST_UPDATE" = false) ->
    emits_at (fun e => isTransmit e = false) (loop false env) w.
Proof.
  intros env w S NP NR. pose (flag := false). change (loop false env) with (loop flag env).
  unfold loop.
  apply emits_at_bind; [apply emits_at_nothing; reflexivity |].
  intros now w0 E0. unfold millis in E0. injection E0 as <- <-.
  pose proof (updateButton_role flag env w) as R. rewrite NP, S in R. cbn [xorb] in R.
  apply emits_at_bind.
  { eapply emits_at_weaken; [exact silent_housekeeping |].
    apply (proj2 (preserves_updateButton flag env w Logic.I)). }
  intros [] w1 E1. rewrite E1 in R. cbn [world_of] in R.
  apply emits_at_bind; [apply emits_at_nothing; reflexivity |].
  intros n w1' E. unfold get in E. injection E as <- <-.
  rewrite R.
  apply emits_at_bind.
  { unfold loopReceiver.
    apply emits_at_bind; [apply emits_at_nothing; reflexivity |].
    intros n w1' E. unfold get in E. injection E as <- <-.
    destruct (u32 (u32 (clock w) - lastRxMs (node w1)) >=? 50);
      cbv beta iota delta [when]; [| apply emits_at_nothing; reflexivity].
    apply emits_at_bind.
    { exists [(clock w1, RadioReceive)]. split; [reflexivity | repeat constructor]. }
    intros [[[st rx] rssi] snr] w2 E.
    unfold radio_receive, blocking, bind, ret in E. injection E as <- <- <- <- <-.
    apply emits_at_bind; [| intros; apply emits_at_nothing; reflexivity].
    destruct (radioStatus env (tick w1) =? RADIOLIB_ERR_NONE).
    - apply silent_handleReceivedPacket; [apply NR | exact R].
    - destruct (negb _); apply emits_at_nothing; reflexivity. }
  intros [] w2 E2.
  apply emits_at_bind.
  { assert (B : preserves (fun _ => True) (fun e => isTransmit e = false)
                          checkLoraOtaTimeout)
      by (apply preserves_checkLoraOtaTimeout;
          first [exact trivial_role_only | exact silent_housekeeping]).
    apply (B w2 Logic.I). }
  intros [] w3 E3. apply emits_at_nothing. reflexivity.
Qed.

Lemma receiver_silent_unless_asked_witness :
  emits_at (fun e => isTransmit e = false) (loop false quietEnv) receiverWorld.
Proof.
  apply (receiver_silent_unless_asked quietEnv receiverWorld);
    [reflexivity | reflexivity | intros k; reflexivity].
Defined.

(** ** LoRa OTA: sessions *)

Lemma handleLoraOtaPacket_idle env (packet : string) (w : World) :
  loraOtaActive (ota (node w)) = false ->
  startsWith packet "OTA_START:" = false ->
  handleLoraOtaPacket env packet w = Ret tt w.
Proof.
  intros A S. unfold handleLoraOtaPacket. rewrite S.
  destruct (startsWith packet "OTA_DATA:").
  { unfold handleOtaData. run_m. rewrite A. reflexivity. }
  destruct (startsWith packet "OTA_END:"); [| reflexivity].
  unfold handleOtaEnd. run_m. rewrite A. reflexivity.
Qed.

(** X9.  Without a session, the OTA handler ignores every frame except
    [OTA_START]: any sequence of frames none of which starts with
    [OTA_START:] leaves the node and the trace exactly as they were (data
    frames that arrive before a start are dropped, and a stray [OTA_END:]
    never reaches the firmware updater). *)
Theorem ota_frames_ignored_without_session :
  forall (env : Env) (packets : list string) (w : World),
    loraOtaActive (ota (node w)) = false ->
    Forall (fun p => startsWith p "OTA_START:" = false) packets ->
    handleLoraOtaPackets env packets w = Ret tt w.
Proof.
  intros env packets w A F. induction F as [| p r Hp _ IH]; [reflexivity |].
  cbn [handleLoraOtaPackets]. unfold bind at 1.
  rewrite (handleLoraOtaPacket_idle env p w A Hp). exact IH.
Qed.

Lemma ota_frames_ignored_without_session_witness :
  handleLoraOtaPackets quietEnv ["OTA_DATA:0:abc"; "OTA_END:"; "OTA_"]%string bootWorld
  = Ret tt bootWorld.
Proof.
  apply (ota_frames_ignored_without_session quietEnv); [reflexivity |].
  repeat constructor.
Defined.

(** X10.  The OTA handler reaches the firmware updater in one situation
    only: an [OTA_END:] frame, in an active session, with at least as many
    bytes received as expected.  Then its first call is [Update.begin] with
    the expected size and every call it makes is an updater call or the
    restart; the chip restarts exactly when [Update.begin] and [Update.end]
    both succeed.  In every other situation the handler makes no call at all
    and does not restart. *)
Theorem firmware_written_only_at_complete_end :
  forall (env : Env) (packet : string) (w : World),
    let o := ota (node w) in
    let out := handleLoraOtaPacket env packet w in
    let complete :=
      negb (startsWith packet "OTA_START:") && negb (startsWith packet "OTA_DATA:")
      && startsWith packet "OTA_END:" && loraOtaActive o
      && (loraOtaReceivedSize o >=? loraOtaExpectedSize o) in
    if complete then
      exists new,
        issued w (world_of out) (new ++ [(clock w, UpdateBegin (loraOtaExpectedSize o))])
        /\ Forall (fun te => isFlashEvent (snd te) = true) new
        /\ (stopped out = Some Restart
            <-> updateOk env (tick w) = true /\ updateOk env (2 + tick w) = true)
        /\ (stopped out = None \/ stopped out = Some Restart)
    else
      trace (world_of out) = trace w /\ stopped out <> Some Restart.
Proof.
  intros env packet w o out complete. subst o out complete.
  unfold handleLoraOtaPacket.
  destruct (startsWith packet "OTA_START:").
  { cbn [negb andb]. unfold handleOtaStart. run_m.
    destruct (_ =? 2); cbn; split; [reflexivity | discriminate | reflexivity | discriminate]. }
  destruct (startsWith packet "OTA_DATA:").
  { cbn [negb andb]. unfold handleOtaData. run_m.
    destruct (loraOtaActive (ota (node w))); cbn [negb];
      [| split; [reflexivity | discriminate]].
    destruct (_ =? 2); [| split; [reflexivity | discriminate]].
    destruct (nth_error _ 1) as [[| | | data] |]; try (split; [reflexivity | discriminate]).
    destruct (_ <? OTA_BUFFER_SIZE); [| split; [reflexivity | discriminate]].
    destruct (memcpy _ _ _); [| split; [reflexivity | discriminate]].
    cbn [node ota set_ota loraOtaExpectedSize].
    destruct (_ =? 0); split; (reflexivity || discriminate). }
  destruct (startsWith packet "OTA_END:"); cbn [negb andb];
    [| split; [reflexivity | discriminate]].
  unfold handleOtaEnd. run_m.
  destruct (loraOtaActive (ota (node w))); cbn [negb andb];
    [| split; [reflexivity | discriminate]].
  destruct (loraOtaReceivedSize (ota (node w)) >=? loraOtaExpectedSize (ota (node w)));
    [| split; [reflexivity | discriminate]].
  cbn [tick].
  destruct (updateOk env (tick w)) eqn:B; run_m; cbn [stopped world_of trace].
  - destruct (updateOk env (S (S (tick w)))) eqn:E; run_m; cbn [stopped world_of trace node].
    + exists [(clock w + 2000, EspRestart); (clock w, UpdateEnd);
              (clock w, UpdateWrite (firstn (Z.to_nat (loraOtaBufferSize (ota (node w))))
                                            (loraOtaBuffer (ota (node w)))))].
      split; [reflexivity |]. split; [repeat constructor |].
      split; [| right; reflexivity]. split; [intros _ | reflexivity].
      split; [reflexivity | exact E].
    + exists [(clock w, UpdateEnd);
              (clock w, UpdateWrite (firstn (Z.to_nat (loraOtaBufferSize (ota (node w))))
                                            (loraOtaBuffer (ota (node w)))))].
      split; [reflexivity |]. split; [repeat constructor |].
      split; [| left; reflexivity]. split; [discriminate |].
      intros [_ H]. cbn [Nat.add] in H. congruence.
  - exists []. split; [reflexivity |]. split; [constructor |].
    split; [| left; reflexivity]. split; [discriminate | intros [H _]; discriminate].
Qed.

(** ** LoRa OTA: data frames *)

Lemma skip_space_no_space (s : string) : no_space s = true -> skip_space s = s.
Proof.
  destruct s as [| c r]; [reflexivity |]. cbn [no_space skip_space]. intros H.
  apply andb_prop in H. destruct H as [H _]. apply Bool.negb_true_iff in H.
  rewrite H. reflexivity.
Qed.

Lemma take_word_all (s : string) :
  no_space s = true ->
  forall w, (String.length s <= w)%nat -> take_word s true w = (s, EmptyString).
Proof.
  induction s as [| c r IH]; intros H w L; [destruct w; reflexivity |].
  cbn [no_space] in H. apply andb_prop in H. destruct H as [H1 H2].
  apply Bool.negb_true_iff in H1. cbn [take_word String.length] in *. rewrite H1.
  destruct w as [| w]; [lia |]. rewrite (IH H2 w) by lia. reflexivity.
Qed.

Lemma ota_data_header (k : Z) :
  0 <= k <= INT32_MAX ->
  snprintf 256 "OTA_DATA:%d:" [AInt k] = ("OTA_DATA:" ++ fmt_d k ++ ":")%string.
Proof.
  intros Hk. unfold snprintf.
  assert (E : printf None "OTA_DATA:%d:" [AInt k] = ("OTA_DATA:" ++ fmt_d k ++ ":")%string)
    by (cbv -[fmt_d]; reflexivity).
  rewrite E. apply substring_all.
  pose proof (fmt_d_length k 10 ltac:(unfold INT32_MAX in *; lia) ltac:(lia)).
  rewrite !append_length. cbn [String.length]. lia.
Qed.

(** The data frame the OTA sender builds for chunk [k], as the receiver's
    [sscanf] reads it. *)
Lemma ota_data_frame_scan (k : Z) (data : string) :
  0 <= k <= INT32_MAX ->
  data <> EmptyString -> c_str data = data -> no_space data = true ->
  (String.length data <= 255)%nat ->
  let packet := c_str (snprintf 256 "OTA_DATA:%d:" [AInt k] ++ data) in
  startsWith packet "OTA_START:" = false
  /\ startsWith packet "OTA_DATA:" = true
  /\ assigned (sscanf (c_str packet) "OTA_DATA:%d:%255s") = [SInt k; SStr data].
Proof.
  intros Hk Hne Hnul Hsp Hlen packet. subst packet.
  rewrite (ota_data_header k Hk).
  assert (C : c_str (("OTA_DATA:" ++ fmt_d k ++ ":") ++ data)
              = ("OTA_DATA:" ++ fmt_d k ++ ":" ++ data)%string).
  { rewrite !append_assoc.
    repeat (rewrite c_str_app by (reflexivity || (apply c_str_fmt_d; lia))).
    rewrite Hnul. reflexivity. }
  rewrite C.
  destruct (ota_data_not_start (fmt_d k ++ ":" ++ data)) as [S1 S2].
  split; [exact S1 |]. split; [exact S2 |].
  assert (C2 : c_str ("OTA_DATA:" ++ fmt_d k ++ ":" ++ data)
               = ("OTA_DATA:" ++ fmt_d k ++ ":" ++ data)%string).
  { repeat (rewrite c_str_app by (reflexivity || (apply c_str_fmt_d; lia))).
    rewrite Hnul. reflexivity. }
  rewrite C2. unfold sscanf.
  let l := eval vm_compute in (scan_format None "OTA_DATA:%d:%255s") in
    change (scan_format None "OTA_DATA:%d:%255s") with l.
  cbn [String.append]. rewrite !scan_lit.
  rewrite scan_int by (trivial; reflexivity).
  rewrite scan_lit. cbn [scan assigned input_failure].
  rewrite (skip_space_no_space data Hsp).
  destruct data as [| c r]; [congruence |].
  cbn [scan_conv]. change (negb (255 =? 0)%nat) with true.
  rewrite (take_word_all (String c r) Hsp 255 Hlen). reflexivity.
Qed.

Lemma ota_data_stored (env : Env) (packet data : string) (k : Z) (w : World) :
  startsWith packet "OTA_START:" = false ->
  startsWith packet "OTA_DATA:" = true ->
  assigned (sscanf (c_str packet) "OTA_DATA:%d:%255s") = [SInt k; SStr data] ->
  loraOtaActive (ota (node w)) = true ->
  otaInvariant w ->
  loraOtaBufferSize (ota (node w)) + strlen data < OTA_BUFFER_SIZE ->
  let o := ota (node w) in
  let out := handleLoraOtaPacket env packet w in
  world_of out
  = mkWorld (set_ota (mkOta true (loraOtaStartTime o) (loraOtaTimeout o)
                            (firstn (Z.to_nat (loraOtaBufferSize o)) (loraOtaBuffer o)
                             ++ list_ascii_of_string data
                             ++ skipn (Z.to_nat (loraOtaBufferSize o + strlen data))
                                      (loraOtaBuffer o))
                            (loraOtaBufferSize o + strlen data)
                            (loraOtaExpectedSize o)
                            (loraOtaReceivedSize o + strlen data))
                     (node w))
            (clock w) (tick w) (trace w)
  /\ stopped out = (if loraOtaExpectedSize o =? 0 then Some DivideByZero else None).
Proof.
  intros S1 S2 A Act (Hlen & Hb & Hr) Hfit o out. subst o out.
  unfold handleLoraOtaPacket. rewrite S1, S2.
  unfold handleOtaData. run_m. rewrite Act. cbn [negb].
  unfold sscanf_count. rewrite A. cbn [List.length Z.of_nat Pos.of_succ_nat Pos.succ Z.eqb Pos.eqb nth_error].
  assert (L0 : 0 <= strlen data) by (unfold strlen; lia).
  unfold OTA_BUFFER_SIZE in *.
  rewrite !u32_small by (unfold UINT32_MAX; lia).
  destruct (Z.ltb_spec (loraOtaBufferSize (ota (node w)) + strlen data) 1024); [| lia].
  unfold memcpy.
  assert (LD : Z.of_nat (List.length (list_ascii_of_string data)) = strlen data).
  { unfold strlen. f_equal. clear. induction data; cbn; congruence. }
  rewrite LD.
  destruct (Z.leb_spec 0 (loraOtaBufferSize (ota (node w)))); [| lia].
  destruct (Z.leb_spec (loraOtaBufferSize (ota (node w)) + strlen data)
                       (Z.of_nat (List.length (loraOtaBuffer (ota (node w))))));
    [| lia].
  cbn [andb]. run_m.
  destruct (loraOtaExpectedSize (ota (node w)) =? 0); split; reflexivity.
Qed.



(** ** LoRa OTA: start frame and timeout *)

Lemma startsWith_append (p r : string) : startsWith (p ++ r) p = true.
Proof.
  unfold startsWith. induction p as [| c p IH]; cbn [String.append String.prefix].
  - destruct r; reflexivity.
  - destruct (ascii_dec c c) as [_ | N]; [exact IH | exfalso; apply N; reflexivity].
Qed.

Lemma ota_start_header (size T : Z) :
  0 <= size <= UINT32_MAX -> 0 <= T <= UINT32_MAX ->
  snprintf 64 "OTA_START:%zu:%lu" [AInt size; AInt T]
  = ("OTA_START:" ++ fmt_d size ++ ":" ++ fmt_d T ++ "")%string.
Proof.
  intros Hs HT. unfold snprintf.
  assert (E : printf None "OTA_START:%zu:%lu" [AInt size; AInt T]
              = ("OTA_START:" ++ fmt_d size ++ ":" ++ fmt_d T ++ "")%string)
    by (cbv -[fmt_d]; reflexivity).
  rewrite E. apply substring_all.
  pose proof (fmt_d_length size 10 ltac:(unfold UINT32_MAX in *; lia) ltac:(lia)).
  pose proof (fmt_d_length T 10 ltac:(unfold UINT32_MAX in *; lia) ltac:(lia)).
  rewrite !append_length. cbn [String.length]. lia.
Qed.

Lemma ota_start_frame_scan (size T : Z) :
  0 <= size <= UINT32_MAX -> 0 <= T <= UINT32_MAX ->
  let packet := snprintf 64 "OTA_START:%zu:%lu" [AInt size; AInt T] in
  startsWith packet "OTA_START:" = true
  /\ sscanf (c_str packet) "OTA_START:%u:%u" = mkScan [SUInt size; SUInt T] false.
Proof.
  intros Hs HT packet. subst packet. rewrite (ota_start_header size T Hs HT).
  split.
  { apply startsWith_append. }
  repeat (rewrite c_str_app by (reflexivity || (apply c_str_fmt_d; lia))).
  change (c_str "") with EmptyString.
  unfold sscanf.
  let l := eval vm_compute in (scan_format None "OTA_START:%u:%u") in
    change (scan_format None "OTA_START:%u:%u") with l.
  cbn [String.append]. rewrite !scan_lit.
  rewrite scan_uint by (trivial; reflexivity).
  rewrite scan_lit.
  rewrite scan_uint by (trivial; exact Logic.I).
  reflexivity.
Qed.

(** X12.  The start frame the OTA sender builds for a firmware of [size]
    bytes and a timeout of [T] ms opens a session on the node that handles
    it: active, expecting [size] bytes, with that timeout, empty counters and
    the start time taken from the clock; no call is made.  From then on
    [checkLoraOtaTimeout] keeps the session for exactly [T] ms and ends it
    afterwards, also when the 32-bit millisecond clock wraps in between. *)
Theorem ota_session_starts_and_times_out :
  forall (env : Env) (size T dt : Z) (w : World),
    0 <= size <= UINT32_MAX -> 0 <= T <= UINT32_MAX -> 0 <= dt < 2 ^ 32 ->
    let out := handleLoraOtaPacket env
                 (snprintf 64 "OTA_START:%zu:%lu" [AInt size; AInt T]) w in
    let w1 := world_of out in
    stopped out = None
    /\ trace w1 = trace w
    /\ ota (node w1)
       = mkOta true (u32 (clock w)) T (loraOtaBuffer (ota (node w))) 0 size 0
    /\ loraOtaActive
         (ota (node (world_of (checkLoraOtaTimeout (world_of (delay dt w1))))))
       = (dt <=? T).
Proof.
  intros env size T dt w Hs HT Hdt out w1. subst w1 out.
  destruct (ota_start_frame_scan size T Hs HT) as [S A]. cbv zeta in S, A.
  unfold handleLoraOtaPacket. rewrite S. unfold handleOtaStart. rewrite A.
  run_m. cbn [sscanf_count assigned List.length Z.of_nat Pos.of_succ_nat Pos.succ
              Z.eqb Pos.eqb stored_uint nth_error].
  run_m. cbn [stopped world_of trace node ota set_ota loraOtaTimeout loraOtaBuffer
              loraOtaExpectedSize].
  split; [reflexivity |]. split; [reflexivity |]. split; [reflexivity |].
  unfold checkLoraOtaTimeout, delay. run_m.
  cbn [ota set_ota loraOtaActive loraOtaStartTime loraOtaTimeout andb].
  rewrite u32_sub. replace (clock w + dt - clock w) with dt by lia.
  rewrite u32_small by (unfold UINT32_MAX; lia).
  destruct (Z.gtb_spec dt T); destruct (Z.leb_spec dt T); try lia; reflexivity.
Qed.

Lemma ota_session_starts_and_times_out_witness :
  let w1 := world_of (handleLoraOtaPacket quietEnv
                        (snprintf 64 "OTA_START:%zu:%lu" [AInt 32; AInt 30000]) bootWorld) in
  loraOtaExpectedSize (ota (node w1)) = 32
  /\ loraOtaActive
       (ota (node (world_of (checkLoraOtaTimeout (world_of (delay 30001 w1))))))
     = false.
Proof.
  pose proof (ota_session_starts_and_times_out quietEnv 32 30000 30001 bootWorld) as H.
  cbv zeta in H.
  destruct H as (_ & _ & H1 & H2); try (unfold UINT32_MAX; lia).
  split; [rewrite H1; reflexivity | rewrite H2; reflexivity].
Defined.

(** ** LoRa OTA: from sender to updater *)

Lemma transmitted_app (a b : list (Z * Event)) :
  transmitted (a ++ b) = transmitted b ++ transmitted a.
Proof.
  induction a as [| [t e] a IH]; cbn [app transmitted].
  - rewrite app_nil_r. reflexivity.
  - destruct e; try exact IH. rewrite IH, app_assoc. reflexivity.
Qed.












(** ** Pings *)

Lemma loop_ping_turn flag env (w : World) :
  isSender (node w) = true ->
  buttonPressed (button (node w)) = false ->
  pinLevel env (tick w) = HIGH ->
  pendingConfigBroadcast (cfg (node w)) = false ->
  exists w',
    loop flag env w = Ret tt w'
    /\ isSender (node w') = true
    /\ buttonPressed (button (node w')) = false
    /\ pendingConfigBroadcast (cfg (node w')) = false
    /\ (tick w < tick w')%nat
    /\ (((u32 (u32 (clock w) - lastTxMs (node w)) >=? 2000) = true
         /\ seq (node w') = u32 (seq (node w) + 1)
         /\ lastTxMs (node w') = u32 (clock w)
         /\ transmitted (trace w')
            = transmitted (trace w) ++ [formatTxMessage (seq (node w))])
        \/ ((u32 (u32 (clock w) - lastTxMs (node w)) >=? 2000) = false
            /\ seq (node w') = seq (node w)
            /\ lastTxMs (node w') = lastTxMs (node w)
            /\ transmitted (trace w') = transmitted (trace w))).
Proof.
  intros HS HB HP HQ.
  destruct (updateButton_idle flag env w HP HB)
    as (n1 & E1 & (S1 & S2 & S3 & S4 & S5) & S6).
  unfold loop. cbv beta iota delta [bind millis get]. rewrite E1. clear E1.
  cbv beta iota. cbn [node].
  rewrite S1, HS, S3, HQ.
  unfold loopSenderPing. run_radio. rewrite S4.
  destruct (u32 (u32 (clock w) - lastTxMs (node w)) >=? 2000); cbn;
    match goal with |- context [checkLoraOtaTimeout ?w3] =>
      destruct (checkLoraOtaTimeout_returns w3)
        as (n4 & E4 & (C1 & C2 & C3 & C4 & C5) & C6) end;
    rewrite E4; clear E4; cbn in *.
  - eexists. split; [reflexivity |]. cbn.
    split; [congruence |]. split; [congruence |]. split; [congruence |].
    split; [lia |]. left.
    split; [reflexivity |]. split; [congruence |]. split; [congruence |].
    rewrite S6. reflexivity.
  - eexists. split; [reflexivity |]. cbn.
    split; [congruence |]. split; [congruence |]. split; [congruence |].
    split; [lia |]. right.
    split; [reflexivity |]. split; [congruence |]. split; [congruence |]. reflexivity.
Qed.

Lemma pings_from flag env (s0 : Z) :
  (forall i, pinLevel env i = HIGH) ->
  forall (k : nat) (w : World) (j : nat),
    isSender (node w) = true ->
    buttonPressed (button (node w)) = false ->
    pendingConfigBroadcast (cfg (node w)) = false ->
    seq (node w) = u32 (s0 + Z.of_nat j) ->
    exists w' m,
      loops flag env k w = Ret tt w'
      /\ (m <= k)%nat
      /\ seq (node w') = u32 (s0 + Z.of_nat (j + m))
      /\ transmitted (trace w')
         = transmitted (trace w)
           ++ map (fun i => formatTxMessage (u32 (s0 + Z.of_nat i))) (List.seq j m).
Proof.
  intros Pin. induction k as [| k IH]; intros w j HS HB HQ Hseq.
  - exists w, 0%nat. cbn [loops List.seq map]. rewrite Nat.add_0_r, app_nil_r.
    repeat split; [lia | exact Hseq].
  - destruct (loop_ping_turn flag env w HS HB (Pin _) HQ)
      as (w1 & E1 & S1 & B1 & Q1 & _ & [(_ & Sq & _ & Tr) | (_ & Sq & _ & Tr)]).
    + destruct (IH w1 (S j) S1 B1 Q1) as (w' & m & E & Hm & Sq' & Tr').
      { rewrite Sq, Hseq. unfold u32. rewrite Zplus_mod_idemp_l. f_equal. lia. }
      exists w', (S m). cbn [loops]. unfold bind at 1. rewrite E1.
      split; [exact E |]. split; [lia |].
      split; [rewrite Sq'; f_equal; lia |].
      rewrite Tr', Tr, Hseq, <- app_assoc. reflexivity.
    + destruct (IH w1 j S1 B1 Q1) as (w' & m & E & Hm & Sq' & Tr').
      { rewrite Sq. exact Hseq. }
      exists w', m. cbn [loops]. unfold bind at 1. rewrite E1.
      split; [exact E |]. split; [lia |]. split; [exact Sq' |].
      rewrite Tr', Tr. reflexivity.
Qed.

(** X14.  A sender whose button is left alone and that has no configuration
    broadcast pending only sends pings, and numbers them consecutively: over
    any number of turns of [loop] the frames it transmits are
    [formatTxMessage s], [formatTxMessage (s + 1)], ... counted modulo 2^32
    from its sequence number [s], at most one per turn, and the sequence
    number advances by one per ping whether or not the radio reports the
    transmission as successful. *)
Theorem sender_pings_count_up :
  forall (ENABLE_WIFI_OTA : bool) (env : Env) (k : nat) (w : World),
    (forall i, pinLevel env i = HIGH) ->
    isSender (node w) = true ->
    buttonPressed (button (node w)) = false ->
    pendingConfigBroadcast (cfg (node w)) = false ->
    0 <= seq (node w) <= UINT32_MAX ->
    exists w' m,
      loops ENABLE_WIFI_OTA env k w = Ret tt w'
      /\ (m <= k)%nat
      /\ seq (node w') = u32 (seq (node w) + Z.of_nat m)
      /\ transmitted (trace w')
         = transmitted (trace w)
           ++ map (fun i => formatTxMessage (u32 (seq (node w) + Z.of_nat i)))
                  (List.seq 0 m).
Proof.
  intros flag env k w Pin HS HB HQ Hs.
  destruct (pings_from flag env (seq (node w)) Pin k w 0 HS HB HQ)
    as (w' & m & E & Hm & Sq & Tr).
  { rewrite Z.add_0_r, u32_small by exact Hs. reflexivity. }
  exists w', m. repeat split; assumption.
Qed.

Lemma sender_pings_count_up_witness :
  exists w' m,
    loops false quietEnv 3 senderWorld = Ret tt w'
    /\ (m <= 3)%nat
    /\ seq (node w') = u32 (0 + Z.of_nat m)
    /\ transmitted (trace w')
       = map (fun i => formatTxMessage (u32 (0 + Z.of_nat i))) (List.seq 0 m).
Proof.
  apply (sender_pings_count_up false quietEnv 3 senderWorld);
    [intros i; reflexivity | reflexivity | reflexivity | reflexivity
    | cbn; unfold UINT32_MAX; lia].
Defined.

(** ** Preferences *)

(** X15.  What is saved is what the next boot loads.  After
    [savePersistedSettings] the five radio parameters that
    [loadPersistedSettingsAndRole] reads back are the current ones, whatever
    the defaults of the booting node, and the stored role is left as it was;
    after a short press ([onShortPress]) the role read back is the new role,
    and the stored radio parameters are left as they were. *)
Theorem settings_survive_reboot :
  forall (w : World) (n0 : Node),
    let boot := fun tr =>
      node (world_of (loadPersistedSettingsAndRole (storeOf tr) (mkWorld n0 0 0 []))) in
    (let saved := trace (world_of (savePersistedSettings w)) in
     current (boot saved) = current (node w)
     /\ isSender (boot saved) = isSender (boot (trace w)))
    /\ (let saved := trace (world_of (onShortPress w)) in
        isSender (boot saved) = negb (isSender (node w))
        /\ current (boot saved) = current (boot (trace w))).
Proof.
  intros w n0 boot. subst boot. split.
  - rewrite savePersistedSettings_returns. cbn [world_of trace].
    unfold loadPersistedSettingsAndRole, modify, storeOf, isKey, getFloat, getInt, getBool.
    cbn [world_of node isSender current set_isSender set_current app prefsLookup
         String.eqb Ascii.eqb Bool.eqb].
    split; [| reflexivity].
    unfold currentFreq, currentBW, currentSF, currentCR, currentTxPower.
    destruct (current (node w)); reflexivity.
  - unfold onShortPress, savePersistedRole. run_m. cbn [world_of trace].
    unfold loadPersistedSettingsAndRole, modify, storeOf, isKey, getFloat, getInt, getBool.
    cbn [world_of node isSender current set_isSender set_current set_seq prefsLookup
         String.eqb Ascii.eqb Bool.eqb].
    split; reflexivity.
Qed.

(** ** Configuration frames *)

Lemma transmitRepeated_frames env (times : nat) (msg : string) (intervalMs : Z) :
  0 <= intervalMs ->
  forall w, exists w',
    transmitRepeated env times msg intervalMs w = Ret tt w'
    /\ node w' = node w
    /\ transmitted (trace w') = transmitted (trace w) ++ repeat msg times
    /\ clock w + Z.of_nat times * intervalMs <= clock w'
    /\ (tick w' = times + tick w)%nat.
Proof.
  intros Hi. induction times as [| k IH]; intros w.
  - exists w. cbn [transmitRepeated repeat]. rewrite app_nil_r.
    repeat split; try reflexivity. lia.
  - cbn [transmitRepeated]. run_radio.
    match goal with |- context [transmitRepeated env k msg intervalMs ?w1] =>
      destruct (IH w1) as (w' & E & N & T & C & Ti) end.
    rewrite E. exists w'. split; [reflexivity |]. split; [exact N |].
    cbn [trace clock tick transmitted] in T, C, Ti.
    split; [rewrite T, <- app_assoc; reflexivity |].
    pose proof (N2Z.is_nonneg (radioBlocks env (tick w))).
    split; [nia | lia].
Qed.

(** X16.  When the radio accepts the switch to the control channel,
    [broadcastConfigOnControlChannel] transmits the CFG frame of the current
    configuration exactly [times] times, [times] being taken as the 8-bit
    value the parameter holds (so 256 sends nothing), spends at least
    [intervalMs] per frame, transmits nothing else and leaves every variable
    of the node as it was. *)
Theorem control_broadcast_sends_times_frames :
  forall (env : Env) (times intervalMs : Z) (w : World),
    radioStatus env (tick w) = RADIOLIB_ERR_NONE ->
    0 <= intervalMs ->
    exists w',
      broadcastConfigOnControlChannel env times intervalMs w = Ret tt w'
      /\ node w' = node w
      /\ transmitted (trace w')
         = transmitted (trace w)
           ++ repeat (formatConfigMessage (current (node w))) (Z.to_nat (u8 times))
      /\ clock w + u8 times * intervalMs <= clock w'.
Proof.
  intros env times intervalMs w H0 Hi.
  unfold broadcastConfigOnControlChannel. run_radio. rewrite H0.
  cbn [negb Z.eqb RADIOLIB_ERR_NONE].
  match goal with |- context [transmitRepeated env ?n ?m ?i ?w1] =>
    destruct (transmitRepeated_frames env n m i Hi w1) as (w2 & E & N & T & C & _) end.
  rewrite E. cbn [node clock tick trace transmitted] in *.
  assert (U : 0 <= u8 times) by (unfold u8; apply Z.mod_pos_bound; lia).
  rewrite Z2Nat.id in C by exact U.
  pose proof (fun k => N2Z.is_nonneg (radioBlocks env k)) as Hd.
  destruct (radioStatus env (tick w2) =? RADIOLIB_ERR_NONE); cbn [negb];
    eexists; (split; [reflexivity |]); cbn [node trace clock transmitted];
    (split; [exact N |]); (split; [exact T |]);
    repeat match goal with
           | |- context [radioBlocks env ?k] =>
               pose proof (Hd k); generalize dependent (Z.of_N (radioBlocks env k)); intros
           end; lia.
Qed.

Lemma control_broadcast_sends_times_frames_witness :
  exists w',
    broadcastConfigOnControlChannel quietEnv 6 250 senderWorld = Ret tt w'
    /\ transmitted (trace w') = repeat (formatConfigMessage (current initialNode)) 6
    /\ 10000 + 1500 <= clock w'.
Proof.
  destruct (control_broadcast_sends_times_frames quietEnv 6 250 senderWorld)
    as (w' & E & _ & T & C); [reflexivity | lia |].
  exists w'. split; [exact E |]. split; [exact T | exact C].
Defined.



(** ** Button on a receiver *)

(** X18.  On a receiver built without [ENABLE_WIFI_OTA], what
    [updateButton] does at the release of a press is again what
    [classifyPress] says, and the table position moves as [cycleIndex] does:
    a short press makes the node a sender with sequence number 0; a medium
    (long) press moves the spreading-factor (bandwidth) tracker to the next
    position, takes the table entry there as the value in use at once,
    reprograms the radio starting with the frequency, and stores the new
    value in the preferences.  No configuration broadcast is started. *)
Theorem receiver_button_agrees_with_app_logic :
  forall (env : Env) (w : World),
    let n := node w in
    let d := u32 (u32 (clock w) - buttonPressMs (button n)) in
    isSender n = false ->
    lastButtonState (button n) = LOW ->
    buttonPressed (button n) = true ->
    pinLevel env (tick w) = HIGH ->
    0 <= currentSfIndex (indices n) < 6 ->
    0 <= currentBwIndex (indices n) < 4 ->
    exists w',
      updateButton false env w = Ret tt w'
      /\ buttonPressed (button (node w')) = false
      /\ cfg (node w') = cfg n
      /\ match classifyPress d with
         | Ignore =>
             node w' = set_button (button (node w')) n
             /\ trace w' = (clock w, DigitalRead) :: trace w
         | ToggleMode =>
             isSender (node w') = true /\ seq (node w') = 0
             /\ current (node w') = current n
             /\ storeOf (trace w') "sender"%string = Some (PBool true)
         | CycleSF =>
             isSender (node w') = false
             /\ currentSfIndex (indices (node w')) = cycleIndex (currentSfIndex (indices n)) 6
             /\ current (node w')
                = with_SF (table_at sfValues (currentSfIndex (indices (node w'))) 0)
                          (current n)
             /\ In (currentSF (node w')) sfValues
             /\ storeOf (trace w') "sf"%string = Some (PInt (currentSF (node w')))
             /\ exists new,
                  trace w' = new ++ (clock w, RadioSetFrequency (currentFreq n))
                                 :: (clock w, DigitalRead) :: trace w
         | CycleBW =>
             isSender (node w') = false
             /\ currentBwIndex (indices (node w')) = cycleIndex (currentBwIndex (indices n)) 4
             /\ current (node w')
                = with_BW (table_at bwValues (currentBwIndex (indices (node w'))) 0%Q)
                          (current n)
             /\ In (currentBW (node w')) bwValues
             /\ storeOf (trace w') "bw"%string = Some (PFloat (currentBW (node w')))
             /\ exists new,
                  trace w' = new ++ (clock w, RadioSetFrequency (currentFreq n))
                                 :: (clock w, DigitalRead) :: trace w
         end.
Proof.
  intros env w n d S L B Pin Hsf Hbw. subst n.
  unfold updateButton, digitalRead, HIGH, LOW in *. run_m.
  rewrite Pin, L. cbn [Bool.eqb andb]. cbn [node button set_button lastButtonState buttonPressed
       buttonPressMs lastButtonMs].
  rewrite L, B. cbn [Bool.eqb andb].
  fold d. unfold classifyPress.
  destruct (d <? 100).
  { eexists. split; [reflexivity |]. cbn. repeat split. }
  destruct (d <? 1000).
  { unfold onShortPress, savePersistedRole. run_m.
    eexists. split; [reflexivity |]. cbn. rewrite S. cbn. repeat split. }
  rewrite (cycleIndex_mod 6 _ ltac:(unfold INT32_MAX; lia) Hsf).
  rewrite (cycleIndex_mod 4 _ ltac:(unfold INT32_MAX; lia) Hbw).
  destruct (d <? 3000).
  - unfold onMediumPress. run_m. cbn [node isSender set_button]. rewrite S. run_m.
    match goal with |- context [updateRadioSettings env ?w1] =>
      destruct (updateRadioSettings_returns env w1) as (w2 & newU & E2 & N2 & T2 & _ & _) end.
    rewrite E2, savePersistedSettings_returns. run_m. cbn [node clock trace] in N2, T2.
    eexists. split; [reflexivity |]. cbn [node trace]. rewrite N2, T2.
    unfold currentSF, currentFreq.
    cbn [button set_button buttonPressed cfg set_current set_indices isSender indices
         currentSfIndex current with_SF SF Freq].
    rewrite nextIndex_mod by (cbn; unfold INT32_MAX; lia).
    change (Z.of_nat (List.length sfValues)) with 6.
    split; [reflexivity |]. split; [reflexivity |].
    split; [exact S |]. split; [reflexivity |]. split; [reflexivity |].
    split.
    { unfold table_at. apply nth_In.
      pose proof (Z.mod_pos_bound (currentSfIndex (indices (node w)) + 1) 6 ltac:(lia)).
      cbn [List.length sfValues]. lia. }
    split; [reflexivity |].
    eexists (_ ++ newU). rewrite <- app_assoc. reflexivity.
  - unfold onLongPress. run_m. cbn [node isSender set_button]. rewrite S. run_m.
    match goal with |- context [updateRadioSettings env ?w1] =>
      destruct (updateRadioSettings_returns env w1) as (w2 & newU & E2 & N2 & T2 & _ & _) end.
    rewrite E2, savePersistedSettings_returns. run_m. cbn [node clock trace] in N2, T2.
    eexists. split; [reflexivity |]. cbn [node trace]. rewrite N2, T2.
    unfold currentBW, currentFreq.
    cbn [button set_button buttonPressed cfg set_current set_indices isSender indices
         currentBwIndex current with_BW BW Freq].
    rewrite nextIndex_mod by (cbn; unfold INT32_MAX; lia).
    change (Z.of_nat (List.length bwValues)) with 4.
    split; [reflexivity |]. split; [reflexivity |].
    split; [exact S |]. split; [reflexivity |]. split; [reflexivity |].
    split.
    { unfold table_at. apply nth_In.
      pose proof (Z.mod_pos_bound (currentBwIndex (indices (node w)) + 1) 4 ltac:(lia)).
      cbn [List.length bwValues]. lia. }
    split; [reflexivity |].
    eexists (_ ++ newU). rewrite <- app_assoc. reflexivity.
Qed.

Lemma receiver_button_agrees_with_app_logic_witness :
  exists w',
    updateButton false quietEnv (receiverReleaseWorld 9000 12500) = Ret tt w'
    /\ currentBwIndex (indices (node w')) = 2
    /\ (BW (current (node w')) == 250)%Q.
Proof.
  pose proof (receiver_button_agrees_with_app_logic quietEnv (receiverReleaseWorld 9000 12500))
    as H.
  cbv zeta in H.
  destruct H as (w' & E & _ & _ & M);
    [reflexivity | reflexivity | reflexivity | reflexivity | cbn; lia | cbn; lia |].
  change (classifyPress _) with CycleBW in M.
  destruct M as (_ & I1 & C & _).
  exists w'. split; [exact E |]. split; [exact I1 |].
  rewrite C, I1. reflexivity.
Defined.

(** ** Signal statistics *)

Lemma signal_only (g : SignalStats) :
  forall n n' : Node,
    isSender n' = isSender n -> signal n' = signal n -> signal n = g -> signal n' = g.
Proof. intros n n' _ E H. congruence. Qed.

Lemma handleReceivedPacket_signal flag env now rx rssi snr (w : World) :
  signal (node (world_of (handleReceivedPacket flag env now rx rssi snr w)))
  = mkSignal rssi snr now (u32 (packetCount (signal (node w)) + 1))
             (errorCount (signal (node w))).
Proof.
  unfold handleReceivedPacket. unfold bind at 1. cbv beta iota delta [modify].
  match goal with
  | |- signal (node (world_of (?m ?w1))) = ?g =>
      assert (Hm : preserves (fun n => signal n = g) (fun _ => True) m);
      [| exact (proj1 (Hm w1 eq_refl))]
  end.
  pose proof (signal_only
                (mkSignal rssi snr now (u32 (packetCount (signal (node w)) + 1))
                          (errorCount (signal (node w))))) as Hrole.
  set (g := mkSignal rssi snr now (u32 (packetCount (signal (node w)) + 1))
                     (errorCount (signal (node w)))) in *.
  assert (HP : forall e : Event, isHousekeeping e = true -> True) by trivial.
  assert (HF : forall e : Event, isFlashEvent e = true -> True) by trivial.
  assert (HT : forall msg, String.eqb msg "REQUEST_UPDATE" = false -> True) by trivial.
  assert (C : preserves (fun n => signal n = g) (fun _ => True) computeIndicesFromCurrent)
    by (apply preserves_computeIndicesFromCurrent; first [exact Hrole | exact HP]).
  assert (S : preserves (fun n => signal n = g) (fun _ => True) savePersistedSettings)
    by (apply preserves_savePersistedSettings; first [exact Hrole | exact HP]).
  assert (U : preserves (fun n => signal n = g) (fun _ => True) (updateRadioSettings env))
    by (apply preserves_updateRadioSettings; first [exact Hrole | exact HP]).
  assert (O : preserves (fun n => signal n = g) (fun _ => True) (handleLoraOtaPacket env rx))
    by (apply preserves_handleLoraOtaPacket; first [exact Hrole | exact HP | exact HF]).
  preserves_tac.
  all: cbv beta in *; try assumption.
  all: first [ apply air_sendLoraOtaUpdate; first [exact Hrole | exact HP | exact HT]
             | apply preserves_radio; first [exact Hrole | exact HP | exact Logic.I] ].
Qed.

(** X19.  The receiver half of [loop] keeps its statistics as follows.  A
    receive that succeeds is counted and its RSSI, SNR and time are recorded
    whatever the payload is and whatever handling it leads to (also a restart
    or a trap); a receive that times out changes nothing; any other status
    adds one to the error count and nothing else; and when fewer than 50 ms
    have passed since the last receive nothing is touched.  Counters wrap at
    2^32. *)
Theorem receiver_statistics :
  forall (ENABLE_WIFI_OTA : bool) (env : Env) (now : Z) (w : World),
    let st := radioStatus env (tick w) in
    let g := signal (node w) in
    signal (node (world_of (loopReceiver ENABLE_WIFI_OTA env now w)))
    = if u32 (now - lastRxMs (node w)) >=? 50 then
        if st =? RADIOLIB_ERR_NONE then
          mkSignal (rxRSSI env (tick w)) (rxSNR env (tick w)) now
                   (u32 (packetCount g + 1)) (errorCount g)
        else if st =? RADIOLIB_ERR_RX_TIMEOUT then g
        else mkSignal (lastRSSI g) (lastSNR g) (lastPacketTime g) (packetCount g)
                      (u32 (errorCount g + 1))
      else g.
Proof.
  intros flag env now w st g. subst st g.
  unfold loopReceiver. run_radio.
  destruct (u32 (now - lastRxMs (node w)) >=? 50); [| reflexivity].
  cbv beta iota delta [when]. run_radio.
  destruct (radioStatus env (tick w) =? RADIOLIB_ERR_NONE).
  - match goal with |- context [handleReceivedPacket flag env now ?rx ?a ?b ?w1] =>
      pose proof (handleReceivedPacket_signal flag env now rx a b w1) as H;
      destruct (handleReceivedPacket flag env now rx a b w1) as [[] w2 | r w2]
    end; cbn [world_of node signal set_lastRxMs] in *; exact H.
  - destruct (radioStatus env (tick w) =? RADIOLIB_ERR_RX_TIMEOUT); reflexivity.
Qed.

(** ** Listening on the control channel *)






(** ** LoRa OTA: chunks that are not plain text *)

Lemma take_word_until (a : string) (c : ascii) (t : string) :
  no_space a = true -> isspace c = true ->
  forall w, (String.length a <= w)%nat ->
    take_word (a ++ String c t) true w = (a, String c t).
Proof.
  intros Ha Hc. induction a as [| x a IH]; intros w L.
  - cbn [String.append take_word]. rewrite Hc. reflexivity.
  - cbn [no_space] in Ha. apply andb_prop in Ha. destruct Ha as [H1 H2].
    apply Bool.negb_true_iff in H1.
    cbn [String.append take_word String.length] in *. rewrite H1.
    destruct w as [| w]; [lia |]. rewrite (IH H2 w) by lia. reflexivity.
Qed.

Lemma c_str_until_nul (a t : string) :
  c_str a = a -> c_str (a ++ String NUL t) = a.
Proof.
  intros H. rewrite c_str_app by exact H. cbn [c_str].
  change (Ascii.eqb NUL NUL) with true. cbv iota. apply append_empty_r.
Qed.

Lemma space_not_nul (c : ascii) : isspace c = true -> Ascii.eqb c NUL = false.
Proof.
  intros H. destruct (Ascii.eqb_spec c NUL) as [-> |]; [discriminate | reflexivity].
Qed.

(** What the receiver reads of a data frame whose chunk holds a NUL or a
    white-space byte after the plain bytes [a]. *)
Lemma ota_data_frame_cut (k : Z) (a : string) (c : ascii) (rest : string) :
  0 <= k <= INT32_MAX ->
  a <> EmptyString -> c_str a = a -> no_space a = true ->
  (String.length a <= 255)%nat ->
  c = NUL \/ isspace c = true ->
  let packet := c_str (snprintf 256 "OTA_DATA:%d:" [AInt k] ++ a ++ String c rest) in
  startsWith packet "OTA_START:" = false
  /\ startsWith packet "OTA_DATA:" = true
  /\ assigned (sscanf (c_str packet) "OTA_DATA:%d:%255s") = [SInt k; SStr a].
Proof.
  intros Hk Hne Hnul Hsp Hlen [-> | Hc] packet; subst packet.
  - replace (c_str (snprintf 256 "OTA_DATA:%d:" [AInt k] ++ a ++ String NUL rest))
      with (c_str (snprintf 256 "OTA_DATA:%d:" [AInt k] ++ a)).
    { exact (ota_data_frame_scan k a Hk Hne Hnul Hsp Hlen). }
    rewrite (ota_data_header k Hk). rewrite !append_assoc.
    repeat (rewrite c_str_app by (reflexivity || (apply c_str_fmt_d; lia))).
    rewrite Hnul, (c_str_until_nul a rest Hnul). reflexivity.
  - rewrite (ota_data_header k Hk).
    assert (C : c_str (("OTA_DATA:" ++ fmt_d k ++ ":") ++ a ++ String c rest)
                = ("OTA_DATA:" ++ fmt_d k ++ ":" ++ a ++ String c (c_str rest))%string).
    { rewrite !append_assoc.
      repeat (rewrite c_str_app by (reflexivity || (apply c_str_fmt_d; lia) || exact Hnul)).
      cbn [c_str]. rewrite (space_not_nul c Hc). reflexivity. }
    rewrite C.
    destruct (ota_data_not_start (fmt_d k ++ ":" ++ a ++ String c (c_str rest))) as [S1 S2].
    split; [exact S1 |]. split; [exact S2 |].
    assert (C2 : forall t, c_str t = t ->
                 c_str ("OTA_DATA:" ++ fmt_d k ++ ":" ++ a ++ String c t)
                 = ("OTA_DATA:" ++ fmt_d k ++ ":" ++ a ++ String c t)%string).
    { intros t Ht.
      repeat (rewrite c_str_app by (reflexivity || (apply c_str_fmt_d; lia) || exact Hnul)).
      cbn [c_str]. rewrite (space_not_nul c Hc), Ht. reflexivity. }
    rewrite C2.
    2: { clear. induction rest as [| x r IH]; [reflexivity |]. cbn [c_str].
         destruct (Ascii.eqb x NUL) eqn:E; [reflexivity |]. cbn [c_str].
         rewrite E, IH. reflexivity. }
    unfold sscanf.
    let l := eval vm_compute in (scan_format None "OTA_DATA:%d:%255s") in
      change (scan_format None "OTA_DATA:%d:%255s") with l.
    cbn [String.append]. rewrite !scan_lit.
    rewrite scan_int by (trivial; reflexivity).
    rewrite scan_lit. cbn [scan assigned input_failure].
    destruct a as [| x a']; [congruence |].
    pose proof Hsp as Hsp'. cbn [no_space] in Hsp'. apply andb_prop in Hsp'.
    destruct Hsp' as [Hx _]. apply Bool.negb_true_iff in Hx.
    cbn [String.append skip_space]. rewrite Hx.
    cbn [scan_conv]. change (negb (255 =? 0)%nat) with true.
    change (String x (a' ++ String c (c_str rest)))
      with (String x a' ++ String c (c_str rest))%string.
    rewrite (take_word_until (String x a') c (c_str rest) Hsp Hc 255 Hlen). reflexivity.
Qed.

(** X21.  The data framing is not binary safe.  When a chunk holds a NUL or
    a white-space byte after the plain bytes [a], the frame the sender builds
    for it is read by the receiver as [a] only: the receiver's byte count
    grows by the length of [a], which is less than the length of the chunk
    that the sender has counted as sent. *)
Theorem ota_chunk_cut_at_nul_or_space :
  forall (env : Env) (k : Z) (a : string) (c : ascii) (rest : string) (w : World),
    let chunk := (a ++ String c rest)%string in
    let packet := c_str (snprintf 256 "OTA_DATA:%d:" [AInt k] ++ chunk) in
    let o := ota (node w) in
    0 <= k <= INT32_MAX ->
    a <> EmptyString -> c_str a = a -> no_space a = true ->
    (String.length chunk <= 200)%nat ->
    c = NUL \/ isspace c = true ->
    loraOtaActive o = true ->
    otaInvariant w ->
    loraOtaBufferSize o + strlen a < OTA_BUFFER_SIZE ->
    let out := handleLoraOtaPacket env packet w in
    let o' := ota (node (world_of out)) in
    loraOtaReceivedSize o' = loraOtaReceivedSize o + strlen a
    /\ loraOtaBufferSize o' = loraOtaBufferSize o + strlen a
    /\ strlen a < strlen chunk
    /\ trace (world_of out) = trace w.
Proof.
  intros env k a c rest w chunk packet o Hk Hne Hnul Hsp Hlen Hc Act Inv Hfit out o'.
  assert (La : (String.length a < String.length chunk)%nat).
  { unfold chunk. rewrite append_length. cbn [String.length]. lia. }
  destruct (ota_data_frame_cut k a c rest Hk Hne Hnul Hsp ltac:(lia) Hc) as (S1 & S2 & A).
  destruct (ota_data_stored env _ a k w S1 S2 A Act Inv Hfit) as [W _].
  fold chunk in W. fold packet in W. fold out in W. subst o'. rewrite W.
  cbn [node ota set_ota loraOtaReceivedSize loraOtaBufferSize trace].
  repeat split. unfold strlen. lia.
Qed.

Lemma ota_chunk_cut_at_nul_or_space_witness :
  let out := handleLoraOtaPacket quietEnv
               (c_str (snprintf 256 "OTA_DATA:%d:" [AInt 0] ++ "firm ware"))
               (sessionWorld 1000 10) in
  loraOtaReceivedSize (ota (node (world_of out))) = 14.
Proof.
  pose proof (ota_chunk_cut_at_nul_or_space quietEnv 0 "firm" " "%char "ware"
                                            (sessionWorld 1000 10)) as H.
  cbv zeta in H.
  destruct H as (H1 & _).
  - unfold INT32_MAX. lia.
  - discriminate.
  - reflexivity.
  - reflexivity.
  - cbn. lia.
  - right. reflexivity.
  - reflexivity.
  - unfold otaInvariant, OTA_BUFFER_SIZE. cbn. repeat split; lia.
  - unfold OTA_BUFFER_SIZE. cbn. lia.
  - exact H1.
Defined.
